(** * uc480 camera driver: acquisition geometry, ring buffer and frame decoding

    A shallow embedding of [pylablib/devices/uc480/uc480.py] (class
    [UC480Camera]) and the properties of its region-of-interest negotiation,
    mode tables, buffer pool, acquisition control, pixel-format probing and
    frame decoding.

    Python integers are [Z]; [//] and [%] are floor division and the modulus
    that takes the sign of the divisor, which is what [Z.div] and [Z.modulo]
    compute for a non-zero divisor; a zero divisor raises. Exceptions are
    values of [Py.exn]; code that mutates the camera object or the device lives
    in the state-and-exception monad [M]. *)

From stdpp Require Import base numbers list list_numbers gmap sorting strings pretty.
From Stdlib Require Import ZArith Lia.

Local Open Scope Z_scope.

(** ** Python values and exceptions *)

Module Py.

Inductive exn : Type :=
| ValueError
| TypeError
| KeyError
| IndexError
| ZeroDivisionError
| uc480LibError (code : Z).

Inductive result (A : Type) : Type :=
| Ok (a : A)
| Raise (e : exn).
Arguments Ok {A} a.
Arguments Raise {A} e.

#[export] Instance result_ret : MRet result := λ A a, Ok a.
#[export] Instance result_bind : MBind result := λ A B f m,
  match m with Ok a => f a | Raise e => Raise e end.

(** [a // b] *)
Definition floordiv (a b : Z) : result Z :=
  if decide (b = 0) then Raise ZeroDivisionError else Ok (a `div` b).

(** [a % b] *)
Definition modulo (a b : Z) : result Z :=
  if decide (b = 0) then Raise ZeroDivisionError else Ok (a `mod` b).

(** [max(l)] of a list: [ValueError] on the empty list. *)
Definition max (l : list Z) : result Z :=
  match l with
  | [] => Raise ValueError
  | x :: l' => Ok (foldl Z.max x l')
  end.

(** [sorted(s)] of a set of integers. *)
Definition sorted (s : gset Z) : list Z := merge_sort Z.le (elements s).

(** [d[k]] on a dict kept as an association list in insertion order. *)
Fixpoint getitem {K V : Type} `{EqDecision K} (d : list (K * V)) (k : K) : result V :=
  match d with
  | [] => Raise KeyError
  | (k', v) :: d' => if decide (k' = k) then Ok v else getitem d' k
  end.

End Py.
Import Py.

(** ** The device behind the camera handle *)

(** The two directions of the mode tables: the keys ["v"] and ["h"]. *)
Inductive axis : Type := V | H.

#[global] Instance axis_eq_dec : EqDecision axis.
Proof. solve_decision. Defined.

(** The value of [roi_binning_mode] once the constructor has resolved "auto". *)
Inductive roi_binning_mode : Type := bin | subsample.

Record IS_RECT : Type := mkRect {
  s32X : Z; s32Y : Z; s32Width : Z; s32Height : Z
}.

(** What the sensor reports once per session: detector size
    ([is_GetSensorInfo]), the area-of-interest limits ([is_AOI] size minimum,
    size increment, position increment, each as (horizontal, vertical)) and
    the capability masks of binning and subsampling. *)
Record Limits : Type := mkLimits {
  nMaxWidth : Z;
  nMaxHeight : Z;
  size_min : Z * Z;
  size_inc : Z * Z;
  pos_inc : Z * Z;
  supported_binning : Z;
  supported_subsampling : Z
}.

(** How the device answers [is_SetColorMode(hcam, m)]. *)
Inductive color_reply : Type :=
| Applied
| Replaced (by_mode : Z)
| Refused (code : Z).

(** A buffer as [is_AllocImageMem] returns it: (memory pointer, memory id). *)
Abbreviation buffer := (Z * Z)%type.

(** Modelled from the spec: the camera itself is reached only through the
    vendor library, which is not part of the driver file; this is the state
    the spec's Device capability needs: the reported limits, the geometry
    registers, the active pixel format with the device's answer to a format
    request, the image memory with its answer to an allocation request, and
    the capture state. *)
Record Device : Type := mkDevice {
  limits : Limits;
  (* geometry registers *)
  aoi : IS_RECT;
  binning : Z;
  subsampling : Z;
  (* pixel format *)
  color_mode : Z;
  answer_color : Z → color_reply;
  (* image memory *)
  image_mem : list buffer;
  sequence : list buffer;
  next_mem : Z;
  answer_alloc : list buffer → Z * Z * Z → option Z;
  image_info : Z → Z * Z;
  (* capture *)
  live : bool;
  sequence_cnt : Z
}.

(** The fields of [UC480Camera] the modelled methods use. [hcam] stands for
    the device the handle refers to. *)
Record UC480Camera : Type := mkCamera {
  hcam : Device;
  _buffers : option (list buffer);
  _acq_in_progress : bool;
  _roi_binning_mode : roi_binning_mode;
  _frame_counter : Z
}.

(** ** The camera object as mutable state *)

(** A method body: it reads and updates the camera (and the device behind
    it) and either returns or raises; what was mutated before a raise stays
    mutated. *)
Definition M (A : Type) : Type := UC480Camera → result A * UC480Camera.

#[global] Instance M_ret : MRet M := λ A a self, (Ok a, self).
#[global] Instance M_bind : MBind M := λ A B f m self,
  match m self with
  | (Ok a, self') => f a self'
  | (Raise e, self') => (Raise e, self')
  end.

Definition raise {A : Type} (e : exn) : M A := λ self, (Raise e, self).
Definition lift {A : Type} (r : result A) : M A := λ self, (r, self).
Definition get_self : M UC480Camera := λ self, (Ok self, self).
Definition get_device : M Device := λ self, (Ok (hcam self), self).
Definition put_device (d : Device) : M unit := λ self,
  (Ok (), mkCamera d (_buffers self) (_acq_in_progress self)
                   (_roi_binning_mode self) (_frame_counter self)).
Definition put_buffers (b : option (list buffer)) : M unit := λ self,
  (Ok (), mkCamera (hcam self) b (_acq_in_progress self)
                   (_roi_binning_mode self) (_frame_counter self)).
Definition put_acq_in_progress (b : bool) : M unit := λ self,
  (Ok (), mkCamera (hcam self) (_buffers self) b
                   (_roi_binning_mode self) (_frame_counter self)).
Definition put_frame_counter (n : Z) : M unit := λ self,
  (Ok (), mkCamera (hcam self) (_buffers self) (_acq_in_progress self)
                   (_roi_binning_mode self) n).

(** [try: body except uc480LibError as err: handler(err)]; other exceptions
    pass through. *)
Definition try_except_lib {A : Type} (body : M A) (handler : Z → M A) : M A :=
  λ self,
    match body self with
    | (Raise (uc480LibError code), self') => handler code self'
    | other => other
    end.

(** [for x in l: body(x)] *)
Fixpoint for_each {A : Type} (l : list A) (body : A → M unit) : M unit :=
  match l with
  | [] => mret ()
  | x :: l' => body x ;; for_each l' body
  end.

(** [for _ in range(n): body] *)
Fixpoint for_range (n : nat) (body : M unit) : M unit :=
  match n with
  | O => mret ()
  | S n' => body ;; for_range n' body
  end.

(** *** Register updates of the device *)

Definition with_modes (bin_reg sub_reg : Z) (d : Device) : Device :=
  mkDevice (limits d) (aoi d) bin_reg sub_reg
           (color_mode d) (answer_color d)
           (image_mem d) (sequence d) (next_mem d) (answer_alloc d) (image_info d)
           (live d) (sequence_cnt d).

Definition with_color_mode (m : Z) (d : Device) : Device :=
  mkDevice (limits d) (aoi d) (binning d) (subsampling d)
           m (answer_color d)
           (image_mem d) (sequence d) (next_mem d) (answer_alloc d) (image_info d)
           (live d) (sequence_cnt d).

Definition with_memory (mem seq : list buffer) (next : Z) (d : Device) : Device :=
  mkDevice (limits d) (aoi d) (binning d) (subsampling d)
           (color_mode d) (answer_color d)
           mem seq next (answer_alloc d) (image_info d)
           (live d) (sequence_cnt d).

Definition with_live (b : bool) (d : Device) : Device :=
  mkDevice (limits d) (aoi d) (binning d) (subsampling d)
           (color_mode d) (answer_color d)
           (image_mem d) (sequence d) (next_mem d) (answer_alloc d) (image_info d)
           b (sequence_cnt d).

Definition with_aoi (rect : IS_RECT) (d : Device) : Device :=
  mkDevice (limits d) rect (binning d) (subsampling d)
           (color_mode d) (answer_color d)
           (image_mem d) (sequence d) (next_mem d) (answer_alloc d) (image_info d)
           (live d) (sequence_cnt d).

(** [[body(x) for x in l]] *)
Fixpoint for_collect {A B : Type} (l : list A) (body : A → M B) : M (list B) :=
  match l with
  | [] => mret []
  | x :: l' =>
      y ← body x;
      ys ← for_collect l' body;
      mret (y :: ys)
  end.

(** ** Supported binning and subsampling factors *)

Section Driver.

(** The constants [uc480_defs.SUBSAMPLING.IS_SUBSAMPLING_<s>X_<d>] and
    [uc480_defs.BINNING.IS_BINNING_<s>X_<d>] are defined outside the driver
    file; they are taken as parameters, indexed by direction and factor. *)
Variable SUBSAMPLING : axis → Z → Z.
Variable BINNING : axis → Z → Z.

(** Likewise [uc480_defs.COLORMODE.<name>], indexed by the constant's name,
    and the two error codes of [uc480_defs.ERROR] that matter here. *)
Variable COLORMODE : string → Z.
Variable IS_INVALID_COLOR_FORMAT : Z.
Variable IS_INVALID_PARAMETER : Z.

Definition _subsampling_modes : list ((axis * Z) * Z) :=
  [ ((V, 1), 0); ((H, 1), 0);
    ((V, 2), SUBSAMPLING V 2); ((H, 2), SUBSAMPLING H 2);
    ((V, 3), SUBSAMPLING V 3); ((H, 3), SUBSAMPLING H 3);
    ((V, 4), SUBSAMPLING V 4); ((H, 4), SUBSAMPLING H 4);
    ((V, 5), SUBSAMPLING V 5); ((H, 5), SUBSAMPLING H 5);
    ((V, 6), SUBSAMPLING V 6); ((H, 6), SUBSAMPLING H 6);
    ((V, 8), SUBSAMPLING V 8); ((H, 8), SUBSAMPLING H 8);
    ((V, 16), SUBSAMPLING V 16); ((H, 16), SUBSAMPLING H 16) ].

Definition _binning_modes : list ((axis * Z) * Z) :=
  [ ((V, 1), 0); ((H, 1), 0);
    ((V, 2), BINNING V 2); ((H, 2), BINNING H 2);
    ((V, 3), BINNING V 3); ((H, 3), BINNING H 3);
    ((V, 4), BINNING V 4); ((H, 4), BINNING H 4);
    ((V, 5), BINNING V 5); ((H, 5), BINNING H 5);
    ((V, 6), BINNING V 6); ((H, 6), BINNING H 6);
    ((V, 8), BINNING V 8); ((H, 8), BINNING H 8);
    ((V, 16), BINNING V 16); ((H, 16), BINNING H 16) ].

(** [supp={"v":set(),"h":set()}] and [supp[d].add(s)]. *)
Definition supp_add (d : axis) (s : Z) (supp : gset Z * gset Z) : gset Z * gset Z :=
  match d with
  | V => ({[ s ]} ∪ supp.1, supp.2)
  | H => (supp.1, {[ s ]} ∪ supp.2)
  end.

Definition supp_get (supp : gset Z * gset Z) (d : axis) : gset Z :=
  match d with V => supp.1 | H => supp.2 end.

(** One turn of the loop shared by the two queries:
    [if all_modes&mask==mask: supp[d].add(s)]. *)
Definition collect_step (all_modes : Z) (supp : gset Z * gset Z)
    (item : (axis * Z) * Z) : gset Z * gset Z :=
  let '((d, s), mask) := item in
  if decide (Z.land all_modes mask = mask) then supp_add d s supp else supp.

(** [for (d,s),mask in modes.items(): ...] from [supp={"v":set(),"h":set()}]. *)
Definition collect_supported (all_modes : Z) (modes : list ((axis * Z) * Z))
  : gset Z * gset Z :=
  foldl (collect_step all_modes) (∅, ∅) modes.

Definition get_supported_subsampling_modes (self : UC480Camera) : list Z * list Z :=
  let all_modes := supported_subsampling (limits (hcam self)) in
  let supp := collect_supported all_modes _subsampling_modes in
  (sorted (supp_get supp H), sorted (supp_get supp V)).

Definition get_supported_binning_modes (self : UC480Camera) : list Z * list Z :=
  let all_modes := supported_binning (limits (hcam self)) in
  let supp := collect_supported all_modes _binning_modes in
  (sorted (supp_get supp V), sorted (supp_get supp H)).

(** ** Factor truncation *)

(** [max([m for m in modes if m<=sub])] *)
Definition largest_below (modes : list Z) (sub : Z) : result Z :=
  Py.max (filter (λ m, m ≤ sub) modes).

Definition _truncate_subsampling (hsub vsub : Z) (all_modes : list Z * list Z)
  : result (Z * Z) :=
  let hsub := Z.max hsub 1 in
  let vsub := Z.max vsub 1 in
  let '(hmodes, vmodes) := all_modes in
  hsub ← largest_below hmodes hsub;
  vsub ← largest_below vmodes vsub;
  mret (hsub, vsub).

Definition _truncate_roi_binning (self : UC480Camera) (hbin vbin : Z) : result (Z * Z) :=
  let all_modes :=
    match _roi_binning_mode self with
    | subsample => get_supported_subsampling_modes self
    | bin => get_supported_binning_modes self
    end in
  _truncate_subsampling hbin vbin all_modes.

(** The pair of lists [_truncate_roi_binning] passes on as [all_modes], named
    for the statements about it. *)
Definition roi_binning_modes (self : UC480Camera) : list Z * list Z :=
  match _roi_binning_mode self with
  | subsample => get_supported_subsampling_modes self
  | bin => get_supported_binning_modes self
  end.

(** ** Region-of-interest negotiation *)

Definition get_detector_size (self : UC480Camera) : Z * Z :=
  (nMaxWidth (limits (hcam self)), nMaxHeight (limits (hcam self))).

(** Per axis: (minimal size, size step, position step). *)
Definition _get_roi_limits (self : UC480Camera) : (Z * Z * Z) * (Z * Z * Z) :=
  let smin := size_min (limits (hcam self)) in
  let sstep := size_inc (limits (hcam self)) in
  let pstep := pos_inc (limits (hcam self)) in
  ((smin.1, sstep.1, pstep.1), (smin.2, sstep.2, pstep.2)).

Definition _adj_roi_axis (start : Z) (end_ : option Z)
    (minsize detsize wstep pstep binv : Z) : result (Z * Z) :=
  let end_ := default detsize end_ in
  start ← floordiv start binv;
  end_ ← floordiv end_ binv;
  detsize ← floordiv detsize binv;
  let end_ := Z.min end_ detsize in
  let start := Z.min start detsize in
  r ← modulo start pstep;
  let start := start - r in
  r ← modulo end_ pstep;
  let end_ := end_ - r in
  r ← modulo (end_ - start) wstep;
  let end_ := end_ - r in
  let end_ := if decide (end_ - start < minsize) then start + minsize else end_ in
  let '(start, end_) :=
    if decide (end_ > detsize) then (detsize - minsize, detsize) else (start, end_) in
  mret (start * binv, end_ * binv).

(** A request as [set_roi] and [_trunc_roi] take it; an end that is [None]
    means "up to the detector edge". *)
Record roi_request : Type := mkRequest {
  req_hstart : Z; req_hend : option Z;
  req_vstart : Z; req_vend : option Z;
  req_hbin : Z; req_vbin : Z
}.

(** The 6-tuple [(hstart, hend, vstart, vend, hbin, vbin)]. *)
Record roi : Type := mkRoi {
  hstart : Z; hend : Z; vstart : Z; vend : Z; hbin : Z; vbin : Z
}.

Definition _trunc_roi (self : UC480Camera) (r : roi_request) : result roi :=
  let '(wdet, hdet) := get_detector_size self in
  '(hbin, vbin) ← _truncate_roi_binning self (req_hbin r) (req_vbin r);
  let '(hlims, vlims) := _get_roi_limits self in
  '(hstart, hend) ← _adj_roi_axis (req_hstart r) (req_hend r)
                      hlims.1.1 wdet hlims.1.2 hlims.2 hbin;
  '(vstart, vend) ← _adj_roi_axis (req_vstart r) (req_vend r)
                      vlims.1.1 hdet vlims.1.2 vlims.2 vbin;
  mret (mkRoi hstart hend vstart vend hbin vbin).

(** Passing a negotiated ROI back in as the six arguments of [_trunc_roi]. *)
Definition as_request (r : roi) : roi_request :=
  mkRequest (hstart r) (Some (hend r)) (vstart r) (Some (vend r)) (hbin r) (vbin r).


(** ** Binning and subsampling setters *)

(** Modelled from the spec: the binding layer [uc480_lib] is not part of the
    driver file, so [lib.is_SetSubSampling(hcam, mask, check=True)] is the
    spec's Device capability: the device takes a mask made of supported bits
    and refuses any other with an error; the two modes are mutually exclusive
    on the device (the docstring of [set_subsampling]: "Automatically turns
    off binning"), so writing a non-trivial subsampling mask clears the
    binning register. *)
Definition is_SetSubSampling (mask : Z) : M unit :=
  d ← get_device;
  if decide (Z.land (supported_subsampling (limits d)) mask = mask) then
    let bin_reg := if bool_decide (mask ≠ 0) then 0 else binning d in
    put_device (with_modes bin_reg mask d)
  else raise (uc480LibError IS_INVALID_PARAMETER).

(** Modelled from the spec: [lib.is_SetBinning(hcam, mask, check=True)], the
    counterpart of [is_SetSubSampling] for the binning register (the
    docstring of [set_binning]: "Automatically turns off subsampling"). *)
Definition is_SetBinning (mask : Z) : M unit :=
  d ← get_device;
  if decide (Z.land (supported_binning (limits d)) mask = mask) then
    let sub_reg := if bool_decide (mask ≠ 0) then 0 else subsampling d in
    put_device (with_modes mask sub_reg d)
  else raise (uc480LibError IS_INVALID_PARAMETER).

(** Modelled from the spec: the factor queries
    [IS_GET_SUBSAMPLING_FACTOR_<d>] and [IS_GET_BINNING_FACTOR_<d>] of the
    binding layer: the factor whose non-trivial mask is set in the register,
    and 1 when there is none. *)
Definition factor_of (modes : list ((axis * Z) * Z)) (d : axis) (reg : Z) : Z :=
  match filter (λ item : (axis * Z) * Z,
                  item.1.1 = d ∧ item.2 ≠ 0 ∧ Z.land reg item.2 = item.2) modes with
  | [] => 1
  | item :: _ => item.1.2
  end.

Definition get_subsampling : M (Z * Z) :=
  d ← get_device;
  let hsub := factor_of _subsampling_modes H (subsampling d) in
  let vsub := factor_of _subsampling_modes V (subsampling d) in
  mret (hsub, vsub).

Definition get_binning : M (Z * Z) :=
  d ← get_device;
  let hbin := factor_of _binning_modes H (binning d) in
  let vbin := factor_of _binning_modes V (binning d) in
  mret (hbin, vbin).

(** [_p_subsampling_mode(key)] and [_p_binning_mode(key)] look the key up in
    the table the parameter class was built from. *)
Definition set_subsampling (hsub vsub : Z) : M (Z * Z) :=
  self ← get_self;
  '(hsub, vsub) ← lift (_truncate_subsampling hsub vsub
                          (get_supported_subsampling_modes self));
  mh ← lift (getitem _subsampling_modes (H, hsub));
  mv ← lift (getitem _subsampling_modes (V, vsub));
  is_SetSubSampling (Z.lor mh mv) ;;
  get_subsampling.

Definition set_binning (hbin vbin : Z) : M (Z * Z) :=
  self ← get_self;
  '(hbin, vbin) ← lift (_truncate_subsampling hbin vbin
                          (get_supported_binning_modes self));
  mh ← lift (getitem _binning_modes (H, hbin));
  mv ← lift (getitem _binning_modes (V, vbin));
  is_SetBinning (Z.lor mh mv) ;;
  get_binning.

Definition _get_roi_binning : M (Z * Z) :=
  self ← get_self;
  match _roi_binning_mode self with
  | subsample => get_subsampling
  | bin => get_binning
  end.

(** The setters' default arguments are [1, 1]. *)
Definition _set_roi_binning (hbin vbin : Z) : M unit :=
  self ← get_self;
  match _roi_binning_mode self with
  | subsample => set_subsampling hbin vbin ;; set_binning 1 1 ;; mret ()
  | bin => set_subsampling 1 1 ;; set_binning hbin vbin ;; mret ()
  end.

Definition get_roi : M roi :=
  d ← get_device;
  let rect := aoi d in
  '(hbin, vbin) ← _get_roi_binning;
  mret (mkRoi (s32X rect * hbin) ((s32X rect + s32Width rect) * hbin)
              (s32Y rect * vbin) ((s32Y rect + s32Height rect) * vbin)
              hbin vbin).

(** Rows and columns of a frame. *)
Definition _get_data_dimensions_rc : M (Z * Z) :=
  r ← get_roi;
  rows ← lift (floordiv (vend r - vstart r) (vbin r));
  cols ← lift (floordiv (hend r - hstart r) (hbin r));
  mret (rows, cols).

(** ** Pixel formats *)

Definition _color_modes : list (string * Z) :=
  [ ("raw8", COLORMODE "IS_CM_SENSOR_RAW8"); ("raw10", COLORMODE "IS_CM_SENSOR_RAW10");
    ("raw12", COLORMODE "IS_CM_SENSOR_RAW12"); ("raw16", COLORMODE "IS_CM_SENSOR_RAW16");
    ("mono8", COLORMODE "IS_CM_MONO8"); ("mono10", COLORMODE "IS_CM_MONO10");
    ("mono12", COLORMODE "IS_CM_MONO12"); ("mono16", COLORMODE "IS_CM_MONO16");
    ("bgr5p", COLORMODE "IS_CM_BGR5_PACKED"); ("bgr565p", COLORMODE "IS_CM_BGR565_PACKED");
    ("rgb8p", COLORMODE "IS_CM_RGB8_PACKED"); ("bgr8p", COLORMODE "IS_CM_BGR8_PACKED");
    ("rgba8p", COLORMODE "IS_CM_RGBA8_PACKED"); ("bgra8p", COLORMODE "IS_CM_BGRA8_PACKED");
    ("rgby8p", COLORMODE "IS_CM_RGBY8_PACKED"); ("bgry8p", COLORMODE "IS_CM_BGRY8_PACKED");
    ("rgb10p", COLORMODE "IS_CM_RGB10_PACKED"); ("bgr10p", COLORMODE "IS_CM_BGR10_PACKED");
    ("rgb10up", COLORMODE "IS_CM_RGB10_UNPACKED"); ("bgr10up", COLORMODE "IS_CM_BGR10_UNPACKED");
    ("rgb12up", COLORMODE "IS_CM_RGB12_UNPACKED"); ("bgr12up", COLORMODE "IS_CM_BGR12_UNPACKED");
    ("rgba12up", COLORMODE "IS_CM_RGBA12_UNPACKED"); ("bgra12up", COLORMODE "IS_CM_BGRA12_UNPACKED");
    ("cbycryp", COLORMODE "IS_CM_CBYCRY_PACKED"); ("uyuvp", COLORMODE "IS_CM_UYVY_PACKED");
    ("uyvy_monop", COLORMODE "IS_CM_UYVY_MONO_PACKED");
    ("uyuv_bayerp", COLORMODE "IS_CM_UYVY_BAYER_PACKED");
    ("jpeg", COLORMODE "IS_CM_JPEG"); ("rgb8plan", COLORMODE "IS_CM_RGB8_PLANAR") ].

(** (bits per pixel, channels per pixel), or [None]. *)
Definition _mode_properties : list (string * option (Z * Z)) :=
  [ ("raw8", Some (8, 1)); ("raw10", Some (16, 1)); ("raw12", Some (16, 1));
    ("raw16", Some (16, 1));
    ("mono8", Some (8, 1)); ("mono10", Some (16, 1)); ("mono12", Some (16, 1));
    ("mono16", Some (16, 1));
    ("bgr5p", Some (16, 1)); ("bgr565p", Some (16, 1)); ("rgb8p", Some (24, 3));
    ("bgr8p", Some (24, 3));
    ("rgba8p", Some (32, 4)); ("bgra8p", Some (32, 4)); ("rgby8p", Some (32, 4));
    ("bgry8p", Some (32, 4));
    ("rgb10p", Some (24, 1)); ("bgr10p", Some (24, 1)); ("rgb10up", Some (48, 3));
    ("bgr10up", Some (48, 3));
    ("rgb12up", Some (48, 3)); ("bgr12up", Some (48, 3)); ("rgba12up", Some (64, 4));
    ("bgra12up", Some (64, 4));
    ("cbycryp", None); ("uyuvp", Some (32, 4)); ("uyvy_monop", Some (32, 4));
    ("uyuv_bayerp", Some (32, 4));
    ("jpeg", None); ("rgb8plan", None) ].

(** Modelled from the spec: [lib.is_SetColorMode(hcam, IS_GET_COLOR_MODE)] of
    the absent binding layer reads back the active pixel format. *)
Definition is_GetColorMode : M Z :=
  d ← get_device;
  mret (color_mode d).

(** Modelled from the spec: [lib.is_SetColorMode(hcam, m, check=True)] of the
    absent binding layer: the device applies the format, silently puts
    another one in its place, or refuses with an error code, which
    [check=True] turns into [uc480LibError]. *)
Definition is_SetColorMode_check (m : Z) : M unit :=
  d ← get_device;
  match answer_color d m with
  | Applied => put_device (with_color_mode m d)
  | Replaced m' => put_device (with_color_mode m' d)
  | Refused code => raise (uc480LibError code)
  end.

(** Modelled from the spec: [lib.is_SetColorMode(hcam, m)] without
    [check=True]: the same device command, with the error code returned
    instead of raised. *)
Definition is_SetColorMode (m : Z) : M unit :=
  d ← get_device;
  match answer_color d m with
  | Applied => put_device (with_color_mode m d)
  | Replaced m' => put_device (with_color_mode m' d)
  | Refused _ => mret ()
  end.

(** One turn of the loop over [_color_modes.items()]. *)
Definition probe_color_mode (n : string) (m : Z) (names : list string) : M (list string) :=
  try_except_lib
    (is_SetColorMode_check m ;;
     nm ← is_GetColorMode;
     mret (if decide (m = nm) then names ++ [n] else names))
    (λ code,
       if decide (code ≠ IS_INVALID_COLOR_FORMAT)
       then raise (uc480LibError code)
       else mret names).

Fixpoint probe_all (items : list (string * Z)) (names : list string) : M (list string) :=
  match items with
  | [] => mret names
  | (n, m) :: items' =>
      names' ← probe_color_mode n m names;
      probe_all items' names'
  end.

Definition _check_all_color_modes : M (list string) :=
  m0 ← is_GetColorMode;
  names ← probe_all _color_modes [];
  is_SetColorMode m0 ;;
  mret names.

(** Modelled from the spec: [interface.EnumParameterClass] is defined outside
    the driver file; the decorator [use_parameters(_returns="color_mode")]
    turns the device code into the name registered for it in
    [_color_modes]. *)
Fixpoint name_of_code (d : list (string * Z)) (code : Z) : result string :=
  match d with
  | [] => Raise KeyError
  | (n, c) :: d' => if decide (c = code) then Ok n else name_of_code d' code
  end.

Definition get_color_mode : M string :=
  code ← is_GetColorMode;
  lift (name_of_code _color_modes code).

(** Called with [mode=None] throughout the driver; the name [get_color_mode]
    returns is a key of [_color_modes], so it is looked up as it is. *)
Definition _get_pixel_mode_settings : M (option (Z * Z)) :=
  mode ← get_color_mode;
  lift (getitem _mode_properties mode).

(** ** Buffer pool *)

(** Modelled from the spec: [lib.is_AllocImageMem] of the absent binding
    layer is the Device capability [allocateBuffer(size) -> handle | fails]:
    the device either refuses with an error code, whatever it bases that on
    ([answer_alloc] sees the buffers it holds and the requested frame), or
    hands out a fresh (pointer, id) pair and keeps the buffer. *)
Definition is_AllocImageMem (width height bpp : Z) : M buffer :=
  d ← get_device;
  match answer_alloc d (image_mem d) (width, height, bpp) with
  | Some code => raise (uc480LibError code)
  | None =>
      let b := (next_mem d, next_mem d) in
      put_device (with_memory (image_mem d ++ [b]) (sequence d) (next_mem d + 1) d) ;;
      mret b
  end.

(** Modelled from the spec: [lib.is_AddToSequence], the Device capability
    [registerBuffer]. *)
Definition is_AddToSequence (b : buffer) : M unit :=
  d ← get_device;
  put_device (with_memory (image_mem d) (sequence d ++ [b]) (next_mem d) d).

(** Modelled from the spec: [lib.is_ClearSequence], the Device capability
    [clearSequence]. *)
Definition is_ClearSequence : M unit :=
  d ← get_device;
  put_device (with_memory (image_mem d) [] (next_mem d) d).

(** Modelled from the spec: [lib.is_FreeImageMem], the Device capability
    [freeBuffer(handle)]. *)
Definition is_FreeImageMem (b : buffer) : M unit :=
  d ← get_device;
  put_device (with_memory (filter (λ b', b' ≠ b) (image_mem d)) (sequence d) (next_mem d) d).

Definition _deallocate_buffers : M unit :=
  self ← get_self;
  match _buffers self with
  | Some bs =>
      is_ClearSequence ;;
      for_each bs is_FreeImageMem ;;
      put_buffers None
  | None => mret ()
  end.

(** [self._buffers.append(b)]; the attribute is a list at this point. *)
Definition buffers_append (b : buffer) : M unit :=
  self ← get_self;
  match _buffers self with
  | Some bs => put_buffers (Some (bs ++ [b]))
  | None => raise TypeError
  end.

(** [self._buffers[-1]] *)
Definition buffers_last : M buffer :=
  self ← get_self;
  match _buffers self with
  | Some bs => match last bs with Some b => mret b | None => raise IndexError end
  | None => raise TypeError
  end.

(** One turn of the loop of [_allocate_buffers]: allocate a buffer, append
    it to the list and add the last element of the list to the sequence. *)
Definition allocate_one (frame_size : Z * Z) (bpp : Z) : M unit :=
  b ← is_AllocImageMem frame_size.1 frame_size.2 bpp;
  buffers_append b ;;
  b' ← buffers_last;
  is_AddToSequence b'.

Definition _allocate_buffers (n : Z) : M Z :=
  _deallocate_buffers ;;
  '(rows, cols) ← _get_data_dimensions_rc;
  let frame_size := (cols, rows) in
  pm ← _get_pixel_mode_settings;
  bpp ← match pm with Some (bpp, _) => mret bpp | None => raise TypeError end;
  put_buffers (Some []) ;;
  for_range (Z.to_nat n) (allocate_one frame_size bpp) ;;
  mret n.

(** ** Acquisition control *)

(** [self._acq_in_progress()]: the attribute holds [True] or [False] (it is
    assigned in the constructor, in [start_acquisition] and in
    [stop_acquisition], always a [bool]), and calling a [bool] raises
    [TypeError]. *)
Definition call_bool (b : bool) : M bool := raise TypeError.

(** Modelled from the spec: [lib.is_CameraStatus(hcam, IS_SEQUENCE_CNT,
    IS_GET_STATUS)] of the absent binding layer, the Device capability
    [queryAcquiredSequenceCount]. *)
Definition _get_acquired_frames : M Z :=
  d ← get_device;
  mret (sequence_cnt d).

(** Modelled from the spec: [lib.is_StopLiveVideo], the Device capability
    [stopCapture]. *)
Definition is_StopLiveVideo : M unit :=
  d ← get_device;
  put_device (with_live false d).

(** Modelled from the spec: [lib.is_CaptureVideo(hcam, IS_DONT_WAIT,
    check=True)], the Device capability [startCapture]. *)
Definition is_CaptureVideo : M unit :=
  d ← get_device;
  put_device (with_live true d).

(** Modelled from the spec: the frame counter of the camera base class
    (outside the driver file) is the spec's [acquiredFrameCount];
    [update_acquired_frames] stores the sampled count and [reset] zeroes
    it. *)
Definition update_acquired_frames (n : Z) : M unit := put_frame_counter n.

Definition stop_acquisition : M unit :=
  self ← get_self;
  running ← call_bool (_acq_in_progress self);
  if running : bool then
    n ← _get_acquired_frames;
    update_acquired_frames n ;;
    is_StopLiveVideo ;;
    put_acq_in_progress false
  else mret ().

(** The calls in between that go to the camera base class and to
    [is_ResetCaptureStatus] touch nothing modelled here; the counter reset is
    that of [_frame_counter.reset]. *)
Definition start_acquisition : M unit :=
  stop_acquisition ;;
  is_CaptureVideo ;;
  put_acq_in_progress true ;;
  put_frame_counter 0.

(** ** Frame decoding *)

(** The values of [_np_dtypes]: ["u1"], ["<u2"], ["<u4"]. *)
Inductive np_dtype : Type := u1 | le_u2 | le_u4.

(** [dtype.itemsize] *)
Definition itemsize (t : np_dtype) : Z :=
  match t with u1 => 1 | le_u2 => 2 | le_u4 => 4 end.

Definition _np_dtypes : list (Z * np_dtype) := [ (8, u1); (16, le_u2); (32, le_u4) ].

(** What [np.empty(shape=shape, dtype=dtype)] fixes of the array the frame is
    copied into. *)
Record ndarray : Type := mkArray { shape : list Z; dtype : np_dtype }.

(** [(dwImageWidth, dwImageHeight)] of [is_GetImageInfo]. *)
Abbreviation frame_info := (Z * Z)%type.

Definition _read_buffer (n : Z) : M (ndarray * frame_info) :=
  self ← get_self;
  bufs ← match _buffers self with Some bs => mret bs | None => raise TypeError end;
  i ← lift (modulo n (Z.of_nat (length bufs)));
  buff ← match bufs !! Z.to_nat i with Some b => mret b | None => raise IndexError end;
  d ← get_device;
  let info := image_info d buff.2 in
  pm ← _get_pixel_mode_settings;
  '(bpp, nchan) ← match pm with Some p => mret p | None => raise TypeError end;
  let shape := [info.2; info.1] ++ (if decide (nchan > 1) then [nchan] else []) in
  width ← lift (floordiv bpp nchan);
  t ← lift (getitem _np_dtypes width);
  mret (mkArray shape t, info).

(** ** Further methods of the camera *)

(** The three numbers [get_device_info] formats the DLL version from:
    [(dll_ver>>24), (dll_ver>>16)&0xFF, dll_ver&0xFFFF]. *)
Definition dll_ver_fields (dll_ver : Z) : Z * Z * Z :=
  (Z.shiftr dll_ver 24, Z.land (Z.shiftr dll_ver 16) 0xFF, Z.land dll_ver 0xFFFF).

(** ["{}.{}.{}".format(...)] of the three numbers. *)
Definition dll_ver_string (dll_ver : Z) : string :=
  let '(major, minor, build) := dll_ver_fields dll_ver in
  pretty major +:+ "." +:+ pretty minor +:+ "." +:+ pretty build.

(** The decorator [use_parameters(mode="color_mode")] turns the name into
    the code registered for it in [_color_modes]. *)
Definition set_color_mode (mode : string) : M string :=
  code ← lift (getitem _color_modes mode);
  is_SetColorMode_check code ;;
  get_color_mode.

(** The loop of [_set_auto_mono_color_mode] over its list of modes; it
    leaves the method at the first mode that is set without an error. *)
Fixpoint try_color_modes (modes : list string) : M unit :=
  match modes with
  | [] => mret ()
  | mode :: modes' =>
      set ← try_except_lib
               (set_color_mode mode ;; mret true)
               (λ code,
                  if decide (code ≠ IS_INVALID_COLOR_FORMAT)
                  then raise (uc480LibError code)
                  else mret false);
      if set : bool then mret () else try_color_modes modes'
  end.

(** [nColorMode] is the byte the sensor information holds; 1 stands for a
    monochrome sensor. *)
Definition _set_auto_mono_color_mode (nColorMode : Z) : M unit :=
  if decide (nColorMode = 1) then try_color_modes ["mono16"; "mono8"] else mret ().

(** Modelled from the spec: [lib.is_AOI(hcam, IS_AOI_IMAGE_SET_AOI, CIS_RECT,
    aoi)] of the binding layer, which is not part of the driver file, is the
    Device capability [applyROI(rect)]; the device takes the rectangle as it
    is sent. *)
Definition is_AOI_set (rect : IS_RECT) : M unit :=
  d ← get_device;
  put_device (with_aoi rect d).

Definition set_roi (r : roi_request) : M roi :=
  self ← get_self;
  res ← lift (_trunc_roi self r);
  _set_roi_binning (hbin res) (vbin res) ;;
  x ← lift (floordiv (hstart res) (hbin res));
  y ← lift (floordiv (vstart res) (vbin res));
  width ← lift (floordiv (hend res - hstart res) (hbin res));
  height ← lift (floordiv (vend res - vstart res) (vbin res));
  is_AOI_set (mkRect x y width height) ;;
  get_roi.

(** The pair [(min_roi, max_roi)], each a 6-tuple in the positions of
    [roi]. *)
Definition get_roi_limits (self : UC480Camera) : result (roi * roi) :=
  let '(wdet, hdet) := get_detector_size self in
  let '(hlims, vlims) := _get_roi_limits self in
  '(hbin, vbin) ← _truncate_roi_binning self wdet hdet;
  let min_roi := mkRoi 0 0 hlims.1.1 vlims.1.1 1 1 in
  let max_roi := mkRoi (wdet - hlims.1.1) (wdet - vlims.1.1) wdet hdet hbin vbin in
  mret (min_roi, max_roi).

(** [range(rng[0], rng[1])] and the two lists taken from the results. *)
Definition _read_frames (rng : Z * Z) : M (list ndarray * list frame_info) :=
  data ← for_collect (seqZ rng.1 (rng.2 - rng.1)) _read_buffer;
  mret (data.*1, data.*2).

End Driver.

(** ** The byte-array helpers of [core/utils/nbtools.py]

    The functions are compiled by numba for C arrays and unsigned 64-bit
    offsets. An array is a list; an index outside the array is not checked by
    the compiled code and has no defined result, which is [None] here.
    Integers are [Z] with the wrap-around of their width written out. *)

Module nbtools.

(** The value of an unsigned and of a signed integer type of [w] bits that
    has the same low [w] bits as [v]: the casts [nb.u2(...)], [nb.i2(...)]
    and the like. *)
Definition wrap_u (w : Z) (v : Z) : Z := v `mod` 2 ^ w.
Definition wrap_i (w : Z) (v : Z) : Z := (v + 2 ^ (w - 1)) `mod` 2 ^ w - 2 ^ (w - 1).

(** [x[i]] *)
Definition item (x : list Z) (i : Z) : option Z :=
  if decide (0 ≤ i) then x !! Z.to_nat i else None.

(** [a << k] and [a + b] of bytes are computed in a 64-bit integer type. *)
Definition shl64 (a k : Z) : Z := wrap_u 64 (Z.shiftl a k).
Definition add64 (a b : Z) : Z := wrap_u 64 (a + b).

Definition au1 (x : list Z) (off : Z) : option Z := item x off.

Definition au2 (x : list Z) (off : Z) : option Z :=
  b1 ← item x (off + 1);
  b0 ← item x (off + 0);
  Some (wrap_u 16 (add64 (shl64 b1 8) b0)).

Definition au4 (x : list Z) (off : Z) : option Z :=
  b3 ← item x (off + 3);
  b2 ← item x (off + 2);
  b1 ← item x (off + 1);
  b0 ← item x (off + 0);
  Some (wrap_u 32 (add64 (add64 (add64 (shl64 b3 24) (shl64 b2 16)) (shl64 b1 8)) b0)).

Definition au8 (x : list Z) (off : Z) : option Z :=
  b7 ← item x (off + 7);
  b6 ← item x (off + 6);
  b5 ← item x (off + 5);
  b4 ← item x (off + 4);
  b3 ← item x (off + 3);
  b2 ← item x (off + 2);
  b1 ← item x (off + 1);
  b0 ← item x (off + 0);
  Some (wrap_u 64
          (add64 (add64 (add64 (add64 (add64 (add64 (add64
             (shl64 b7 56) (shl64 b6 48)) (shl64 b5 40)) (shl64 b4 32))
             (shl64 b3 24)) (shl64 b2 16)) (shl64 b1 8)) b0)).

Definition ai1 (x : list Z) (off : Z) : option Z :=
  b0 ← item x off;
  Some (wrap_i 8 b0).

Definition ai2 (x : list Z) (off : Z) : option Z :=
  b1 ← item x (off + 1);
  b0 ← item x (off + 0);
  Some (wrap_i 16 (add64 (shl64 b1 8) b0)).

Definition ai4 (x : list Z) (off : Z) : option Z :=
  b3 ← item x (off + 3);
  b2 ← item x (off + 2);
  b1 ← item x (off + 1);
  b0 ← item x (off + 0);
  Some (wrap_i 32 (add64 (add64 (add64 (shl64 b3 24) (shl64 b2 16)) (shl64 b1 8)) b0)).

Definition ai8 (x : list Z) (off : Z) : option Z :=
  b7 ← item x (off + 7);
  b6 ← item x (off + 6);
  b5 ← item x (off + 5);
  b4 ← item x (off + 4);
  b3 ← item x (off + 3);
  b2 ← item x (off + 2);
  b1 ← item x (off + 1);
  b0 ← item x (off + 0);
  Some (wrap_i 64
          (add64 (add64 (add64 (add64 (add64 (add64 (add64
             (shl64 b7 56) (shl64 b6 48)) (shl64 b5 40)) (shl64 b4 32))
             (shl64 b3 24)) (shl64 b2 16)) (shl64 b1 8)) b0)).

(** [for x in l: body] on a state, undefined as soon as one turn is. *)
Fixpoint for_opt {S X : Type} (l : list X) (body : S → X → option S) (s : S) : option S :=
  match l with
  | [] => Some s
  | x :: l' => s' ← body s x; for_opt l' body s'
  end.

(** [dst[j] = src[i]] *)
Definition assign {A : Type} (src : list A) (i : nat) (dst : list A) (j : nat)
  : option (list A) :=
  v ← src !! i;
  if decide (j < length dst)%nat then Some (<[j := v]> dst) else None.

(** The function [copy] that [copy_array_chunks] compiles; [prange] is
    [range] unless the loop is compiled in parallel, and its turns write to
    different places. *)
Definition copy {A : Type} (src dst : list A) (n size : nat) : option (list A) :=
  for_opt (seq 0 n)
    (λ dst i, for_opt (seq 0 size)
                (λ dst p, assign src (i * size + p) dst (i * size + p)) dst)
    dst.

(** The function [copy_strided] that [copy_array_strided] compiles. *)
Definition copy_strided {A : Type} (src dst : list A) (n size stride off : nat)
  : option (list A) :=
  for_opt (seq 0 n)
    (λ dst i, for_opt (seq 0 size)
                (λ dst p, assign src (i * stride + off + p) dst (i * size + p)) dst)
    dst.

(** The number a list of bytes stands for, least significant byte first. *)
Fixpoint le_value (bytes : list Z) : Z :=
  match bytes with
  | [] => 0
  | b :: bytes' => b + 256 * le_value bytes'
  end.

(** The [n] bytes of [x] from offset [off] on. *)
Definition bytes_at (x : list Z) (off : Z) (n : nat) : list Z :=
  take n (drop (Z.to_nat off) x).

(** An array of the type [c_array("u1")]. *)
Definition byte_array (x : list Z) : Prop := Forall (λ b, 0 ≤ b < 256) x.

End nbtools.

(** ** Sample constants and devices

    The general statements below hold for every value of the constants the
    driver imports; the examples need values, and use one bit per (direction,
    factor) for the mode masks and pairwise distinct codes for the pixel
    formats. *)

Definition mode_bit (d : axis) (s : Z) : Z :=
  match d, s with
  | V, 2 => 1 | H, 2 => 2 | V, 4 => 4 | H, 4 => 8
  | V, 3 => 16 | H, 3 => 32 | V, 5 => 64 | H, 5 => 128
  | V, 6 => 256 | H, 6 => 512 | V, 8 => 1024 | H, 8 => 2048
  | V, 16 => 4096 | H, 16 => 8192
  | _, _ => 0
  end.

Definition color_codes : list (string * Z) :=
  [ ("IS_CM_SENSOR_RAW8", 11); ("IS_CM_SENSOR_RAW10", 33); ("IS_CM_SENSOR_RAW12", 27);
    ("IS_CM_SENSOR_RAW16", 29); ("IS_CM_MONO8", 6); ("IS_CM_MONO10", 34);
    ("IS_CM_MONO12", 26); ("IS_CM_MONO16", 28); ("IS_CM_BGR5_PACKED", 131);
    ("IS_CM_BGR565_PACKED", 130); ("IS_CM_RGB8_PACKED", 129); ("IS_CM_BGR8_PACKED", 1);
    ("IS_CM_RGBA8_PACKED", 128); ("IS_CM_BGRA8_PACKED", 0); ("IS_CM_RGBY8_PACKED", 152);
    ("IS_CM_BGRY8_PACKED", 24); ("IS_CM_RGB10_PACKED", 153); ("IS_CM_BGR10_PACKED", 25);
    ("IS_CM_RGB10_UNPACKED", 163); ("IS_CM_BGR10_UNPACKED", 35);
    ("IS_CM_RGB12_UNPACKED", 158); ("IS_CM_BGR12_UNPACKED", 30);
    ("IS_CM_RGBA12_UNPACKED", 159); ("IS_CM_BGRA12_UNPACKED", 31);
    ("IS_CM_CBYCRY_PACKED", 23); ("IS_CM_UYVY_PACKED", 12);
    ("IS_CM_UYVY_MONO_PACKED", 13); ("IS_CM_UYVY_BAYER_PACKED", 14);
    ("IS_CM_JPEG", 32); ("IS_CM_RGB8_PLANAR", 8193) ].

Definition color_code (name : string) : Z :=
  match getitem color_codes name with Ok c => c | Raise _ => -1 end.

Definition invalid_color_format : Z := 174.
Definition invalid_parameter : Z := 125.
Definition out_of_memory : Z := 127.

(** A 1280x1024 sensor with the given area-of-interest limits and capability
    masks. *)
Definition sample_limits (smin sinc pinc : Z * Z) (bin_caps sub_caps : Z) : Limits :=
  mkLimits 1280 1024 smin sinc pinc bin_caps sub_caps.

(** A device showing the full frame in [mono8], with no buffers, that
    applies every pixel format, never runs out of memory and reports 64x48
    frames. *)
Definition sample_device (lim : Limits) : Device :=
  mkDevice lim (mkRect 0 0 1280 1024) 0 0
           (color_code "IS_CM_MONO8") (λ _, Applied)
           [] [] 1 (λ _ _, None) (λ _, (64, 48))
           false 0.

(** The camera object right after construction: no buffers and
    [_acq_in_progress=True]. *)
Definition fresh_camera (d : Device) (mode : roi_binning_mode) : UC480Camera :=
  mkCamera d None true mode 0.

(** The geometry of the specification's scenario A: minimal size 16, size
    step 4, position step 2 on both axes, subsampling factors 1, 2 and 4 in
    both directions, region-of-interest binning done by subsampling. *)
Definition scenario_camera : UC480Camera :=
  fresh_camera (sample_device (sample_limits (16, 16) (4, 4) (2, 2) 0 15)) subsample.

(** [(hstart=10, hend=1277, vstart=0, vend=None, hbin=3, vbin=1)] *)
Definition scenario_request : roi_request := mkRequest 10 (Some 1277) 0 None 3 1.

(** A sensor with minimal size 32x4, size steps 4x2 and position steps 4x2
    that subsamples by 3 horizontally. *)
Definition edge_camera : UC480Camera :=
  fresh_camera (sample_device (sample_limits (32, 4) (4, 2) (4, 2) 0 (mode_bit H 3))) subsample.

(** A request for the right edge of the detector, subsampled by 3. *)
Definition edge_request : roi_request := mkRequest 1270 None 0 None 3 1.

(** A sensor that bins (and subsamples) by 2 vertically and not at all
    horizontally. *)
Definition vertical_only_camera : UC480Camera :=
  fresh_camera (sample_device (sample_limits (16, 16) (4, 4) (2, 2)
                                 (mode_bit V 2) (mode_bit V 2))) bin.


(** A device in [mono8] that also has [mono16], puts [mono8] in the place of
    any other format but refuses the compressed [jpeg]. *)
Definition mono_device : Device :=
  mkDevice (sample_limits (16, 16) (4, 4) (2, 2) 0 0) (mkRect 0 0 1280 1024) 0 0
           (color_code "IS_CM_MONO8")
           (λ m, if decide (m = color_code "IS_CM_MONO8") then Applied
                 else if decide (m = color_code "IS_CM_MONO16") then Applied
                 else if decide (m = color_code "IS_CM_JPEG") then Refused invalid_color_format
                 else Replaced (color_code "IS_CM_MONO8"))
           [] [] 1 (λ _ _, None) (λ _, (64, 48))
           false 0.

(** A camera with one buffer whose device is in the pixel format with the
    given code and reports 64x48 frames. *)
Definition camera_in_mode (code : Z) : UC480Camera :=
  mkCamera
    (mkDevice (sample_limits (16, 16) (4, 4) (2, 2) 0 0) (mkRect 0 0 64 48) 0 0
              code (λ _, Applied)
              [(1, 1)] [(1, 1)] 2 (λ _ _, None) (λ _, (64, 48))
              false 0)
    (Some [(1, 1)]) false bin 0.

(** A sensor that bins and subsamples by 2 and 4 in both directions. *)
Definition both_modes_camera : UC480Camera :=
  fresh_camera (sample_device (sample_limits (16, 16) (4, 4) (2, 2) 15 15)) bin.

(** A device with room for two frame buffers: it refuses a further one
    with an out-of-memory error. *)
Definition small_memory_device : Device :=
  mkDevice (sample_limits (16, 16) (4, 4) (2, 2) 0 0) (mkRect 0 0 1280 1024) 0 0
           (color_code "IS_CM_MONO8") (λ _, Applied)
           [] [] 1
           (λ held _, if decide (length held < 2)%nat then None else Some out_of_memory)
           (λ _, (64, 48))
           false 0.

(** A camera in [mono8] with three buffers, all in the capture sequence,
    whose device also holds a buffer the camera does not know of. *)
Definition three_buffer_camera : UC480Camera :=
  mkCamera
    (mkDevice (sample_limits (16, 16) (4, 4) (2, 2) 0 0) (mkRect 0 0 64 48) 0 0
              (color_code "IS_CM_MONO8") (λ _, Applied)
              [(9, 9); (1, 1); (2, 2); (3, 3)] [(1, 1); (2, 2); (3, 3)] 10
              (λ _ _, None) (λ id, (64 + id, 48))
              false 0)
    (Some [(1, 1); (2, 2); (3, 3)]) false bin 0.

(** A monochrome device in [raw8] that has [mono8] and answers any other
    pixel format with [IS_INVALID_COLOR_FORMAT]. *)
Definition mono8_only_device : Device :=
  mkDevice (sample_limits (16, 16) (4, 4) (2, 2) 0 0) (mkRect 0 0 1280 1024) 0 0
           (color_code "IS_CM_SENSOR_RAW8")
           (λ m, if decide (m = color_code "IS_CM_MONO8") then Applied
                 else Refused invalid_color_format)
           [] [] 1 (λ _ _, None) (λ _, (64, 48))
           false 0.

(** ** Predicates of the statements *)

(** A list of factors that contains 1 and holds factors >= 1 only. *)
Definition factor_list (l : list Z) : Prop := 1 ∈ l ∧ ∀ m, m ∈ l → 1 ≤ m.

(** The device reports positive size and position steps on both axes. *)
Definition positive_steps (self : UC480Camera) : Prop :=
  0 < (size_inc (limits (hcam self))).1 ∧ 0 < (size_inc (limits (hcam self))).2 ∧
  0 < (pos_inc (limits (hcam self))).1 ∧ 0 < (pos_inc (limits (hcam self))).2.

(** The invariants of one axis of a region of interest as the specification
    lists them, on the returned (unbinned) coordinates: after division by
    the factor the span is at least [minsize], the start is a multiple of the
    position step, the span is a multiple of the size step, the end is inside
    the binned detector, and the factor is a listed one. *)
Definition axis_invariants (start end_ factor minsize detsize wstep pstep : Z)
    (modes : list Z) : Prop :=
  let s := start `div` factor in
  let e := end_ `div` factor in
  minsize ≤ e - s ∧
  s `mod` pstep = 0 ∧
  (e - s) `mod` wstep = 0 ∧
  e ≤ detsize `div` factor ∧
  factor ∈ modes.

(** What the adjustment of one axis establishes for the window [s], [e] in
    binned units inside a binned detector of extent [D]. *)
Definition axis_window (s e minsize D wstep pstep : Z) : Prop :=
  minsize ≤ e - s ∧
  e ≤ D ∧
  s ≤ D ∧
  (s `mod` pstep = 0 ∨ (s = D - minsize ∧ e = D)) ∧
  ((e - s) `mod` wstep = 0 ∨ e - s = minsize).

(** The same on the returned coordinates, with the factor. *)
Definition axis_negotiated (start end_ factor minsize detsize wstep pstep : Z) : Prop :=
  1 ≤ factor ∧
  axis_window (start `div` factor) (end_ `div` factor) minsize
              (detsize `div` factor) wstep pstep.

(** The supported factors of direction [d] in the mode the camera uses for
    its region of interest: the factors of that mode's table whose mask for
    [d] is contained in the capability mask the device reports for the
    mode. *)
Definition supported_factors (SUBSAMPLING BINNING : axis → Z → Z)
    (self : UC480Camera) (d : axis) : list Z :=
  match _roi_binning_mode self with
  | subsample =>
      sorted (supp_get (collect_supported (supported_subsampling (limits (hcam self)))
                                          (_subsampling_modes SUBSAMPLING)) d)
  | bin =>
      sorted (supp_get (collect_supported (supported_binning (limits (hcam self)))
                                          (_binning_modes BINNING)) d)
  end.

(** Both edges of the returned window are on the position grid. *)
Definition axis_on_grid (start end_ factor pstep : Z) : Prop :=
  (start `div` factor) `mod` pstep = 0 ∧ (end_ `div` factor) `mod` pstep = 0.

(** The camera with the active pixel format of its device replaced. *)
Definition set_color (cm : Z) (self : UC480Camera) : UC480Camera :=
  mkCamera (with_color_mode cm (hcam self)) (_buffers self) (_acq_in_progress self)
           (_roi_binning_mode self) (_frame_counter self).


(** The camera with the two mode registers of its device replaced. *)
Definition set_modes (bin_reg sub_reg : Z) (self : UC480Camera) : UC480Camera :=
  mkCamera (with_modes bin_reg sub_reg (hcam self)) (_buffers self) (_acq_in_progress self)
           (_roi_binning_mode self) (_frame_counter self).

(** The camera with the image memory of its device and its buffer list
    replaced. *)
Definition set_pool (mem seq : list buffer) (next : Z) (bufs : option (list buffer))
    (self : UC480Camera) : UC480Camera :=
  mkCamera (with_memory mem seq next (hcam self)) bufs (_acq_in_progress self)
           (_roi_binning_mode self) (_frame_counter self).

(** The buffer list of the camera is what the device holds and has in its
    capture sequence (nothing, when the attribute is [None]). *)
Definition pool_consistent (self : UC480Camera) : Prop :=
  image_mem (hcam self) = default [] (_buffers self) ∧
  sequence (hcam self) = default [] (_buffers self).

(** The buffers the device hands out for [k] allocations in a row when its
    next memory id is [next]: [(next, next)], [(next + 1, next + 1)], ... *)
Fixpoint granted (next : Z) (k : nat) : list buffer :=
  match k with
  | O => []
  | S k' => (next, next) :: granted (next + 1) k'
  end.

(** What [is_FreeImageMem] leaves of the image memory after freeing [bs]. *)
Definition free_all (mem bs : list buffer) : list buffer :=
  foldl (λ mem b, filter (λ b', b' ≠ b) mem) mem bs.

(** The detector extents are non-negative multiples of both steps and hold
    the minimal size. *)
Definition full_frame_allowed (self : UC480Camera) : Prop :=
  let lim := limits (hcam self) in
  (nMaxWidth lim `mod` (pos_inc lim).1 = 0 ∧ nMaxWidth lim `mod` (size_inc lim).1 = 0 ∧
   0 ≤ nMaxWidth lim ∧ (size_min lim).1 ≤ nMaxWidth lim) ∧
  (nMaxHeight lim `mod` (pos_inc lim).2 = 0 ∧ nMaxHeight lim `mod` (size_inc lim).2 = 0 ∧
   0 ≤ nMaxHeight lim ∧ (size_min lim).2 ≤ nMaxHeight lim).

(** The factors the two mode tables have keys for. *)
Definition known_factors : list Z := [1; 2; 3; 4; 5; 6; 8; 16].

(** The mode masks can be read back: the register written for a horizontal
    and a vertical factor of the table reads as these two factors. *)
Definition mask_table_decodes (table : axis → Z → Z) : Prop :=
  ∀ h v mh mv,
    getitem (_subsampling_modes table) (H, h) = Ok mh →
    getitem (_subsampling_modes table) (V, v) = Ok mv →
    factor_of (_subsampling_modes table) H (Z.lor mh mv) = h ∧
    factor_of (_subsampling_modes table) V (Z.lor mh mv) = v.

(** The register value [reg] is what a setter writes for the request
    [hreq], [vreq]: the masks, or-ed, that the table lists for the
    horizontal and for the vertical factor that [_truncate_subsampling]
    returns for the request against [all_modes]. *)
Definition holds_request (table : axis → Z → Z) (all_modes : list Z * list Z)
    (hreq vreq reg : Z) : Prop :=
  ∃ h v mh mv,
    _truncate_subsampling hreq vreq all_modes = Ok (h, v) ∧
    getitem (_subsampling_modes table) (H, h) = Ok mh ∧
    getitem (_subsampling_modes table) (V, v) = Ok mv ∧
    reg = Z.lor mh mv.

(** The camera with the area of interest of its device replaced. *)
Definition set_aoi (rect : IS_RECT) (self : UC480Camera) : UC480Camera :=
  mkCamera (with_aoi rect (hcam self)) (_buffers self) (_acq_in_progress self)
           (_roi_binning_mode self) (_frame_counter self).

(** The signed reading of the [w]-bit pattern of [u], for [0 <= u < 2^w]. *)
Definition twos_complement (w u : Z) : Z :=
  if decide (u < 2 ^ (w - 1)) then u else u - 2 ^ w.

(** * Properties *)

(** ** Python helpers *)

Lemma elem_of_sorted (s : gset Z) (x : Z) : x ∈ sorted s ↔ x ∈ s.
Proof.
  unfold sorted. rewrite merge_sort_Permutation. apply elem_of_elements.
Qed.

Lemma foldl_max_ge (l : list Z) (a : Z) : a ≤ foldl Z.max a l.
Proof.
  revert a. induction l as [|x l IH]; intros a; simpl; [lia|].
  specialize (IH (Z.max a x)). lia.
Qed.

Lemma foldl_max_upper (l : list Z) (a x : Z) : x ∈ l → x ≤ foldl Z.max a l.
Proof.
  revert a. induction l as [|y l IH]; intros a Hx; simpl.
  - by apply elem_of_nil in Hx.
  - apply elem_of_cons in Hx as [->|Hx]; [|by apply IH].
    pose proof (foldl_max_ge l (Z.max a y)). lia.
Qed.

Lemma foldl_max_elem (l : list Z) (a : Z) : foldl Z.max a l = a ∨ foldl Z.max a l ∈ l.
Proof.
  revert a. induction l as [|y l IH]; intros a; simpl; [by left|].
  destruct (IH (Z.max a y)) as [Heq|Hin].
  - rewrite Heq. destruct (Z.max_spec a y) as [[_ ->]|[_ ->]]; [right; left|by left].
  - right. by right.
Qed.

(** [max(l)] returns an element of [l] that bounds all of [l], and raises
    only on the empty list. *)
Lemma py_max_spec (l : list Z) (m : Z) :
  Py.max l = Ok m ↔ m ∈ l ∧ ∀ x, x ∈ l → x ≤ m.
Proof.
  destruct l as [|a l]; simpl.
  - split; [discriminate|]. intros [Hm _]. by apply elem_of_nil in Hm.
  - split.
    + intros [= <-]. split.
      * destruct (foldl_max_elem l a) as [->|Hin]; [left|by right].
      * intros x [->|Hx]%elem_of_cons; [apply foldl_max_ge|by apply foldl_max_upper].
    + intros [Hm Hub]. f_equal. apply Z.le_antisymm.
      * destruct (foldl_max_elem l a) as [->|Hin]; apply Hub; [left|by right].
      * apply elem_of_cons in Hm as [->|Hm]; [apply foldl_max_ge|by apply foldl_max_upper].
Qed.

Lemma py_max_nonempty (l : list Z) : l ≠ [] → ∃ m, Py.max l = Ok m.
Proof. destruct l; [done|]. intros _. simpl. eauto. Qed.

Lemma py_max_empty (l : list Z) : l = [] → Py.max l = Raise ValueError.
Proof. by intros ->. Qed.

(** ** Factor truncation on one axis *)

Lemma largest_below_spec (modes : list Z) (sub f : Z) :
  largest_below modes sub = Ok f ↔
  f ∈ modes ∧ f ≤ sub ∧ ∀ m, m ∈ modes → m ≤ sub → m ≤ f.
Proof.
  unfold largest_below. rewrite py_max_spec. rewrite list_elem_of_filter.
  split.
  - intros [[Hle Hin] Hub]. repeat split; [done..|].
    intros m Hm Hms. apply Hub. by apply list_elem_of_filter.
  - intros (Hin & Hle & Hub). repeat split; [done..|].
    intros x [Hx1 Hx2]%list_elem_of_filter. by apply Hub.
Qed.

Lemma largest_below_some (modes : list Z) (sub m : Z) :
  m ∈ modes → m ≤ sub → ∃ f, largest_below modes sub = Ok f.
Proof.
  intros Hin Hle. unfold largest_below. apply py_max_nonempty.
  intros Hnil. assert (Hm : m ∈ filter (λ m, m ≤ sub) modes) by by apply list_elem_of_filter.
  rewrite Hnil in Hm. by apply elem_of_nil in Hm.
Qed.

Lemma largest_below_none (modes : list Z) (sub : Z) :
  (∀ m, m ∈ modes → sub < m) → largest_below modes sub = Raise ValueError.
Proof.
  intros Hall. unfold largest_below. apply py_max_empty.
  destruct (filter (λ m, m ≤ sub) modes) as [|x l] eqn:Hf; [done|].
  assert (Hx : x ∈ filter (λ m, m ≤ sub) modes) by (rewrite Hf; left).
  apply list_elem_of_filter in Hx as [Hle Hin]. specialize (Hall x Hin). lia.
Qed.

(** Truncating an already truncated factor returns it. *)
Lemma largest_below_fixed (modes : list Z) (sub f : Z) :
  largest_below modes sub = Ok f → 1 ≤ f → largest_below modes (Z.max f 1) = Ok f.
Proof.
  rewrite !largest_below_spec. intros (Hin & Hle & Hub) Hf.
  rewrite Z.max_l by lia. repeat split; [done|lia|]. intros m _ Hm. lia.
Qed.

(** ** Supported factors *)

Lemma supp_get_add (d d' : axis) (s x : Z) (supp : gset Z * gset Z) :
  x ∈ supp_get (supp_add d s supp) d' ↔ (d = d' ∧ x = s) ∨ x ∈ supp_get supp d'.
Proof.
  destruct supp as [sv sh].
  destruct d, d'; simpl; rewrite ?elem_of_union, ?elem_of_singleton;
    intuition congruence.
Qed.

Lemma collect_step_elem (all_modes : Z) (acc : gset Z * gset Z)
    (d d' : axis) (s s' mask : Z) :
  s ∈ supp_get (collect_step all_modes acc ((d', s'), mask)) d ↔
  s ∈ supp_get acc d ∨ (d' = d ∧ s = s' ∧ Z.land all_modes mask = mask).
Proof.
  unfold collect_step. destruct (decide (Z.land all_modes mask = mask)).
  - rewrite supp_get_add. intuition congruence.
  - intuition congruence.
Qed.

Lemma foldl_collect_elem (all_modes : Z) (modes : list ((axis * Z) * Z))
    (acc : gset Z * gset Z) (d : axis) (s : Z) :
  s ∈ supp_get (foldl (collect_step all_modes) acc modes) d ↔
  s ∈ supp_get acc d ∨ ∃ mask, ((d, s), mask) ∈ modes ∧ Z.land all_modes mask = mask.
Proof.
  revert acc. induction modes as [|[[d' s'] mask'] modes IH]; intros acc; cbn [foldl].
  - split; [by left|]. intros [?|(mask & Hin & _)]; [done|]. by apply elem_of_nil in Hin.
  - rewrite IH, collect_step_elem. split.
    + intros [[?|(-> & -> & Hm)]|(mask & Hin & Hm)].
      * by left.
      * right. exists mask'. split; [left|done].
      * right. exists mask. split; [by right|done].
    + intros [?|(mask & Hin & Hm)]; [left; by left|].
      apply elem_of_cons in Hin as [Heq|Hin].
      * simplify_eq. left. right. done.
      * right. eauto.
Qed.

(** The loop of the two queries collects, per direction, the factors whose
    mask is contained in the capability mask. *)
Lemma elem_of_collect_supported (all_modes : Z) (modes : list ((axis * Z) * Z))
    (d : axis) (s : Z) :
  s ∈ supp_get (collect_supported all_modes modes) d ↔
  ∃ mask, ((d, s), mask) ∈ modes ∧ Z.land all_modes mask = mask.
Proof.
  unfold collect_supported. rewrite foldl_collect_elem.
  split; [|by right]. intros [Hs|?]; [|done].
  destruct d; simpl in Hs; by apply not_elem_of_empty in Hs.
Qed.

Section GeometryFacts.

Variable SUBSAMPLING : axis → Z → Z.
Variable BINNING : axis → Z → Z.

Lemma table_factor_ge_1 (table : axis → Z → Z) (d : axis) (s mask : Z) :
  ((d, s), mask) ∈ _subsampling_modes table → 1 ≤ s.
Proof.
  unfold _subsampling_modes. rewrite !elem_of_cons, elem_of_nil.
  intros Hin. repeat (destruct Hin as [Heq|Hin]; [simplify_eq; lia|]). done.
Qed.

Lemma table_has_1 (table : axis → Z → Z) (d : axis) :
  ((d, 1), 0) ∈ _subsampling_modes table.
Proof.
  unfold _subsampling_modes. destruct d; [left|right; left].
Qed.

Lemma binning_table_eq (table : axis → Z → Z) :
  _binning_modes table = _subsampling_modes table.
Proof. reflexivity. Qed.

Lemma collected_factor_list (table : axis → Z → Z) (all_modes : Z) (d : axis) :
  factor_list (sorted (supp_get (collect_supported all_modes (_subsampling_modes table)) d)).
Proof.
  split.
  - rewrite elem_of_sorted, elem_of_collect_supported. exists 0. split.
    + apply table_has_1.
    + apply Z.land_0_r.
  - intros m. rewrite elem_of_sorted, elem_of_collect_supported.
    intros (mask & Hin & _). by eapply table_factor_ge_1.
Qed.

Lemma subsampling_factor_lists (self : UC480Camera) :
  factor_list (get_supported_subsampling_modes SUBSAMPLING self).1 ∧
  factor_list (get_supported_subsampling_modes SUBSAMPLING self).2.
Proof. split; apply collected_factor_list. Qed.

Lemma binning_factor_lists (self : UC480Camera) :
  factor_list (get_supported_binning_modes BINNING self).1 ∧
  factor_list (get_supported_binning_modes BINNING self).2.
Proof.
  unfold get_supported_binning_modes. rewrite binning_table_eq.
  split; apply collected_factor_list.
Qed.

Lemma roi_binning_factor_lists (self : UC480Camera) :
  factor_list (roi_binning_modes SUBSAMPLING BINNING self).1 ∧
  factor_list (roi_binning_modes SUBSAMPLING BINNING self).2.
Proof.
  unfold roi_binning_modes. destruct (_roi_binning_mode self).
  - apply binning_factor_lists.
  - apply subsampling_factor_lists.
Qed.

(** On lists that contain 1, truncation returns and its factors are the
    largest listed ones below the (raised) request. *)
Lemma truncate_on_factor_lists (hsub vsub : Z) (all_modes : list Z * list Z) :
  factor_list all_modes.1 → factor_list all_modes.2 →
  ∃ h v, _truncate_subsampling hsub vsub all_modes = Ok (h, v) ∧
         largest_below all_modes.1 (Z.max hsub 1) = Ok h ∧
         largest_below all_modes.2 (Z.max vsub 1) = Ok v ∧
         1 ≤ h ∧ 1 ≤ v.
Proof.
  destruct all_modes as [hmodes vmodes]. simpl. intros [Hh1 Hhge] [Hv1 Hvge].
  destruct (largest_below_some hmodes (Z.max hsub 1) 1 Hh1 ltac:(lia)) as [h Hh].
  destruct (largest_below_some vmodes (Z.max vsub 1) 1 Hv1 ltac:(lia)) as [v Hv].
  exists h, v. unfold _truncate_subsampling. rewrite Hh, Hv. simpl.
  repeat split; try done.
  - apply largest_below_spec in Hh as (Hin & _). by apply Hhge.
  - apply largest_below_spec in Hv as (Hin & _). by apply Hvge.
Qed.

(** ** One axis of the region of interest *)

Lemma align_down_mod (x p : Z) : (x - x `mod` p) `mod` p = 0.
Proof. rewrite Zminus_mod_idemp_r, Z.sub_diag. apply Zmod_0_l. Qed.

Lemma floordiv_ok (a b : Z) : b ≠ 0 → floordiv a b = Ok (a `div` b).
Proof. intros Hb. unfold floordiv. by destruct (decide (b = 0)). Qed.

Lemma modulo_ok (a b : Z) : b ≠ 0 → modulo a b = Ok (a `mod` b).
Proof. intros Hb. unfold modulo. by destruct (decide (b = 0)). Qed.

(** With a positive factor and positive steps the adjustment returns a
    window given in binned units [s], [e]: at least [minsize] wide, inside
    the binned detector, with [s] on the position grid unless the window was
    moved to the detector edge, and a width on the size grid unless the
    width was forced to [minsize]. *)
Lemma adj_roi_axis_returns (start : Z) (end_ : option Z) (minsize detsize wstep pstep binv : Z) :
  0 < binv → 0 < pstep → 0 < wstep →
  ∃ s e, _adj_roi_axis start end_ minsize detsize wstep pstep binv = Ok (s * binv, e * binv) ∧
         axis_window s e minsize (detsize `div` binv) wstep pstep.
Proof.
  intros Hb Hp Hw. unfold _adj_roi_axis.
  repeat (rewrite floordiv_ok by lia; cbn [mbind result_bind]).
  repeat (rewrite modulo_ok by lia; cbn [mbind result_bind]).
  set (D := detsize `div` binv).
  set (s0 := Z.min (start `div` binv) D).
  set (e0 := Z.min (default detsize end_ `div` binv) D).
  set (s1 := s0 - s0 `mod` pstep).
  set (e1 := e0 - e0 `mod` pstep).
  set (e2 := e1 - (e1 - s1) `mod` wstep).
  assert (Hs1 : s1 `mod` pstep = 0) by apply align_down_mod.
  assert (He2 : (e2 - s1) `mod` wstep = 0).
  { replace (e2 - s1) with ((e1 - s1) - (e1 - s1) `mod` wstep) by (unfold e2; lia).
    apply align_down_mod. }
  pose proof (Z.mod_pos_bound s0 pstep Hp).
  pose proof (Z.mod_pos_bound e0 pstep Hp).
  pose proof (Z.mod_pos_bound (e1 - s1) wstep Hw).
  assert (s0 ≤ D) by (unfold s0; lia).
  assert (e0 ≤ D) by (unfold e0; lia).
  fold e2.
  destruct (decide (e2 - s1 < minsize)) as [Hforce|Hforce];
    [destruct (decide (s1 + minsize > D)) as [Hshift|Hshift]
    |destruct (decide (e2 > D)) as [Hshift|Hshift]]; cbn [mret result_ret].
  - exists (D - minsize), D. split; [done|].
    unfold axis_window. split_and!; [lia|lia|lia|right; lia|right; lia].
  - exists s1, (s1 + minsize). split; [done|].
    unfold axis_window. split_and!; [lia|lia|lia|by left|right; lia].
  - exists (D - minsize), D. split; [done|].
    unfold axis_window. split_and!; [lia|lia|lia|right; lia|right; lia].
  - exists s1, e2. split; [done|].
    unfold axis_window. split_and!; [lia|lia|lia|by left|by left].
Qed.

(** A window on the position grid at both edges, inside the detector, at
    least [minsize] wide and with a width on the size grid or equal to
    [minsize], is returned as it is. *)
Lemma adj_roi_axis_fixed (s e minsize detsize wstep pstep binv : Z) :
  0 < binv → 0 < pstep → 0 < wstep →
  axis_window s e minsize (detsize `div` binv) wstep pstep →
  s `mod` pstep = 0 → e `mod` pstep = 0 →
  _adj_roi_axis (s * binv) (Some (e * binv)) minsize detsize wstep pstep binv
  = Ok (s * binv, e * binv).
Proof.
  intros Hb Hp Hw (Hmin & HeD & HsD & _ & Hspan) Hs He. unfold _adj_roi_axis.
  change (default detsize (Some (e * binv))) with (e * binv).
  repeat (rewrite floordiv_ok by lia; cbn [mbind result_bind]).
  rewrite !Z.div_mul by lia.
  rewrite (Z.min_l s) by lia. rewrite (Z.min_l e) by lia.
  repeat (rewrite modulo_ok by lia; cbn [mbind result_bind]).
  rewrite Hs, He, !Z.sub_0_r.
  pose proof (Z.mod_pos_bound (e - s) wstep Hw).
  destruct (decide (e - (e - s) `mod` wstep - s < minsize)) as [Hforce|Hforce].
  - destruct (decide (s + minsize > detsize `div` binv)); [lia|].
    cbn [mret result_ret]. do 2 f_equal. destruct Hspan; lia.
  - destruct (decide (e - (e - s) `mod` wstep > detsize `div` binv)); [lia|].
    cbn [mret result_ret]. do 2 f_equal. destruct Hspan; lia.
Qed.

(** ** The negotiated region of interest *)

Lemma truncate_roi_binning_eq (self : UC480Camera) (hbin vbin : Z) :
  _truncate_roi_binning SUBSAMPLING BINNING self hbin vbin
  = _truncate_subsampling hbin vbin (roi_binning_modes SUBSAMPLING BINNING self).
Proof. reflexivity. Qed.

(** The negotiation returns whenever the steps are positive; its factors and
    its two windows are those of the truncation and of the two axis
    adjustments. *)
Lemma trunc_roi_returns (self : UC480Camera) (r : roi_request) :
  positive_steps self →
  let lim := limits (hcam self) in
  let modes := roi_binning_modes SUBSAMPLING BINNING self in
  ∃ h v sh eh sv ev,
    largest_below modes.1 (Z.max (req_hbin r) 1) = Ok h ∧
    largest_below modes.2 (Z.max (req_vbin r) 1) = Ok v ∧
    1 ≤ h ∧ 1 ≤ v ∧
    axis_window sh eh (size_min lim).1 (nMaxWidth lim `div` h) (size_inc lim).1 (pos_inc lim).1 ∧
    axis_window sv ev (size_min lim).2 (nMaxHeight lim `div` v) (size_inc lim).2 (pos_inc lim).2 ∧
    _trunc_roi SUBSAMPLING BINNING self r = Ok (mkRoi (sh * h) (eh * h) (sv * v) (ev * v) h v).
Proof.
  intros (Hwh & Hwv & Hph & Hpv) lim modes.
  destruct (roi_binning_factor_lists self) as [Hlh Hlv].
  destruct (truncate_on_factor_lists (req_hbin r) (req_vbin r) _ Hlh Hlv)
    as (h & v & Htr & Hh & Hv & Hh1 & Hv1).
  destruct (adj_roi_axis_returns (req_hstart r) (req_hend r) (size_min lim).1
              (nMaxWidth lim) (size_inc lim).1 (pos_inc lim).1 h) as (sh & eh & Hah & Hwinh);
    [unfold lim; lia..|].
  destruct (adj_roi_axis_returns (req_vstart r) (req_vend r) (size_min lim).2
              (nMaxHeight lim) (size_inc lim).2 (pos_inc lim).2 v) as (sv & ev & Hav & Hwinv);
    [unfold lim; lia..|].
  exists h, v, sh, eh, sv, ev. split_and!; try done.
  unfold _trunc_roi, get_detector_size, _get_roi_limits.
  rewrite truncate_roi_binning_eq, Htr. cbn [mbind result_bind fst snd].
  fold lim. rewrite Hah. cbn [mbind result_bind]. rewrite Hav. reflexivity.
Qed.

(** C1 (as amended). With positive size and position steps the truncation
    path returns a region of interest that, per axis and after division by
    the factor, spans at least minSize, ends inside the binned detector, has
    a factor >= 1, starts on a multiple of positionStep unless the window was
    moved to the detector edge (then it is exactly [extent - minSize,
    extent]), and has a span that is a multiple of sizeStep unless the span
    was forced to minSize; when the camera reduces its region of interest by
    subsampling, the factor of each axis belongs to the supported subsampling
    factors of that axis. *)
Theorem trunc_roi_negotiated (self : UC480Camera) (r : roi_request) :
  positive_steps self →
  ∃ res, _trunc_roi SUBSAMPLING BINNING self r = Ok res ∧
    let lim := limits (hcam self) in
    axis_negotiated (hstart res) (hend res) (hbin res)
      (size_min lim).1 (nMaxWidth lim) (size_inc lim).1 (pos_inc lim).1 ∧
    axis_negotiated (vstart res) (vend res) (vbin res)
      (size_min lim).2 (nMaxHeight lim) (size_inc lim).2 (pos_inc lim).2 ∧
    (_roi_binning_mode self = subsample →
     hbin res ∈ supported_factors SUBSAMPLING BINNING self H ∧
     vbin res ∈ supported_factors SUBSAMPLING BINNING self V).
Proof.
  intros Hsteps.
  destruct (trunc_roi_returns self r Hsteps)
    as (h & v & sh & eh & sv & ev & Hh & Hv & Hh1 & Hv1 & Hwinh & Hwinv & Hres).
  eexists. split; [exact Hres|]. cbn [hstart hend vstart vend hbin vbin].
  unfold axis_negotiated. rewrite !Z.div_mul by lia.
  apply largest_below_spec in Hh as (Hhin & _).
  apply largest_below_spec in Hv as (Hvin & _).
  split_and!; [done..|].
  intros Hmode. unfold roi_binning_modes in Hhin, Hvin. unfold supported_factors.
  rewrite Hmode in Hhin, Hvin |- *. done.
Qed.

(** C2 (as amended). With positive steps, negotiating the result of a
    negotiation returns it unchanged whenever both edges of the negotiated
    window are multiples of positionStep (after division by the factor) on
    both axes. *)
Theorem trunc_roi_idempotent_on_grid (self : UC480Camera) (r : roi_request) :
  positive_steps self →
  ∃ res, _trunc_roi SUBSAMPLING BINNING self r = Ok res ∧
    (axis_on_grid (hstart res) (hend res) (hbin res) (pos_inc (limits (hcam self))).1 →
     axis_on_grid (vstart res) (vend res) (vbin res) (pos_inc (limits (hcam self))).2 →
     _trunc_roi SUBSAMPLING BINNING self (as_request res) = Ok res).
Proof.
  intros Hsteps.
  destruct (trunc_roi_returns self r Hsteps)
    as (h & v & sh & eh & sv & ev & Hh & Hv & Hh1 & Hv1 & Hwinh & Hwinv & Hres).
  eexists. split; [exact Hres|]. cbn [hstart hend vstart vend hbin vbin].
  unfold axis_on_grid. rewrite !Z.div_mul by lia. intros [Hsh Heh] [Hsv Hev].
  destruct Hsteps as (Hwh & Hwv & Hph & Hpv).
  unfold _trunc_roi, get_detector_size, _get_roi_limits, as_request.
  cbn [req_hstart req_hend req_vstart req_vend req_hbin req_vbin
       hstart hend vstart vend hbin vbin].
  rewrite truncate_roi_binning_eq. unfold _truncate_subsampling.
  destruct (roi_binning_modes SUBSAMPLING BINNING self) as [hmodes vmodes].
  cbn [fst snd] in Hh, Hv.
  rewrite (largest_below_fixed _ _ _ Hh Hh1), (largest_below_fixed _ _ _ Hv Hv1).
  cbn [mbind mret result_bind result_ret fst snd].
  rewrite adj_roi_axis_fixed by (done || lia). cbn [mbind result_bind].
  rewrite adj_roi_axis_fixed by (done || lia). reflexivity.
Qed.

(** ** Factor truncation *)


(** C10. Whatever capability masks the device reports, factor 1 is in the
    horizontal and in the vertical list of both queries (its mask is 0, and
    [all_modes & 0 == 0]); hence truncation against either pair of lists, and
    against the pair chosen by [_roi_binning_mode], always returns (its [max]
    is never taken of an empty list), with factors >= 1. *)
Theorem factor_one_always_supported (self : UC480Camera) (hbin vbin : Z) :
  (1 ∈ (get_supported_subsampling_modes SUBSAMPLING self).1 ∧
   1 ∈ (get_supported_subsampling_modes SUBSAMPLING self).2 ∧
   1 ∈ (get_supported_binning_modes BINNING self).1 ∧
   1 ∈ (get_supported_binning_modes BINNING self).2) ∧
  (∃ h v, _truncate_subsampling hbin vbin (get_supported_subsampling_modes SUBSAMPLING self)
          = Ok (h, v) ∧ 1 ≤ h ∧ 1 ≤ v) ∧
  (∃ h v, _truncate_subsampling hbin vbin (get_supported_binning_modes BINNING self)
          = Ok (h, v) ∧ 1 ≤ h ∧ 1 ≤ v) ∧
  (∃ h v, _truncate_roi_binning SUBSAMPLING BINNING self hbin vbin
          = Ok (h, v) ∧ 1 ≤ h ∧ 1 ≤ v).
Proof.
  destruct (subsampling_factor_lists self) as [Hsh Hsv].
  destruct (binning_factor_lists self) as [Hbh Hbv].
  destruct (roi_binning_factor_lists self) as [Hrh Hrv].
  split_and!.
  - apply Hsh.
  - apply Hsv.
  - apply Hbh.
  - apply Hbv.
  - destruct (truncate_on_factor_lists hbin vbin _ Hsh Hsv) as (h & v & ? & _ & _ & ? & ?).
    by exists h, v.
  - destruct (truncate_on_factor_lists hbin vbin _ Hbh Hbv) as (h & v & ? & _ & _ & ? & ?).
    by exists h, v.
  - rewrite truncate_roi_binning_eq.
    destruct (truncate_on_factor_lists hbin vbin _ Hrh Hrv) as (h & v & ? & _ & _ & ? & ?).
    by exists h, v.
Qed.

(** Which direction each component of the two queries holds. *)
Lemma supported_subsampling_components (self : UC480Camera) (s : Z) :
  let caps := supported_subsampling (limits (hcam self)) in
  (s ∈ (get_supported_subsampling_modes SUBSAMPLING self).1 ↔
   ∃ mask, ((H, s), mask) ∈ _subsampling_modes SUBSAMPLING ∧ Z.land caps mask = mask) ∧
  (s ∈ (get_supported_subsampling_modes SUBSAMPLING self).2 ↔
   ∃ mask, ((V, s), mask) ∈ _subsampling_modes SUBSAMPLING ∧ Z.land caps mask = mask).
Proof.
  intros caps. unfold get_supported_subsampling_modes. cbn [fst snd].
  by rewrite !elem_of_sorted, !elem_of_collect_supported.
Qed.

Lemma supported_binning_components (self : UC480Camera) (s : Z) :
  let caps := supported_binning (limits (hcam self)) in
  (s ∈ (get_supported_binning_modes BINNING self).1 ↔
   ∃ mask, ((V, s), mask) ∈ _binning_modes BINNING ∧ Z.land caps mask = mask) ∧
  (s ∈ (get_supported_binning_modes BINNING self).2 ↔
   ∃ mask, ((H, s), mask) ∈ _binning_modes BINNING ∧ Z.land caps mask = mask).
Proof.
  intros caps. unfold get_supported_binning_modes. cbn [fst snd].
  by rewrite !elem_of_sorted, !elem_of_collect_supported.
Qed.

End GeometryFacts.

(** ** The negotiation on sample devices *)

(** Scenario A: the horizontal factor 3 is cut to 2, the start 10 becomes 8
    (4 in binned units), the span becomes 632 binned pixels, a multiple of 4,
    and the missing vertical end becomes 1024. *)
Example trunc_roi_scenario_A :
  _trunc_roi mode_bit mode_bit scenario_camera scenario_request
  = Ok (mkRoi 8 1272 0 1024 2 1).
Proof. by vm_compute. Qed.

(** The statement of C1 (as amended) at scenario A, a camera that reduces
    its region of interest by subsampling. *)
Lemma trunc_roi_negotiated_witness :
  positive_steps scenario_camera ∧
  _roi_binning_mode scenario_camera = subsample ∧
  ∃ res, _trunc_roi mode_bit mode_bit scenario_camera scenario_request = Ok res ∧
    axis_negotiated (hstart res) (hend res) (hbin res) 16 1280 4 2 ∧
    axis_negotiated (vstart res) (vend res) (vbin res) 16 1024 4 2 ∧
    hbin res ∈ supported_factors mode_bit mode_bit scenario_camera H ∧
    vbin res ∈ supported_factors mode_bit mode_bit scenario_camera V.
Proof.
  assert (Hsteps : positive_steps scenario_camera) by (vm_compute; done).
  assert (Hmode : _roi_binning_mode scenario_camera = subsample) by reflexivity.
  split; [exact Hsteps|]. split; [exact Hmode|].
  destruct (trunc_roi_negotiated mode_bit mode_bit scenario_camera scenario_request Hsteps)
    as (res & Hres & Hh & Hv & Hfactors).
  exists res. split; [exact Hres|]. split; [exact Hh|]. split; [exact Hv|].
  exact (Hfactors Hmode).
Defined.

(** C1, counterexample. On a sensor with minimal size 32, size step 4 and
    position step 4 that subsamples by 3, a request at the right edge is
    moved to the binned window [394, 426]: the negotiation returns, and the
    start 394 is not a multiple of the position step, so the listed
    invariants do not all hold. *)
Lemma trunc_roi_breaks_position_grid :
  positive_steps edge_camera ∧
  ∃ res, _trunc_roi mode_bit mode_bit edge_camera edge_request = Ok res ∧
    ¬ axis_invariants (hstart res) (hend res) (hbin res) 32 1280 4 4
        (supported_factors mode_bit mode_bit edge_camera H).
Proof.
  split; [by vm_compute|].
  exists (mkRoi 1182 1278 0 1024 3 1). split; [by vm_compute|].
  intros (_ & Hgrid & _). vm_compute in Hgrid. discriminate.
Qed.

(** The statement of C2 (as amended) at scenario A: the negotiated window
    is on the position grid and is negotiated into itself. *)
Lemma trunc_roi_idempotent_on_grid_witness :
  positive_steps scenario_camera ∧
  axis_on_grid 8 1272 2 2 ∧ axis_on_grid 0 1024 1 2 ∧
  _trunc_roi mode_bit mode_bit scenario_camera scenario_request
  = Ok (mkRoi 8 1272 0 1024 2 1) ∧
  _trunc_roi mode_bit mode_bit scenario_camera (as_request (mkRoi 8 1272 0 1024 2 1))
  = Ok (mkRoi 8 1272 0 1024 2 1).
Proof.
  assert (Hsteps : positive_steps scenario_camera) by (vm_compute; done).
  assert (Hh : axis_on_grid 8 1272 2 2) by (vm_compute; done).
  assert (Hv : axis_on_grid 0 1024 1 2) by (vm_compute; done).
  assert (Hres : _trunc_roi mode_bit mode_bit scenario_camera scenario_request
                 = Ok (mkRoi 8 1272 0 1024 2 1)) by (vm_compute; done).
  destruct (trunc_roi_idempotent_on_grid mode_bit mode_bit scenario_camera scenario_request
              Hsteps) as (res & Hres' & Hidem).
  rewrite Hres in Hres'. injection Hres' as <-.
  split; [exact Hsteps|]. split; [exact Hh|]. split; [exact Hv|]. split; [exact Hres|].
  exact (Hidem Hh Hv).
Defined.

(** C2, counterexample. On the same sensor the window moved to the edge,
    [394, 426] in binned units, is negotiated again into [392, 424]: the
    second negotiation does not return the first result. *)
Lemma trunc_roi_not_idempotent :
  _trunc_roi mode_bit mode_bit edge_camera edge_request
  = Ok (mkRoi 1182 1278 0 1024 3 1) ∧
  _trunc_roi mode_bit mode_bit edge_camera (as_request (mkRoi 1182 1278 0 1024 3 1))
  = Ok (mkRoi 1176 1272 0 1024 3 1) ∧
  mkRoi 1176 1272 0 1024 3 1 ≠ mkRoi 1182 1278 0 1024 3 1.
Proof. split_and!; [by vm_compute|by vm_compute|discriminate]. Qed.

(** ** Truncation on sample lists *)


(** The same request on the same sensor. *)
Example truncate_subsampling_3_0 :
  _truncate_subsampling 3 0 (get_supported_subsampling_modes mode_bit scenario_camera)
  = Ok (2, 1).
Proof. by vm_compute. Qed.

(** ** The order of the supported-mode lists *)

(** C7, at a sensor that bins and subsamples by 2 vertically only: the
    subsampling query returns (horizontal, vertical), the binning query
    returns the vertical list first. *)
Lemma supported_binning_modes_vertical_first :
  get_supported_subsampling_modes mode_bit vertical_only_camera = ([1], [1; 2]) ∧
  get_supported_binning_modes mode_bit vertical_only_camera = ([1; 2], [1]).
Proof. split; by vm_compute. Qed.

(** ** Running method bodies *)

Ltac run_M :=
  unfold mbind, M_bind, mret, M_ret, get_device, get_self, put_device, put_buffers,
         put_acq_in_progress, put_frame_counter, raise, lift;
  cbv beta iota.

(** Reading a field of an updated camera or device. *)
Ltac read_fields :=
  cbn [hcam _buffers _acq_in_progress _roi_binning_mode _frame_counter
       limits aoi binning subsampling color_mode answer_color
       image_mem sequence next_mem answer_alloc image_info live sequence_cnt
       with_modes with_color_mode with_memory with_live
       set_color set_modes set_pool fst snd].

(** ** Stopping the acquisition *)

(** C3, the code at every camera state, the freshly constructed one
    included: [stop_acquisition] calls the boolean attribute
    [_acq_in_progress] and raises [TypeError] before it reads the flag,
    touches the counters or sends a device command; of two calls in a row
    already the first one raises, where the claim has both return. *)
Theorem stop_acquisition_raises (self : UC480Camera) :
  stop_acquisition self = (Raise TypeError, self) ∧
  (stop_acquisition ;; stop_acquisition) self = (Raise TypeError, self).
Proof.
  assert (Hstop : stop_acquisition self = (Raise TypeError, self)).
  { unfold stop_acquisition, call_bool. run_M. reflexivity. }
  split; [exact Hstop|].
  unfold mbind at 1, M_bind. by rewrite Hstop.
Qed.

(** [start_acquisition] begins with [stop_acquisition] and fails the same
    way. *)
Lemma start_acquisition_raises (self : UC480Camera) :
  start_acquisition self = (Raise TypeError, self).
Proof. reflexivity. Qed.

(** ** Probing the pixel formats *)

Section ColorFacts.

Variable COLORMODE : string → Z.
Variable IS_INVALID_COLOR_FORMAT : Z.

Lemma set_color_current (self : UC480Camera) :
  set_color (color_mode (hcam self)) self = self.
Proof. by destruct self as [[] ? ? ? ?]. Qed.

Lemma probe_color_mode_step (n : string) (m cm : Z) (names : list string)
    (self : UC480Camera) :
  probe_color_mode IS_INVALID_COLOR_FORMAT n m names (set_color cm self) =
  match answer_color (hcam self) m with
  | Applied => (Ok (names ++ [n]), set_color m self)
  | Replaced m' => (Ok (if decide (m = m') then names ++ [n] else names), set_color m' self)
  | Refused code =>
      if decide (code ≠ IS_INVALID_COLOR_FORMAT)
      then (Raise (uc480LibError code), set_color cm self)
      else (Ok names, set_color cm self)
  end.
Proof.
  unfold probe_color_mode, try_except_lib, is_SetColorMode_check, is_GetColorMode.
  run_M. read_fields. destruct (answer_color (hcam self) m) as [|m'|code]; cbn.
  - by destruct (decide (m = m)).
  - done.
  - by destruct (decide (code ≠ IS_INVALID_COLOR_FORMAT)).
Qed.



(** The other case: a candidate refused with another code ends the loop
    with that error, before the statement that re-applies the original
    format is reached. *)
Lemma probe_all_raises (n : string) (m code : Z) (rest : list (string * Z))
    (cm : Z) (names : list string) (self : UC480Camera) :
  answer_color (hcam self) m = Refused code →
  code ≠ IS_INVALID_COLOR_FORMAT →
  probe_all IS_INVALID_COLOR_FORMAT ((n, m) :: rest) names (set_color cm self)
  = (Raise (uc480LibError code), set_color cm self).
Proof.
  intros Hans Hcode. cbn [probe_all]. unfold mbind at 1, M_bind.
  rewrite probe_color_mode_step, Hans. by rewrite decide_True by done.
Qed.

End ColorFacts.


(** On that device the probe finds [mono8] and [mono16] and leaves the
    device in [mono8]. *)
Example check_all_color_modes_mono :
  let out := _check_all_color_modes color_code invalid_color_format
               (fresh_camera mono_device bin) in
  out.1 = Ok ["mono8"; "mono16"] ∧ color_mode (hcam out.2) = color_code "IS_CM_MONO8".
Proof. split; by vm_compute. Qed.


(** ** Decoding a frame *)

Section DecodeFacts.

Variable COLORMODE : string → Z.

Lemma get_pixel_mode_settings_of (self : UC480Camera) (name : string) (pm : option (Z * Z)) :
  name_of_code (_color_modes COLORMODE) (color_mode (hcam self)) = Ok name →
  getitem _mode_properties name = Ok pm →
  _get_pixel_mode_settings COLORMODE self = (Ok pm, self).
Proof.
  intros Hname Hpm. unfold _get_pixel_mode_settings, get_color_mode, is_GetColorMode.
  run_M. rewrite Hname. cbv beta iota. by rewrite Hpm.
Qed.

(** For a camera with a non-empty buffer list whose device
    is in a pixel format with properties (bpp, nchan) such that bpp // nchan
    is 8, 16 or 32, reading buffer [n] returns, together with the frame
    information (width, height) of slot [n mod N], an array whose elements are
    bpp // nchan // 8 bytes wide and whose shape is (height, width) when
    nchan is 1 and (height, width, nchan) when nchan > 1; the camera is left
    as it was. *)
Theorem read_buffer_shape (self : UC480Camera) (n : Z) (bs : list buffer)
    (name : string) (bpp nchan : Z) :
  _buffers self = Some bs → bs ≠ [] →
  name_of_code (_color_modes COLORMODE) (color_mode (hcam self)) = Ok name →
  getitem _mode_properties name = Ok (Some (bpp, nchan)) →
  bpp `div` nchan ∈ [8; 16; 32] →
  ∃ frame b,
    bs !! Z.to_nat (n `mod` Z.of_nat (length bs)) = Some b ∧
    let info := image_info (hcam self) b.2 in
    _read_buffer COLORMODE n self = (Ok (frame, info), self) ∧
    itemsize (dtype frame) = (bpp `div` nchan) `div` 8 ∧
    (nchan = 1 → shape frame = [info.2; info.1]) ∧
    (nchan > 1 → shape frame = [info.2; info.1; nchan]).
Proof.
  intros Hbufs Hne Hname Hpm Hwidth.
  assert (Hlen : 0 < Z.of_nat (length bs)) by (destruct bs; [done|cbn; lia]).
  pose proof (Z.mod_pos_bound n _ Hlen) as Hidx.
  destruct (lookup_lt_is_Some_2 bs (Z.to_nat (n `mod` Z.of_nat (length bs))))
    as [b Hb]; [lia|].
  assert (Hnchan : nchan ≠ 0).
  { intros ->. rewrite Z.div_0_r in Hwidth.
    rewrite !elem_of_cons, elem_of_nil in Hwidth. lia. }
  assert (Hdtype : ∃ t, getitem _np_dtypes (bpp `div` nchan) = Ok t ∧
                        itemsize t = (bpp `div` nchan) `div` 8).
  { rewrite !elem_of_cons, elem_of_nil in Hwidth.
    destruct Hwidth as [->|[->|[->|[]]]]; eexists; split; reflexivity. }
  destruct Hdtype as (t & Ht & Hsize).
  exists (mkArray ([(image_info (hcam self) b.2).2; (image_info (hcam self) b.2).1]
                   ++ (if decide (nchan > 1) then [nchan] else [])) t), b.
  split; [exact Hb|]. cbv zeta. split_and!.
  - unfold _read_buffer. run_M. rewrite Hbufs. cbv beta iota.
    rewrite modulo_ok by lia. cbv beta iota. rewrite Hb. cbv beta iota.
    rewrite (get_pixel_mode_settings_of self name _ Hname Hpm). cbv beta iota.
    rewrite floordiv_ok by done. cbv beta iota. by rewrite Ht.
  - exact Hsize.
  - intros ->. by rewrite decide_False by lia.
  - intros Hgt. by rewrite decide_True by done.
Qed.

End DecodeFacts.

(** The statement at [mono16]. *)
Lemma read_buffer_shape_witness :
  let self := camera_in_mode (color_code "IS_CM_MONO16") in
  _buffers self = Some [(1, 1)] ∧ [(1, 1)] ≠ @nil buffer ∧
  name_of_code (_color_modes color_code) (color_mode (hcam self)) = Ok "mono16" ∧
  getitem _mode_properties "mono16" = Ok (Some (16, 1)) ∧
  16 `div` 1 ∈ [8; 16; 32] ∧
  ∃ frame b,
    [(1, 1)] !! Z.to_nat (0 `mod` Z.of_nat (length [(1, 1)])) = Some b ∧
    let info := image_info (hcam self) b.2 in
    _read_buffer color_code 0 self = (Ok (frame, info), self) ∧
    itemsize (dtype frame) = (16 `div` 1) `div` 8 ∧
    (1 = 1 → shape frame = [info.2; info.1]) ∧
    (1 > 1 → shape frame = [info.2; info.1; 1]).
Proof.
  intros self.
  assert (H1 : _buffers self = Some [(1, 1)]) by reflexivity.
  assert (H2 : [(1, 1)] ≠ @nil buffer) by discriminate.
  assert (H3 : name_of_code (_color_modes color_code) (color_mode (hcam self)) = Ok "mono16")
    by (vm_compute; reflexivity).
  assert (H4 : getitem _mode_properties "mono16" = Ok (Some (16, 1)))
    by (vm_compute; reflexivity).
  assert (H5 : 16 `div` 1 ∈ [8; 16; 32]) by (right; left).
  split; [exact H1|]. split; [exact H2|]. split; [exact H3|]. split; [exact H4|].
  split; [exact H5|].
  exact (read_buffer_shape color_code self 0 [(1, 1)] "mono16" 16 1 H1 H2 H3 H4 H5).
Defined.

(** Scenario D: in [mono16] a 64x48 frame is decoded into an array of shape
    (48, 64) with 2-byte elements. *)
Example read_buffer_mono16 :
  (_read_buffer color_code 0 (camera_in_mode (color_code "IS_CM_MONO16"))).1
  = Ok (mkArray [48; 64] le_u2, (64, 48)) ∧ itemsize le_u2 = 2.
Proof. split; by vm_compute. Qed.

(** The formats whose per-channel width is a key of [_np_dtypes]: every
    format of [_mode_properties] that has properties, except [rgb10p] and
    [bgr10p]; none of the widths is 32, the key of ["<u4"]. *)
Example mode_properties_widths :
  let widths := omap (λ item : string * option (Z * Z),
                        p ← item.2; Some (item.1, p.1 `div` p.2)) _mode_properties in
  filter (λ nw : string * Z, nw.2 ∉ [8; 16]) widths = [("rgb10p", 24); ("bgr10p", 24)].
Proof. by vm_compute. Qed.

(** C8, the code at the failing input. [rgb10p] and [bgr10p] are fixed-size
    formats with properties (24, 1): the claim gives their frames 3-byte
    elements and the shape (height, width). The width 24 is no key of
    [_np_dtypes], and reading any buffer index of a camera in one of the two
    formats raises [KeyError], leaving the camera as it was. *)
Theorem read_buffer_packed10_raises (n : Z) :
  let rgb := camera_in_mode (color_code "IS_CM_RGB10_PACKED") in
  let bgr := camera_in_mode (color_code "IS_CM_BGR10_PACKED") in
  (_get_pixel_mode_settings color_code rgb = (Ok (Some (24, 1)), rgb) ∧
   (24 `div` 1) `div` 8 = 3 ∧
   _read_buffer color_code n rgb = (Raise KeyError, rgb)) ∧
  (_get_pixel_mode_settings color_code bgr = (Ok (Some (24, 1)), bgr) ∧
   _read_buffer color_code n bgr = (Raise KeyError, bgr)).
Proof.
  intros rgb bgr.
  assert (Hread : ∀ self name,
            _buffers self = Some [(1, 1)] →
            name_of_code (_color_modes color_code) (color_mode (hcam self)) = Ok name →
            getitem _mode_properties name = Ok (Some (24, 1)) →
            _read_buffer color_code n self = (Raise KeyError, self)).
  { intros self name Hbufs Hname Hpm.
    assert (Hb : [(1, 1)] !! Z.to_nat (n `mod` Z.of_nat (length [(1, 1)]))
                 = Some (1, 1)).
    { change (Z.of_nat (length [(1, 1)])) with 1. by rewrite Z.mod_1_r. }
    unfold _read_buffer. run_M.
    rewrite Hbufs. cbv beta iota. rewrite modulo_ok by done. cbv beta iota.
    rewrite Hb. cbv beta iota.
    rewrite (get_pixel_mode_settings_of color_code self name _ Hname Hpm).
    cbv beta iota. reflexivity. }
  split_and!.
  - by vm_compute.
  - by vm_compute.
  - apply (Hread rgb "rgb10p"); by vm_compute.
  - by vm_compute.
  - apply (Hread bgr "bgr10p"); by vm_compute.
Qed.

(** ** Binning against subsampling *)

Section ModeFacts.

Variable SUBSAMPLING : axis → Z → Z.
Variable BINNING : axis → Z → Z.
Variable IS_INVALID_PARAMETER : Z.

Lemma set_modes_current (self : UC480Camera) :
  set_modes (binning (hcam self)) (subsampling (hcam self)) self = self.
Proof. by destruct self as [[] ? ? ? ?]. Qed.

(** Each key of a mode table is looked up to the mask listed with it. *)
Lemma getitem_table_elem (table : axis → Z → Z) (d : axis) (s mask : Z) :
  ((d, s), mask) ∈ _subsampling_modes table →
  getitem (_subsampling_modes table) (d, s) = Ok mask.
Proof.
  unfold _subsampling_modes. rewrite !elem_of_cons, elem_of_nil.
  intros Hin. repeat (destruct Hin as [Heq|Hin]; [simplify_eq; reflexivity|]). done.
Qed.

(** An empty register reads as factor 1. *)
Lemma factor_of_0 (modes : list ((axis * Z) * Z)) (d : axis) : factor_of modes d 0 = 1.
Proof.
  unfold factor_of.
  replace (filter _ modes) with (@nil ((axis * Z) * Z)); [done|].
  induction modes as [|item modes IH]; [done|].
  rewrite filter_cons, decide_False; [done|].
  intros (_ & Hne & Hland). rewrite Z.land_0_l in Hland. congruence.
Qed.

Lemma truncate_1_1 (all_modes : list Z * list Z) :
  factor_list all_modes.1 → factor_list all_modes.2 →
  _truncate_subsampling 1 1 all_modes = Ok (1, 1).
Proof.
  destruct all_modes as [hmodes vmodes]. cbn [fst snd]. intros [Hh _] [Hv _].
  assert (Hone : ∀ l, 1 ∈ l → largest_below l (Z.max 1 1) = Ok 1).
  { intros l Hl. apply largest_below_spec. split_and!; [done|done|tauto]. }
  unfold _truncate_subsampling. by rewrite (Hone _ Hh), (Hone _ Hv).
Qed.

(** [set_subsampling()] with its default arguments empties the subsampling
    register and leaves the binning register alone. *)
Lemma set_subsampling_default (self : UC480Camera) :
  set_subsampling SUBSAMPLING IS_INVALID_PARAMETER 1 1 self
  = (Ok (1, 1), set_modes (binning (hcam self)) 0 self).
Proof.
  unfold set_subsampling. run_M.
  destruct (subsampling_factor_lists SUBSAMPLING self) as [Hh Hv].
  rewrite (truncate_1_1 _ Hh Hv). cbv beta iota.
  rewrite !(getitem_table_elem SUBSAMPLING _ 1 0) by apply table_has_1. cbv beta iota.
  unfold is_SetSubSampling, get_subsampling. run_M.
  rewrite decide_True by apply Z.land_0_r. cbv beta iota.
  read_fields. by rewrite !factor_of_0.
Qed.

Lemma set_binning_default (self : UC480Camera) :
  set_binning BINNING IS_INVALID_PARAMETER 1 1 self
  = (Ok (1, 1), set_modes 0 (subsampling (hcam self)) self).
Proof.
  unfold set_binning. run_M.
  destruct (binning_factor_lists BINNING self) as [Hh Hv].
  rewrite (truncate_1_1 _ Hh Hv). cbv beta iota.
  rewrite binning_table_eq.
  rewrite !(getitem_table_elem BINNING _ 1 0) by apply table_has_1. cbv beta iota.
  unfold is_SetBinning, get_binning. run_M.
  rewrite decide_True by apply Z.land_0_r. cbv beta iota.
  read_fields. by rewrite !factor_of_0.
Qed.

(** Every factor of a table has a key in both directions. *)
Lemma table_has_both (table : axis → Z → Z) (d d' : axis) (s mask : Z) :
  ((d, s), mask) ∈ _subsampling_modes table →
  ∃ mask', ((d', s), mask') ∈ _subsampling_modes table.
Proof.
  unfold _subsampling_modes. rewrite !elem_of_cons, elem_of_nil.
  intros Hin.
  repeat (destruct Hin as [Heq|Hin];
          [simplify_eq; destruct d'; eexists; rewrite !elem_of_cons; tauto|]).
  done.
Qed.

(** What [set_subsampling] does: it always returns, having written the masks
    of the truncated factors into the subsampling register; a non-trivial
    mask empties the binning register. *)
Lemma set_subsampling_run (self : UC480Camera) (hsub vsub : Z) :
  ∃ h v mh mv,
    _truncate_subsampling hsub vsub (get_supported_subsampling_modes SUBSAMPLING self)
    = Ok (h, v) ∧
    getitem (_subsampling_modes SUBSAMPLING) (H, h) = Ok mh ∧
    getitem (_subsampling_modes SUBSAMPLING) (V, v) = Ok mv ∧
    set_subsampling SUBSAMPLING IS_INVALID_PARAMETER hsub vsub self
    = (Ok (factor_of (_subsampling_modes SUBSAMPLING) H (Z.lor mh mv),
           factor_of (_subsampling_modes SUBSAMPLING) V (Z.lor mh mv)),
       set_modes (if bool_decide (Z.lor mh mv ≠ 0) then 0 else binning (hcam self))
                 (Z.lor mh mv) self).
Proof.
  destruct (subsampling_factor_lists SUBSAMPLING self) as [Hlh Hlv].
  destruct (truncate_on_factor_lists hsub vsub _ Hlh Hlv)
    as (h & v & Htr & Hh & Hv & _ & _).
  apply largest_below_spec in Hh as (Hh & _). apply largest_below_spec in Hv as (Hv & _).
  apply (supported_subsampling_components SUBSAMPLING self h) in Hh as (mh & Hmh & Hch).
  apply (supported_subsampling_components SUBSAMPLING self v) in Hv as (mv & Hmv & Hcv).
  exists h, v, mh, mv.
  pose proof (getitem_table_elem _ _ _ _ Hmh) as Hgh.
  pose proof (getitem_table_elem _ _ _ _ Hmv) as Hgv.
  split_and!; [done..|].
  unfold set_subsampling. run_M. rewrite Htr. cbv beta iota.
  rewrite Hgh, Hgv. cbv beta iota.
  unfold is_SetSubSampling, get_subsampling. run_M.
  rewrite decide_True by (by rewrite Z.land_lor_distr_r, Hch, Hcv).
  cbv beta iota. reflexivity.
Qed.

(** What [set_binning] does: the device takes the masks of the truncated
    factors when its capability mask holds them, and a non-trivial mask
    empties the subsampling register; otherwise the device refuses the mask
    and nothing has changed. *)
Lemma set_binning_run (self : UC480Camera) (hbin vbin : Z) :
  ∃ h v mh mv,
    _truncate_subsampling hbin vbin (get_supported_binning_modes BINNING self) = Ok (h, v) ∧
    getitem (_binning_modes BINNING) (H, h) = Ok mh ∧
    getitem (_binning_modes BINNING) (V, v) = Ok mv ∧
    set_binning BINNING IS_INVALID_PARAMETER hbin vbin self
    = if decide (Z.land (supported_binning (limits (hcam self))) (Z.lor mh mv) = Z.lor mh mv)
      then (Ok (factor_of (_binning_modes BINNING) H (Z.lor mh mv),
                factor_of (_binning_modes BINNING) V (Z.lor mh mv)),
            set_modes (Z.lor mh mv)
                      (if bool_decide (Z.lor mh mv ≠ 0) then 0 else subsampling (hcam self))
                      self)
      else (Raise (uc480LibError IS_INVALID_PARAMETER), self).
Proof.
  destruct (binning_factor_lists BINNING self) as [Hlh Hlv].
  destruct (truncate_on_factor_lists hbin vbin _ Hlh Hlv)
    as (h & v & Htr & Hh & Hv & _ & _).
  apply largest_below_spec in Hh as (Hh & _). apply largest_below_spec in Hv as (Hv & _).
  apply (supported_binning_components BINNING self h) in Hh as (mh0 & Hmh0 & _).
  apply (supported_binning_components BINNING self v) in Hv as (mv0 & Hmv0 & _).
  destruct (table_has_both BINNING V H h mh0 Hmh0) as [mh Hmh].
  destruct (table_has_both BINNING H V v mv0 Hmv0) as [mv Hmv].
  exists h, v, mh, mv.
  pose proof (getitem_table_elem _ _ _ _ Hmh) as Hgh.
  pose proof (getitem_table_elem _ _ _ _ Hmv) as Hgv.
  split_and!; [done..|].
  unfold set_binning. run_M. rewrite Htr. cbv beta iota.
  rewrite binning_table_eq, Hgh, Hgv. cbv beta iota.
  unfold is_SetBinning, get_binning. run_M.
  destruct (decide (Z.land _ _ = _)); cbv beta iota; reflexivity.
Qed.

Lemma set_roi_binning_unfold (self : UC480Camera) (hbin vbin : Z) :
  _set_roi_binning SUBSAMPLING BINNING IS_INVALID_PARAMETER hbin vbin self =
  match _roi_binning_mode self with
  | subsample =>
      (set_subsampling SUBSAMPLING IS_INVALID_PARAMETER hbin vbin ;;
       set_binning BINNING IS_INVALID_PARAMETER 1 1 ;; mret ()) self
  | bin =>
      (set_subsampling SUBSAMPLING IS_INVALID_PARAMETER 1 1 ;;
       set_binning BINNING IS_INVALID_PARAMETER hbin vbin ;; mret ()) self
  end.
Proof.
  unfold _set_roi_binning. unfold mbind at 1, M_bind, get_self. cbv beta iota.
  by destruct (_roi_binning_mode self).
Qed.

(** A register that reads as factors other than (1, 1) is not empty. *)
Lemma factors_not_1_mask (table : axis → Z → Z) (reg : Z) :
  (factor_of (_subsampling_modes table) H reg, factor_of (_subsampling_modes table) V reg)
  ≠ (1, 1) →
  bool_decide (reg ≠ 0) = true.
Proof.
  intros Hres. apply bool_decide_eq_true. intros ->. apply Hres.
  by rewrite !factor_of_0.
Qed.

Lemma get_binning_empty (bin_sub : Z) (self : UC480Camera) :
  (get_binning BINNING (set_modes 0 bin_sub self)).1 = Ok (1, 1).
Proof. unfold get_binning. run_M. read_fields. by rewrite !factor_of_0. Qed.

Lemma get_subsampling_empty (bin_reg : Z) (self : UC480Camera) :
  (get_subsampling SUBSAMPLING (set_modes bin_reg 0 self)).1 = Ok (1, 1).
Proof. unfold get_subsampling. run_M. read_fields. by rewrite !factor_of_0. Qed.

(** C5. Each setter that activates a mode keeps binning and subsampling
    exclusive, for every request and every capability masks.
    [set_subsampling] always returns; the subsampling register then holds the
    masks of the requested factors (truncated to supported ones), and when
    the factors it returns are not (1, 1) the binning factors read (1, 1).
    [set_binning], when it returns, has done the same with the two modes
    exchanged. [_set_roi_binning] leaves the mode the camera does not use for
    its region of interest at (1, 1) and, when it returns, the register of
    the mode it uses holding the masks of the requested factors. *)
Theorem setters_reset_other_mode (self : UC480Camera) (hreq vreq : Z) :
  let sub_modes := get_supported_subsampling_modes SUBSAMPLING self in
  let bin_modes := get_supported_binning_modes BINNING self in
  let roi := _set_roi_binning SUBSAMPLING BINNING IS_INVALID_PARAMETER hreq vreq self in
  (∃ res self',
     set_subsampling SUBSAMPLING IS_INVALID_PARAMETER hreq vreq self = (Ok res, self') ∧
     holds_request SUBSAMPLING sub_modes hreq vreq (subsampling (hcam self')) ∧
     (mask_table_decodes SUBSAMPLING → _truncate_subsampling hreq vreq sub_modes = Ok res) ∧
     (res ≠ (1, 1) → (get_binning BINNING self').1 = Ok (1, 1))) ∧
  (∀ res self',
     set_binning BINNING IS_INVALID_PARAMETER hreq vreq self = (Ok res, self') →
     holds_request BINNING bin_modes hreq vreq (binning (hcam self')) ∧
     (mask_table_decodes BINNING → _truncate_subsampling hreq vreq bin_modes = Ok res) ∧
     (res ≠ (1, 1) → (get_subsampling SUBSAMPLING self').1 = Ok (1, 1))) ∧
  match _roi_binning_mode self with
  | subsample =>
      roi.1 = Ok () ∧
      holds_request SUBSAMPLING sub_modes hreq vreq (subsampling (hcam roi.2)) ∧
      (get_binning BINNING roi.2).1 = Ok (1, 1)
  | bin =>
      (roi.1 = Ok () →
       holds_request BINNING bin_modes hreq vreq (binning (hcam roi.2))) ∧
      (get_subsampling SUBSAMPLING roi.2).1 = Ok (1, 1)
  end.
Proof.
  intros sub_modes bin_modes roi. split_and!.
  - destruct (set_subsampling_run self hreq vreq) as (h & v & mh & mv & Htr & Hgh & Hgv & Hrun).
    eexists _, _. split; [exact Hrun|]. split_and!.
    + exists h, v, mh, mv. by split_and!.
    + intros Hdec. destruct (Hdec h v mh mv Hgh Hgv) as [-> ->]. exact Htr.
    + intros Hres. rewrite (factors_not_1_mask SUBSAMPLING _ Hres). apply get_binning_empty.
  - intros res self' Hset.
    destruct (set_binning_run self hreq vreq) as (h & v & mh & mv & Htr & Hgh & Hgv & Hrun).
    rewrite Hrun in Hset.
    destruct (decide (Z.land _ _ = _)); [|discriminate]. injection Hset as <- <-.
    change (_binning_modes BINNING) with (_subsampling_modes BINNING) in *.
    split_and!.
    + exists h, v, mh, mv. by split_and!.
    + intros Hdec. destruct (Hdec h v mh mv Hgh Hgv) as [-> ->]. exact Htr.
    + intros Hres. rewrite (factors_not_1_mask BINNING _ Hres). apply get_subsampling_empty.
  - pose proof (set_roi_binning_unfold self hreq vreq) as Hroi. fold roi in Hroi.
    clearbody roi. destruct (_roi_binning_mode self).
    + set (s0 := set_modes (binning (hcam self)) 0 self) in *.
      destruct (set_binning_run s0 hreq vreq)
        as (h & v & mh & mv & Htr & Hgh & Hgv & Hrun).
      assert (Hval : roi = match set_binning BINNING IS_INVALID_PARAMETER hreq vreq s0 with
                           | (Ok _, s') => (Ok (), s')
                           | (Raise e, s') => (Raise e, s')
                           end).
      { rewrite Hroi. unfold mbind at 1, M_bind. rewrite set_subsampling_default.
        cbv beta iota. fold s0. unfold mbind at 1, M_bind.
        by destruct (set_binning _ _ _ _ s0) as [[?|?] ?]. }
      rewrite Hrun in Hval. clear Hroi Hrun.
      change (subsampling (hcam s0)) with 0 in Hval.
      destruct (decide (Z.land _ _ = _)); subst roi; cbn [fst snd].
      * split.
        -- intros _. exists h, v, mh, mv. split_and!; [exact Htr|exact Hgh|exact Hgv|done].
        -- destruct (bool_decide _); apply get_subsampling_empty.
      * split; [discriminate|]. apply get_subsampling_empty.
    + destruct (set_subsampling_run self hreq vreq)
        as (h & v & mh & mv & Htr & Hgh & Hgv & Hrun).
      assert (Hval : roi = (Ok (), set_modes 0 (Z.lor mh mv) self)).
      { rewrite Hroi. unfold mbind at 1, M_bind. rewrite Hrun. cbv beta iota.
        unfold mbind at 1, M_bind. by rewrite set_binning_default. }
      clear Hroi. subst roi. cbn [fst snd]. split_and!; [done| |apply get_binning_empty].
      exists h, v, mh, mv. by split_and!.
Qed.

End ModeFacts.

(** The statement of C5 on a sensor that bins and subsamples by 2 and 4 in
    both directions: [set_subsampling(2, 2)] sets the subsampling factors to
    (2, 2); [set_binning(2, 2)] then returns (2, 2), and the subsampling
    factors read (1, 1). *)
Lemma setters_reset_other_mode_witness :
  let s1 := (set_subsampling mode_bit invalid_parameter 2 2 both_modes_camera).2 in
  let s2 := (set_binning mode_bit invalid_parameter 2 2 s1).2 in
  (get_subsampling mode_bit s1).1 = Ok (2, 2) ∧
  set_binning mode_bit invalid_parameter 2 2 s1 = (Ok (2, 2), s2) ∧
  (2, 2) ≠ (1, 1) ∧
  (get_binning mode_bit s2).1 = Ok (2, 2) ∧
  (get_subsampling mode_bit s2).1 = Ok (1, 1).
Proof.
  intros s1 s2.
  assert (Hsub : (get_subsampling mode_bit s1).1 = Ok (2, 2)) by (vm_compute; reflexivity).
  assert (Hset : set_binning mode_bit invalid_parameter 2 2 s1 = (Ok (2, 2), s2))
    by (vm_compute; reflexivity).
  assert (Hne : (2, 2) ≠ (1, 1)) by discriminate.
  assert (Hbin : (get_binning mode_bit s2).1 = Ok (2, 2)) by (vm_compute; reflexivity).
  split; [exact Hsub|]. split; [exact Hset|]. split; [exact Hne|]. split; [exact Hbin|].
  destruct (setters_reset_other_mode mode_bit mode_bit invalid_parameter s1 2 2)
    as (_ & Hbinning & _).
  destruct (Hbinning (2, 2) s2 Hset) as (_ & _ & Hreset).
  exact (Hreset Hne).
Defined.

(** [_set_roi_binning(2, 2)] in binning mode on the same sensor, after
    subsampling by (2, 2). *)
Example set_roi_binning_after_subsampling :
  let s1 := (set_subsampling mode_bit invalid_parameter 2 2 both_modes_camera).2 in
  let out := _set_roi_binning mode_bit mode_bit invalid_parameter 2 2 s1 in
  out.1 = Ok () ∧
  (get_binning mode_bit out.2).1 = Ok (2, 2) ∧
  (get_subsampling mode_bit out.2).1 = Ok (1, 1).
Proof. split_and!; by vm_compute. Qed.

(** ** The buffer pool *)

Lemma elem_of_free_all (mem bs : list buffer) (x : buffer) :
  x ∈ free_all mem bs ↔ x ∈ mem ∧ x ∉ bs.
Proof.
  unfold free_all. revert mem. induction bs as [|b bs IH]; intros mem; cbn [foldl].
  - split; [|by intros [? _]]. intros Hx. split; [done|]. apply not_elem_of_nil.
  - rewrite IH, list_elem_of_filter, not_elem_of_cons. tauto.
Qed.

Lemma free_all_self (bs : list buffer) : free_all bs bs = [].
Proof.
  destruct (free_all bs bs) as [|x l] eqn:Hfree; [done|].
  assert (Hx : x ∈ free_all bs bs) by (rewrite Hfree; left).
  apply elem_of_free_all in Hx as [Hin Hnot]. done.
Qed.

Lemma set_pool_current (self : UC480Camera) :
  set_pool (image_mem (hcam self)) (sequence (hcam self)) (next_mem (hcam self))
           (_buffers self) self = self.
Proof. by destruct self as [[] ? ? ? ?]. Qed.

Lemma free_each (bs mem seq : list buffer) (next : Z) (bufs : option (list buffer))
    (self : UC480Camera) :
  for_each bs is_FreeImageMem (set_pool mem seq next bufs self)
  = (Ok (), set_pool (free_all mem bs) seq next bufs self).
Proof.
  revert mem. induction bs as [|b bs IH]; intros mem; [done|].
  cbn [for_each]. unfold mbind at 1, M_bind.
  replace (is_FreeImageMem b (set_pool mem seq next bufs self))
    with (Ok (), set_pool (filter (λ b', b' ≠ b) mem) seq next bufs self) by done.
  cbv beta iota. by rewrite IH.
Qed.

(** On a consistent pool [_deallocate_buffers] returns, with nothing left in
    the device memory, in the capture sequence or in the buffer list. *)
Lemma deallocate_buffers_frees (self : UC480Camera) :
  pool_consistent self →
  _deallocate_buffers self = (Ok (), set_pool [] [] (next_mem (hcam self)) None self).
Proof.
  intros [Hmem Hseq]. rewrite <- (set_pool_current self) at 1.
  rewrite Hmem, Hseq. unfold _deallocate_buffers. run_M.
  destruct (_buffers self) as [bs|] eqn:Hbufs; cbn [_buffers set_pool default from_option id].
  - unfold is_ClearSequence. run_M. read_fields.
    change (for_each bs is_FreeImageMem _)
      with (for_each bs is_FreeImageMem
              (set_pool bs [] (next_mem (hcam self)) (Some bs) self)).
    rewrite free_each, free_all_self. done.
  - done.
Qed.

Lemma allocate_one_step (frame_size : Z * Z) (bpp : Z) (bs : list buffer) (next : Z)
    (self : UC480Camera) :
  allocate_one frame_size bpp (set_pool bs bs next (Some bs) self) =
  match answer_alloc (hcam self) bs (frame_size.1, frame_size.2, bpp) with
  | Some code => (Raise (uc480LibError code), set_pool bs bs next (Some bs) self)
  | None =>
      let bs' := bs ++ [(next, next)] in
      (Ok (), set_pool bs' bs' (next + 1) (Some bs') self)
  end.
Proof.
  unfold allocate_one, is_AllocImageMem, buffers_append, buffers_last, is_AddToSequence.
  run_M. read_fields.
  destruct (answer_alloc (hcam self) bs _) as [code|]; cbv beta iota; [done|].
  read_fields. cbv beta iota. rewrite last_snoc. cbv beta iota zeta. read_fields. done.
Qed.

(** The loop keeps the buffer list equal to what the device holds and has in
    its sequence; it either adds [k] buffers or stops at the first refusal
    with the buffers added so far still there. *)
Lemma allocate_loop (frame_size : Z * Z) (bpp : Z) (self : UC480Camera) (k : nat) :
  ∀ (bs : list buffer) (next : Z),
  ∃ r bs' next',
    for_range k (allocate_one frame_size bpp) (set_pool bs bs next (Some bs) self)
    = (r, set_pool bs' bs' next' (Some bs') self) ∧
    ((r = Ok () ∧ length bs' = (length bs + k)%nat) ∨
     (∃ code, r = Raise (uc480LibError code) ∧ (length bs' < length bs + k)%nat)).
Proof.
  induction k as [|k IH]; intros bs next.
  - exists (Ok ()), bs, next. split; [done|]. left. split; [done|lia].
  - cbn [for_range]. unfold mbind at 1, M_bind. rewrite allocate_one_step.
    destruct (answer_alloc (hcam self) bs _) as [code|].
    + exists (Raise (uc480LibError code)), bs, next. split; [done|].
      right. exists code. split; [done|lia].
    + cbv beta iota zeta.
      destruct (IH (bs ++ [(next, next)]) (next + 1)) as (r & bs' & next' & Hrun & Hlen).
      exists r, bs', next'. rewrite Hrun. rewrite length_app in Hlen. cbn in Hlen.
      split; [by destruct r|].
      destruct Hlen as [[-> Hlen]|(code & -> & Hlen)]; [left|right; exists code];
        (split; [done|lia]).
Qed.

Section BufferFacts.

Variable SUBSAMPLING : axis → Z → Z.
Variable BINNING : axis → Z → Z.
Variable COLORMODE : string → Z.

(** Reading the frame dimensions changes nothing and raises no device
    error. *)
Lemma get_data_dimensions_reads (self : UC480Camera) :
  ∃ r, _get_data_dimensions_rc SUBSAMPLING BINNING self = (r, self) ∧
       ∀ code, r ≠ Raise (uc480LibError code).
Proof.
  unfold _get_data_dimensions_rc, get_roi, _get_roi_binning, get_subsampling, get_binning.
  run_M. destruct (_roi_binning_mode self); cbv beta iota; unfold floordiv;
    repeat case_decide; cbv beta iota; eexists; (split; [reflexivity|done]).
Qed.

Lemma get_pixel_mode_settings_reads (self : UC480Camera) :
  ∃ r, _get_pixel_mode_settings COLORMODE self = (r, self) ∧
       ∀ code, r ≠ Raise (uc480LibError code).
Proof.
  unfold _get_pixel_mode_settings, get_color_mode, is_GetColorMode. run_M.
  assert (Hname : ∀ d c e, name_of_code d c = Raise e → e = KeyError).
  { intros d c e. induction d as [|[n c'] d IH]; cbn; [congruence|].
    by destruct (decide (c' = c)). }
  assert (Hget : ∀ (d : list (string * option (Z * Z))) k e,
            getitem d k = Raise e → e = KeyError).
  { intros d k e. induction d as [|[k' v] d IH]; cbn; [congruence|].
    by destruct (decide (k' = k)). }
  destruct (name_of_code _ _) as [name|e] eqn:Hn; cbv beta iota.
  - destruct (getitem _ name) as [pm|e] eqn:Hg; eexists; (split; [reflexivity|]).
    + done.
    + apply Hget in Hg as ->. done.
  - eexists. split; [reflexivity|]. apply Hname in Hn as ->. done.
Qed.

(** What [_allocate_buffers] leaves behind, by outcome: the pool stays
    consistent with the device; on return it has [n] buffers, on a refusal by
    the device it has the buffers allocated before the refusal, and on an
    error before the loop it is empty. *)
Lemma allocate_buffers_outcome (self : UC480Camera) (n : Z) :
  pool_consistent self →
  ∃ r self',
    _allocate_buffers SUBSAMPLING BINNING COLORMODE n self = (r, self') ∧
    pool_consistent self' ∧
    match r with
    | Ok _ => ∃ bs, _buffers self' = Some bs ∧ length bs = Z.to_nat n
    | Raise (uc480LibError _) =>
        ∃ bs, _buffers self' = Some bs ∧ (length bs < Z.to_nat n)%nat
    | Raise _ => _buffers self' = None
    end.
Proof.
  intros Hpool. unfold _allocate_buffers.
  unfold mbind at 1, M_bind. rewrite (deallocate_buffers_frees self Hpool). cbv beta iota.
  set (s1 := set_pool [] [] (next_mem (hcam self)) None self).
  assert (Hs1 : pool_consistent s1) by done.
  unfold mbind at 1, M_bind.
  destruct (get_data_dimensions_reads s1) as (r1 & -> & Hr1).
  destruct r1 as [[rows cols]|e]; cbv beta iota;
    [|exists (Raise e), s1; split_and!; [done..|destruct e; try done; by destruct (Hr1 code)]].
  unfold mbind at 1, M_bind.
  destruct (get_pixel_mode_settings_reads s1) as (r2 & -> & Hr2).
  destruct r2 as [pm|e]; cbv beta iota;
    [|exists (Raise e), s1; split_and!; [done..|destruct e; try done; by destruct (Hr2 code)]].
  unfold mbind at 1, M_bind.
  destruct pm as [[bpp nchan]|]; run_M;
    [|exists (Raise TypeError), s1; split_and!; done].
  destruct (allocate_loop (cols, rows) bpp self (Z.to_nat n) [] (next_mem (hcam self)))
    as (r & bs' & next' & Hrun & Hlen).
  change (mkCamera (hcam s1) (Some []) _ _ _)
    with (set_pool [] [] (next_mem (hcam self)) (Some []) self).
  rewrite Hrun. cbn [length] in Hlen.
  destruct Hlen as [[-> Hlen]|(code & -> & Hlen)]; cbv beta iota.
  - eexists _, _. split; [reflexivity|]. split; [done|]. by exists bs'.
  - eexists _, _. split; [reflexivity|]. split; [done|]. by exists bs'.
Qed.

(** The loop by the answers of the device: it runs until the first refusal;
    the buffers granted before it, and no others, have joined the list, the
    device memory and the sequence. *)
Lemma allocate_loop_granted (frame_size : Z * Z) (bpp : Z) (self : UC480Camera) (k : nat) :
  ∀ (bs : list buffer) (next : Z),
  ∃ j : nat,
    (∀ i, (i < j)%nat →
          answer_alloc (hcam self) (bs ++ granted next i) (frame_size.1, frame_size.2, bpp)
          = None) ∧
    let bs' := bs ++ granted next j in
    let after := set_pool bs' bs' (next + Z.of_nat j) (Some bs') self in
    let run := for_range k (allocate_one frame_size bpp) (set_pool bs bs next (Some bs) self) in
    (j = k ∧ run = (Ok (), after)) ∨
    ((j < k)%nat ∧
     ∃ code, answer_alloc (hcam self) bs' (frame_size.1, frame_size.2, bpp) = Some code ∧
             run = (Raise (uc480LibError code), after)).
Proof.
  induction k as [|k IH]; intros bs next.
  - exists 0%nat. split; [intros; lia|]. left. split; [done|].
    cbn [granted for_range]. by rewrite app_nil_r, Z.add_0_r.
  - pose proof (allocate_one_step frame_size bpp bs next self) as Hstep.
    destruct (answer_alloc (hcam self) bs _) as [code|] eqn:Hans.
    + exists 0%nat. split; [intros; lia|]. right. split; [lia|]. exists code.
      cbn [granted]. rewrite app_nil_r, Z.add_0_r. split; [done|].
      cbn [for_range]. unfold mbind at 1, M_bind. by rewrite Hstep.
    + cbv zeta in Hstep.
      destruct (IH (bs ++ [(next, next)]) (next + 1)) as (j & Hgranted & Hrun).
      exists (S j). cbn [granted]. cbv zeta in Hrun |- *.
      rewrite <- !app_assoc in Hrun. cbn [app] in Hrun.
      replace (next + Z.of_nat (S j)) with (next + 1 + Z.of_nat j) by lia.
      assert (Hfirst : for_range (S k) (allocate_one frame_size bpp)
                         (set_pool bs bs next (Some bs) self)
                       = for_range k (allocate_one frame_size bpp)
                           (set_pool (bs ++ [(next, next)]) (bs ++ [(next, next)])
                                     (next + 1) (Some (bs ++ [(next, next)])) self)).
      { cbn [for_range]. unfold mbind at 1, M_bind. by rewrite Hstep. }
      rewrite Hfirst. split;
        [|destruct Hrun as [[-> Hrun]|(Hlt & Hrun)]; [by left|right; split; [lia|done]]].
      intros [|i] Hi; cbn [granted]; [by rewrite app_nil_r|].
      specialize (Hgranted i ltac:(lia)). by rewrite <- app_assoc in Hgranted.
Qed.

(** Releasing the pool changes nothing of what the frame dimensions and the
    pixel format are read from. *)
Lemma dimensions_after_release (self : UC480Camera) (mem seq : list buffer) (next : Z)
    (bufs : option (list buffer)) :
  (_get_data_dimensions_rc SUBSAMPLING BINNING (set_pool mem seq next bufs self)).1
  = (_get_data_dimensions_rc SUBSAMPLING BINNING self).1 ∧
  (_get_pixel_mode_settings COLORMODE (set_pool mem seq next bufs self)).1
  = (_get_pixel_mode_settings COLORMODE self).1.
Proof.
  split.
  - unfold _get_data_dimensions_rc, get_roi, _get_roi_binning, get_subsampling, get_binning.
    run_M. read_fields.
    destruct (_roi_binning_mode self); cbv beta iota; read_fields;
      cbn [hstart hend vstart vend hbin vbin]; unfold floordiv;
      repeat case_decide; reflexivity.
  - unfold _get_pixel_mode_settings, get_color_mode, is_GetColorMode. run_M. read_fields.
    destruct (name_of_code _ _); cbv beta iota; [|done].
    by destruct (getitem _ _).
Qed.

(** [_allocate_buffers] by what the frame dimensions, the pixel format and
    the loop give. *)
Lemma allocate_buffers_unfold (self : UC480Camera) (n : Z) :
  pool_consistent self →
  let next := next_mem (hcam self) in
  let released := set_pool [] [] next None self in
  _allocate_buffers SUBSAMPLING BINNING COLORMODE n self =
  match (_get_data_dimensions_rc SUBSAMPLING BINNING self).1 with
  | Raise e => (Raise e, released)
  | Ok (rows, cols) =>
      match (_get_pixel_mode_settings COLORMODE self).1 with
      | Raise e => (Raise e, released)
      | Ok None => (Raise TypeError, released)
      | Ok (Some (bpp, _)) =>
          match for_range (Z.to_nat n) (allocate_one (cols, rows) bpp)
                  (set_pool [] [] next (Some []) self) with
          | (Ok _, s) => (Ok n, s)
          | (Raise e, s) => (Raise e, s)
          end
      end
  end.
Proof.
  intros Hpool next released. unfold _allocate_buffers.
  unfold mbind at 1, M_bind. rewrite (deallocate_buffers_frees self Hpool). cbv beta iota.
  fold next. fold released.
  destruct (dimensions_after_release self [] [] next None) as [Hdims Hpm].
  fold released in Hdims, Hpm. rewrite <- Hdims, <- Hpm.
  unfold mbind at 1, M_bind.
  destruct (get_data_dimensions_reads released) as (r1 & -> & _). cbn [fst].
  destruct r1 as [[rows cols]|e]; cbv beta iota; [|done].
  unfold mbind at 1, M_bind.
  destruct (get_pixel_mode_settings_reads released) as (r2 & -> & _). cbn [fst].
  destruct r2 as [[[bpp nchan]|]|e]; cbv beta iota; [|done..].
  run_M.
  change (mkCamera (hcam released) (Some []) _ _ _) with (set_pool [] [] next (Some []) self).
  by destruct (for_range _ _ _) as [[[]|e] s].
Qed.

(** C4 (as amended). When the device refuses a buffer during
    [_allocate_buffers(n)] on a consistent pool, the call fails with the
    device's error and nothing is rolled back: with [k] < [n] the number of
    requests the device granted before the one it refused, exactly the [k]
    buffers granted are the buffer list, the device memory and the capture
    sequence after the call; they are all released by the next
    [_deallocate_buffers]. *)
Theorem allocate_buffers_failure_keeps_pool (self : UC480Camera) (n code : Z) :
  pool_consistent self →
  (_allocate_buffers SUBSAMPLING BINNING COLORMODE n self).1 = Raise (uc480LibError code) →
  let self' := (_allocate_buffers SUBSAMPLING BINNING COLORMODE n self).2 in
  let next := next_mem (hcam self) in
  ∃ rows cols bpp nchan (k : nat),
    (_get_data_dimensions_rc SUBSAMPLING BINNING self).1 = Ok (rows, cols) ∧
    (_get_pixel_mode_settings COLORMODE self).1 = Ok (Some (bpp, nchan)) ∧
    (k < Z.to_nat n)%nat ∧
    (∀ i, (i < k)%nat →
          answer_alloc (hcam self) (granted next i) (cols, rows, bpp) = None) ∧
    answer_alloc (hcam self) (granted next k) (cols, rows, bpp) = Some code ∧
    _buffers self' = Some (granted next k) ∧
    image_mem (hcam self') = granted next k ∧
    sequence (hcam self') = granted next k ∧
    (_deallocate_buffers self').1 = Ok () ∧
    _buffers (_deallocate_buffers self').2 = None ∧
    image_mem (hcam (_deallocate_buffers self').2) = [] ∧
    sequence (hcam (_deallocate_buffers self').2) = [].
Proof.
  intros Hpool Hfail self' next. subst self'.
  pose proof (allocate_buffers_unfold self n Hpool) as Hout. cbv zeta in Hout. fold next in Hout.
  destruct (get_data_dimensions_reads self) as (r1 & Hd & Hr1).
  destruct (get_pixel_mode_settings_reads self) as (r2 & Hp & Hr2).
  rewrite Hd, Hp in Hout |- *. cbn [fst] in Hout |- *.
  set (out := _allocate_buffers SUBSAMPLING BINNING COLORMODE n self) in *.
  clearbody out.
  destruct r1 as [[rows cols]|e];
    [|subst out; injection Hfail as ->; by destruct (Hr1 code)].
  destruct r2 as [[[bpp nchan]|]|e];
    [|subst out; discriminate|subst out; injection Hfail as ->; by destruct (Hr2 code)].
  destruct (allocate_loop_granted (cols, rows) bpp self (Z.to_nat n) [] next)
    as (k & Hgranted & Hrun).
  cbv zeta in Hrun. cbn [app fst snd] in Hgranted, Hrun.
  destruct Hrun as [[_ Hrun]|(Hlt & code' & Hans & Hrun)]; rewrite Hrun in Hout; subst out;
    [discriminate|].
  injection Hfail as ->. cbn [snd].
  exists rows, cols, bpp, nchan, k.
  set (s2 := set_pool (granted next k) (granted next k) (next + Z.of_nat k)
                      (Some (granted next k)) self).
  assert (Hs2 : pool_consistent s2) by done.
  rewrite (deallocate_buffers_frees s2 Hs2).
  split_and!; done.
Qed.

End BufferFacts.

(** The statement of C4 (as amended) at a device with room for two buffers
    that is asked for three. *)
Lemma allocate_buffers_failure_keeps_pool_witness :
  let self := fresh_camera small_memory_device bin in
  pool_consistent self ∧
  (_allocate_buffers mode_bit mode_bit color_code 3 self).1
  = Raise (uc480LibError out_of_memory) ∧
  let self' := (_allocate_buffers mode_bit mode_bit color_code 3 self).2 in
  let next := next_mem (hcam self) in
  ∃ rows cols bpp nchan (k : nat),
    (_get_data_dimensions_rc mode_bit mode_bit self).1 = Ok (rows, cols) ∧
    (_get_pixel_mode_settings color_code self).1 = Ok (Some (bpp, nchan)) ∧
    (k < Z.to_nat 3)%nat ∧
    (∀ i, (i < k)%nat →
          answer_alloc (hcam self) (granted next i) (cols, rows, bpp) = None) ∧
    answer_alloc (hcam self) (granted next k) (cols, rows, bpp) = Some out_of_memory ∧
    _buffers self' = Some (granted next k) ∧
    image_mem (hcam self') = granted next k ∧
    sequence (hcam self') = granted next k ∧
    (_deallocate_buffers self').1 = Ok () ∧
    _buffers (_deallocate_buffers self').2 = None ∧
    image_mem (hcam (_deallocate_buffers self').2) = [] ∧
    sequence (hcam (_deallocate_buffers self').2) = [].
Proof.
  intros self.
  assert (Hpool : pool_consistent self) by (split; reflexivity).
  assert (Hfail : (_allocate_buffers mode_bit mode_bit color_code 3 self).1
                  = Raise (uc480LibError out_of_memory)) by (vm_compute; reflexivity).
  split; [exact Hpool|]. split; [exact Hfail|].
  exact (allocate_buffers_failure_keeps_pool mode_bit mode_bit color_code self 3
           out_of_memory Hpool Hfail).
Defined.

(** C4, counterexample. A device with room for two buffers refuses the third
    of three: the call fails, and the two buffers allocated before are still
    in the device memory, in the capture sequence and in the buffer list;
    nothing was freed. *)
Lemma allocate_buffers_no_rollback :
  let out := _allocate_buffers mode_bit mode_bit color_code 3
               (fresh_camera small_memory_device bin) in
  out.1 = Raise (uc480LibError out_of_memory) ∧
  image_mem (hcam out.2) = [(1, 1); (2, 2)] ∧
  sequence (hcam out.2) = [(1, 1); (2, 2)] ∧
  _buffers out.2 = Some [(1, 1); (2, 2)] ∧
  image_mem (hcam out.2) ≠ [].
Proof. split_and!; by vm_compute. Qed.

(** With enough memory the pool has the requested number of buffers. *)
Example allocate_buffers_three :
  let out := _allocate_buffers mode_bit mode_bit color_code 3
               (fresh_camera (sample_device (sample_limits (16, 16) (4, 4) (2, 2) 0 0)) bin) in
  out.1 = Ok 3 ∧ _buffers out.2 = Some [(1, 1); (2, 2); (3, 3)] ∧
  sequence (hcam out.2) = [(1, 1); (2, 2); (3, 3)].
Proof. split_and!; by vm_compute. Qed.

(** * Further properties of the driver *)

(** ** The negotiated window and the detector *)

(** A request that starts at a non-negative pixel, on an axis whose minimal
    size fits the binned detector, is adjusted to a window inside the
    detector: it starts at or after pixel 0, ends at or before the detector
    extent, and spans at least the minimal size times the factor. *)
Theorem adj_roi_axis_inside_detector (start : Z) (end_ : option Z)
    (minsize detsize wstep pstep binv : Z) :
  0 < binv → 0 < pstep → 0 < wstep →
  0 ≤ start → 0 ≤ minsize ≤ detsize `div` binv →
  ∃ s e, _adj_roi_axis start end_ minsize detsize wstep pstep binv = Ok (s, e) ∧
         0 ≤ s ∧ s ≤ e ∧ e ≤ detsize ∧ minsize * binv ≤ e - s.
Proof.
  intros Hb Hp Hw Hstart [Hmin HminD]. unfold _adj_roi_axis.
  repeat (rewrite floordiv_ok by lia; cbn [mbind result_bind]).
  repeat (rewrite modulo_ok by lia; cbn [mbind result_bind]).
  set (D := detsize `div` binv) in *.
  set (s0 := Z.min (start `div` binv) D).
  set (e0 := Z.min (default detsize end_ `div` binv) D).
  set (s1 := s0 - s0 `mod` pstep).
  set (e1 := e0 - e0 `mod` pstep).
  set (e2 := e1 - (e1 - s1) `mod` wstep).
  assert (0 ≤ start `div` binv) by (apply Z.div_pos; lia).
  assert (Hs0 : 0 ≤ s0 ≤ D) by (unfold s0; lia).
  assert (He0 : e0 ≤ D) by (unfold e0; lia).
  assert (Hs1 : 0 ≤ s1 ≤ s0).
  { unfold s1. pose proof (Z.mod_pos_bound s0 pstep Hp).
    pose proof (Z.mod_le s0 pstep ltac:(lia) Hp). lia. }
  pose proof (Z.mod_pos_bound e0 pstep Hp).
  pose proof (Z.mod_pos_bound (e1 - s1) wstep Hw).
  assert (HD : D * binv ≤ detsize).
  { unfold D. pose proof (Z.mul_div_le detsize binv Hb). lia. }
  destruct (decide (e2 - s1 < minsize)) as [Hforce|Hforce];
    [destruct (decide (s1 + minsize > D)) as [Hshift|Hshift]
    |destruct (decide (e2 > D)) as [Hshift|Hshift]]; cbn [mret result_ret];
    eexists _, _; (split; [reflexivity|]); nia.
Qed.

(** The statement at a 1280-pixel axis read with factor 2. *)
Lemma adj_roi_axis_inside_detector_witness :
  0 < 2 ∧ 0 < 2 ∧ 0 < 4 ∧ 0 ≤ 1275 ∧ 0 ≤ 16 ≤ 1280 `div` 2 ∧
  ∃ s e, _adj_roi_axis 1275 None 16 1280 4 2 2 = Ok (s, e) ∧
         0 ≤ s ∧ s ≤ e ∧ e ≤ 1280 ∧ 16 * 2 ≤ e - s.
Proof.
  assert (H1 : 0 < 2) by lia. assert (H2 : 0 < 4) by lia.
  assert (H3 : 0 ≤ 1275) by lia.
  assert (H4 : 0 ≤ 16 ≤ 1280 `div` 2) by (split; [lia|by vm_compute]).
  split; [exact H1|]. split; [exact H1|]. split; [exact H2|]. split; [exact H3|].
  split; [exact H4|].
  exact (adj_roi_axis_inside_detector 1275 None 16 1280 4 2 2 H1 H1 H2 H3 H4).
Defined.

Section GeometryMore.

Variable SUBSAMPLING : axis → Z → Z.
Variable BINNING : axis → Z → Z.

Lemma adj_roi_axis_default_end (start minsize detsize wstep pstep binv : Z) :
  _adj_roi_axis start None minsize detsize wstep pstep binv
  = _adj_roi_axis start (Some detsize) minsize detsize wstep pstep binv.
Proof. reflexivity. Qed.

(** With the default arguments of [set_roi] and [_trunc_roi] (start 0, end
    [None], factor 1) the negotiation returns the full detector, whenever
    the detector extents are multiples of the steps and not smaller than the
    minimal sizes. *)
Theorem trunc_roi_default_full_frame (self : UC480Camera) :
  positive_steps self → full_frame_allowed self →
  _trunc_roi SUBSAMPLING BINNING self (mkRequest 0 None 0 None 1 1)
  = Ok (mkRoi 0 (nMaxWidth (limits (hcam self))) 0 (nMaxHeight (limits (hcam self))) 1 1).
Proof.
  intros (Hwh & Hwv & Hph & Hpv) [(Hhp & Hhw & Hh0 & Hhm) (Hvp & Hvw & Hv0 & Hvm)].
  destruct (roi_binning_factor_lists SUBSAMPLING BINNING self) as [Hlh Hlv].
  unfold _trunc_roi, get_detector_size, _get_roi_limits.
  cbn [req_hstart req_hend req_vstart req_vend req_hbin req_vbin].
  rewrite truncate_roi_binning_eq. unfold _truncate_subsampling.
  destruct (roi_binning_modes SUBSAMPLING BINNING self) as [hmodes vmodes].
  cbn [fst snd] in Hlh, Hlv.
  assert (Hone : ∀ l, factor_list l → largest_below l (Z.max 1 1) = Ok 1).
  { intros l [Hl _]. apply largest_below_spec. split_and!; [done|done|tauto]. }
  rewrite (Hone _ Hlh), (Hone _ Hlv). cbn [mbind mret result_bind result_ret fst snd].
  rewrite !adj_roi_axis_default_end.
  set (lim := limits (hcam self)) in *.
  pose proof (adj_roi_axis_fixed 0 (nMaxWidth lim) (size_min lim).1 (nMaxWidth lim)
                (size_inc lim).1 (pos_inc lim).1 1) as Hh.
  pose proof (adj_roi_axis_fixed 0 (nMaxHeight lim) (size_min lim).2 (nMaxHeight lim)
                (size_inc lim).2 (pos_inc lim).2 1) as Hv.
  rewrite !Z.mul_1_r in Hh, Hv.
  rewrite Hh, ?Hv; cbn [mbind result_bind]; rewrite ?Hv; try done; try lia;
    try apply Zmod_0_l;
    unfold axis_window; rewrite Z.div_1_r, Z.sub_0_r; split_and!; (lia || by left).
Qed.

End GeometryMore.

(** The statement at the sensor of scenario A. *)
Lemma trunc_roi_default_full_frame_witness :
  positive_steps scenario_camera ∧ full_frame_allowed scenario_camera ∧
  _trunc_roi mode_bit mode_bit scenario_camera (mkRequest 0 None 0 None 1 1)
  = Ok (mkRoi 0 1280 0 1024 1 1).
Proof.
  assert (Hsteps : positive_steps scenario_camera) by (vm_compute; done).
  assert (Hfull : full_frame_allowed scenario_camera).
  { split; (split_and!; [by vm_compute|by vm_compute|cbn; lia|cbn; lia]). }
  split; [exact Hsteps|]. split; [exact Hfull|].
  exact (trunc_roi_default_full_frame mode_bit mode_bit scenario_camera Hsteps Hfull).
Defined.

(** ** The lists of supported factors *)

Lemma strongly_sorted_strict (l : list Z) :
  StronglySorted Z.le l → NoDup l → StronglySorted Z.lt l.
Proof.
  induction 1 as [|x l Hl IH Hx]; intros Hnd; [constructor|].
  apply NoDup_cons in Hnd as [Hnot Hnd]. constructor; [by apply IH|].
  rewrite Forall_forall in Hx |- *. intros y Hy.
  pose proof (Hx y Hy). assert (x ≠ y) by (by intros ->). lia.
Qed.

(** [sorted] of a set is strictly increasing. *)
Lemma sorted_strict (s : gset Z) : StronglySorted Z.lt (sorted s).
Proof.
  apply strongly_sorted_strict.
  - apply (StronglySorted_merge_sort Z.le).
  - unfold sorted. rewrite merge_sort_Permutation. apply NoDup_elements.
Qed.

Lemma table_factor_known (table : axis → Z → Z) (d : axis) (s mask : Z) :
  ((d, s), mask) ∈ _subsampling_modes table → s ∈ known_factors.
Proof.
  unfold _subsampling_modes, known_factors. rewrite !elem_of_cons, elem_of_nil.
  intros Hin. repeat (destruct Hin as [Heq|Hin]; [simplify_eq; tauto|]). done.
Qed.

Lemma collected_known (table : axis → Z → Z) (all_modes : Z) (d : axis) (s : Z) :
  s ∈ sorted (supp_get (collect_supported all_modes (_subsampling_modes table)) d) →
  s ∈ known_factors.
Proof.
  rewrite elem_of_sorted, elem_of_collect_supported.
  intros (mask & Hin & _). by eapply table_factor_known.
Qed.

Section FactorLists.

Variable SUBSAMPLING : axis → Z → Z.
Variable BINNING : axis → Z → Z.

(** Each of the four lists the two queries return is strictly increasing
    (so it has no duplicates) and holds only factors the tables know: 1, 2,
    3, 4, 5, 6, 8, 16. *)
Theorem supported_modes_sorted (self : UC480Camera) (l : list Z) :
  l ∈ [ (get_supported_subsampling_modes SUBSAMPLING self).1;
        (get_supported_subsampling_modes SUBSAMPLING self).2;
        (get_supported_binning_modes BINNING self).1;
        (get_supported_binning_modes BINNING self).2 ] →
  StronglySorted Z.lt l ∧ ∀ s, s ∈ l → s ∈ known_factors.
Proof.
  rewrite !elem_of_cons, elem_of_nil. unfold get_supported_subsampling_modes,
    get_supported_binning_modes.
  change (_binning_modes BINNING) with (_subsampling_modes BINNING). cbn [fst snd].
  intros [->|[->|[->|[->|[]]]]]; (split; [apply sorted_strict|apply collected_known]).
Qed.

Lemma roi_binning_modes_known (self : UC480Camera) (m : Z) :
  m ∈ (roi_binning_modes SUBSAMPLING BINNING self).1 ∨
  m ∈ (roi_binning_modes SUBSAMPLING BINNING self).2 →
  m ≤ 16.
Proof.
  assert (Hle : m ∈ known_factors → m ≤ 16).
  { unfold known_factors. rewrite !elem_of_cons, elem_of_nil. lia. }
  unfold roi_binning_modes, get_supported_subsampling_modes, get_supported_binning_modes.
  change (_binning_modes BINNING) with (_subsampling_modes BINNING).
  destruct (_roi_binning_mode self); cbn [fst snd]; intros [Hm|Hm];
    apply Hle; eapply collected_known; exact Hm.
Qed.

(** A request for factors that are in the lists consulted for their axes is
    passed through unchanged. *)
Theorem truncate_roi_binning_keeps_supported (self : UC480Camera) (hbin vbin : Z) :
  hbin ∈ (roi_binning_modes SUBSAMPLING BINNING self).1 →
  vbin ∈ (roi_binning_modes SUBSAMPLING BINNING self).2 →
  _truncate_roi_binning SUBSAMPLING BINNING self hbin vbin = Ok (hbin, vbin).
Proof.
  intros Hh Hv. rewrite truncate_roi_binning_eq.
  destruct (roi_binning_factor_lists SUBSAMPLING BINNING self) as [[_ Hgeh] [_ Hgev]].
  destruct (roi_binning_modes SUBSAMPLING BINNING self) as [hmodes vmodes].
  cbn [fst snd] in *. unfold _truncate_subsampling.
  assert (Hfix : ∀ l f, f ∈ l → 1 ≤ f → largest_below l (Z.max f 1) = Ok f).
  { intros l f Hin Hf. apply largest_below_spec. rewrite Z.max_l by lia.
    split_and!; [done|lia|by intros]. }
  by rewrite (Hfix _ _ Hh (Hgeh _ Hh)), (Hfix _ _ Hv (Hgev _ Hv)).
Qed.

(** [get_roi_limits] always returns; the minimal region has factors (1, 1),
    and on a detector of at least 16x16 pixels the maximal region carries,
    per position, the largest factor of the list consulted for it. *)
Theorem get_roi_limits_largest_factors (self : UC480Camera) :
  16 ≤ nMaxWidth (limits (hcam self)) → 16 ≤ nMaxHeight (limits (hcam self)) →
  ∃ lo hi, get_roi_limits SUBSAMPLING BINNING self = Ok (lo, hi) ∧
    hbin lo = 1 ∧ vbin lo = 1 ∧
    hbin hi ∈ (roi_binning_modes SUBSAMPLING BINNING self).1 ∧
    (∀ m, m ∈ (roi_binning_modes SUBSAMPLING BINNING self).1 → m ≤ hbin hi) ∧
    vbin hi ∈ (roi_binning_modes SUBSAMPLING BINNING self).2 ∧
    (∀ m, m ∈ (roi_binning_modes SUBSAMPLING BINNING self).2 → m ≤ vbin hi).
Proof.
  intros Hw Hh.
  destruct (roi_binning_factor_lists SUBSAMPLING BINNING self) as [Hlh Hlv].
  destruct (truncate_on_factor_lists (nMaxWidth (limits (hcam self)))
              (nMaxHeight (limits (hcam self))) _ Hlh Hlv)
    as (h & v & Htr & Hbh & Hbv & _ & _).
  unfold get_roi_limits, get_detector_size, _get_roi_limits.
  rewrite truncate_roi_binning_eq, Htr. cbn [mbind mret result_bind result_ret].
  eexists _, _. split; [reflexivity|]. cbn [hbin vbin].
  apply largest_below_spec in Hbh as (Hhin & _ & Hhmax).
  apply largest_below_spec in Hbv as (Hvin & _ & Hvmax).
  split_and!; try done.
  - intros m Hm. apply Hhmax; [done|].
    pose proof (roi_binning_modes_known self m (or_introl Hm)). lia.
  - intros m Hm. apply Hvmax; [done|].
    pose proof (roi_binning_modes_known self m (or_intror Hm)). lia.
Qed.

End FactorLists.

(** The statement at the sensor of scenario A, whose subsampling lists are
    [1, 2, 4]. *)
Lemma supported_modes_sorted_witness :
  let l := (get_supported_subsampling_modes mode_bit scenario_camera).1 in
  l ∈ [ (get_supported_subsampling_modes mode_bit scenario_camera).1;
        (get_supported_subsampling_modes mode_bit scenario_camera).2;
        (get_supported_binning_modes mode_bit scenario_camera).1;
        (get_supported_binning_modes mode_bit scenario_camera).2 ] ∧
  StronglySorted Z.lt l ∧ ∀ s, s ∈ l → s ∈ known_factors.
Proof.
  intros l.
  assert (Hl : l ∈ [ (get_supported_subsampling_modes mode_bit scenario_camera).1;
                     (get_supported_subsampling_modes mode_bit scenario_camera).2;
                     (get_supported_binning_modes mode_bit scenario_camera).1;
                     (get_supported_binning_modes mode_bit scenario_camera).2 ]) by left.
  split; [exact Hl|].
  exact (supported_modes_sorted mode_bit mode_bit scenario_camera l Hl).
Defined.

Lemma truncate_roi_binning_keeps_supported_witness :
  4 ∈ (roi_binning_modes mode_bit mode_bit scenario_camera).1 ∧
  2 ∈ (roi_binning_modes mode_bit mode_bit scenario_camera).2 ∧
  _truncate_roi_binning mode_bit mode_bit scenario_camera 4 2 = Ok (4, 2).
Proof.
  assert (Hh : 4 ∈ (roi_binning_modes mode_bit mode_bit scenario_camera).1).
  { replace (roi_binning_modes mode_bit mode_bit scenario_camera).1 with [1; 2; 4]
      by (by vm_compute). rewrite !elem_of_cons. tauto. }
  assert (Hv : 2 ∈ (roi_binning_modes mode_bit mode_bit scenario_camera).2).
  { replace (roi_binning_modes mode_bit mode_bit scenario_camera).2 with [1; 2; 4]
      by (by vm_compute). rewrite !elem_of_cons. tauto. }
  split; [exact Hh|]. split; [exact Hv|].
  exact (truncate_roi_binning_keeps_supported mode_bit mode_bit scenario_camera 4 2 Hh Hv).
Defined.

Lemma get_roi_limits_largest_factors_witness :
  16 ≤ nMaxWidth (limits (hcam scenario_camera)) ∧
  16 ≤ nMaxHeight (limits (hcam scenario_camera)) ∧
  ∃ lo hi, get_roi_limits mode_bit mode_bit scenario_camera = Ok (lo, hi) ∧
    hbin lo = 1 ∧ vbin lo = 1 ∧
    hbin hi ∈ (roi_binning_modes mode_bit mode_bit scenario_camera).1 ∧
    (∀ m, m ∈ (roi_binning_modes mode_bit mode_bit scenario_camera).1 → m ≤ hbin hi) ∧
    vbin hi ∈ (roi_binning_modes mode_bit mode_bit scenario_camera).2 ∧
    (∀ m, m ∈ (roi_binning_modes mode_bit mode_bit scenario_camera).2 → m ≤ vbin hi).
Proof.
  assert (Hw : 16 ≤ nMaxWidth (limits (hcam scenario_camera))) by (cbn; lia).
  assert (Hh : 16 ≤ nMaxHeight (limits (hcam scenario_camera))) by (cbn; lia).
  split; [exact Hw|]. split; [exact Hh|].
  exact (get_roi_limits_largest_factors mode_bit mode_bit scenario_camera Hw Hh).
Defined.

(** ** Releasing and allocating the buffers *)

(** What [_deallocate_buffers] does at any camera state: nothing when the
    attribute is [None]; otherwise it empties the sequence, frees the
    buffers of the list and sets the attribute to [None]. *)
Lemma deallocate_buffers_run (self : UC480Camera) :
  _deallocate_buffers self =
  (Ok (), match _buffers self with
          | Some bs => set_pool (free_all (image_mem (hcam self)) bs) []
                                (next_mem (hcam self)) None self
          | None => self
          end).
Proof.
  unfold _deallocate_buffers. run_M.
  destruct (_buffers self) as [bs|] eqn:Hbufs; [|done].
  unfold is_ClearSequence. run_M. read_fields.
  change (for_each bs is_FreeImageMem _)
    with (for_each bs is_FreeImageMem
            (set_pool (image_mem (hcam self)) [] (next_mem (hcam self)) (_buffers self) self)).
  by rewrite free_each.
Qed.

(** Releasing twice is releasing once: the second call finds the attribute
    [None] and does nothing, whatever the state of the first call was. *)
Theorem deallocate_buffers_twice (self : UC480Camera) :
  (_deallocate_buffers ;; _deallocate_buffers) self = _deallocate_buffers self.
Proof.
  unfold mbind at 1, M_bind. rewrite (deallocate_buffers_run self). cbv beta iota.
  rewrite deallocate_buffers_run.
  by destruct (_buffers self) as [bs|] eqn:Hbufs; cbn [_buffers set_pool]; rewrite ?Hbufs.
Qed.

(** Releasing frees the buffers of the camera's own list and no other: a
    buffer is in the device memory afterwards exactly when it was there
    before and is not in the list; the capture sequence is emptied and the
    list dropped. *)
Theorem deallocate_buffers_frees_own (self : UC480Camera) (bs : list buffer) :
  _buffers self = Some bs →
  let self' := (_deallocate_buffers self).2 in
  (∀ b, b ∈ image_mem (hcam self') ↔ b ∈ image_mem (hcam self) ∧ b ∉ bs) ∧
  sequence (hcam self') = [] ∧
  _buffers self' = None.
Proof.
  intros Hbufs self'. subst self'. rewrite deallocate_buffers_run, Hbufs. cbn [snd].
  read_fields. split_and!; [|done..]. intros b. apply elem_of_free_all.
Qed.

Lemma deallocate_buffers_frees_own_witness :
  _buffers three_buffer_camera = Some [(1, 1); (2, 2); (3, 3)] ∧
  let self' := (_deallocate_buffers three_buffer_camera).2 in
  (∀ b, b ∈ image_mem (hcam self') ↔
        b ∈ image_mem (hcam three_buffer_camera) ∧ b ∉ [(1, 1); (2, 2); (3, 3)]) ∧
  sequence (hcam self') = [] ∧
  _buffers self' = None.
Proof.
  assert (Hbufs : _buffers three_buffer_camera = Some [(1, 1); (2, 2); (3, 3)])
    by reflexivity.
  split; [exact Hbufs|].
  exact (deallocate_buffers_frees_own three_buffer_camera _ Hbufs).
Defined.

Section BufferMore.

Variable SUBSAMPLING : axis → Z → Z.
Variable BINNING : axis → Z → Z.
Variable COLORMODE : string → Z.

(** A successful [_allocate_buffers(n)] on a consistent pool leaves exactly
    [n] buffers (none for a negative [n]): they are the camera's list, the
    device memory and the capture sequence, in the same order, so nothing of
    an earlier pool is left behind. *)
Theorem allocate_buffers_success (self : UC480Camera) (n k : Z) :
  pool_consistent self →
  (_allocate_buffers SUBSAMPLING BINNING COLORMODE n self).1 = Ok k →
  let self' := (_allocate_buffers SUBSAMPLING BINNING COLORMODE n self).2 in
  ∃ bs, _buffers self' = Some bs ∧
        length bs = Z.to_nat n ∧
        image_mem (hcam self') = bs ∧
        sequence (hcam self') = bs.
Proof.
  intros Hpool Hok self'.
  destruct (allocate_buffers_outcome SUBSAMPLING BINNING COLORMODE self n Hpool)
    as (r & s & Hrun & [Hmem Hseq] & Hout).
  subst self'. rewrite Hrun in Hok |- *. cbn [fst snd] in Hok |- *. subst r.
  destruct Hout as (bs & Hbufs & Hlen). exists bs.
  rewrite Hbufs in Hmem, Hseq. done.
Qed.

Lemma factor_of_ge_1 (table : axis → Z → Z) (d : axis) (reg : Z) :
  1 ≤ factor_of (_subsampling_modes table) d reg.
Proof.
  unfold factor_of.
  destruct (filter _ (_subsampling_modes table)) as [|[[d' s] mask] l] eqn:Hf; [lia|].
  assert (Hin : ((d', s), mask) ∈ filter
            (λ item : axis * Z * Z, item.1.1 = d ∧ item.2 ≠ 0 ∧ Z.land reg item.2 = item.2)
            (_subsampling_modes table)) by (rewrite Hf; left).
  apply list_elem_of_filter in Hin as [_ Hin]. cbn [fst snd].
  by eapply table_factor_ge_1.
Qed.

(** The frame dimensions are always read: the factors the device reports
    are never 0. *)
Lemma get_data_dimensions_returns (self : UC480Camera) :
  ∃ dims, _get_data_dimensions_rc SUBSAMPLING BINNING self = (Ok dims, self).
Proof.
  unfold _get_data_dimensions_rc, get_roi, _get_roi_binning, get_subsampling, get_binning.
  run_M.
  pose proof (factor_of_ge_1 SUBSAMPLING H (subsampling (hcam self))).
  pose proof (factor_of_ge_1 SUBSAMPLING V (subsampling (hcam self))).
  pose proof (factor_of_ge_1 BINNING H (binning (hcam self))).
  pose proof (factor_of_ge_1 BINNING V (binning (hcam self))).
  change (_binning_modes BINNING) with (_subsampling_modes BINNING).
  destruct (_roi_binning_mode self); cbv beta iota; cbn [hbin vbin hstart hend vstart vend];
    rewrite !floordiv_ok by lia; cbv beta iota; eexists; reflexivity.
Qed.

(** In a pixel format whose entry in [_mode_properties] is [None]
    ([cbycryp], [jpeg], [rgb8plan]) [_allocate_buffers] raises [TypeError]
    after it has released the pool it found: the camera is left without
    buffers. *)
Theorem allocate_buffers_unsupported_format (self : UC480Camera) (n : Z) (name : string) :
  pool_consistent self →
  name_of_code (_color_modes COLORMODE) (color_mode (hcam self)) = Ok name →
  getitem _mode_properties name = Ok None →
  _allocate_buffers SUBSAMPLING BINNING COLORMODE n self
  = (Raise TypeError, set_pool [] [] (next_mem (hcam self)) None self).
Proof.
  intros Hpool Hname Hprops. unfold _allocate_buffers.
  unfold mbind at 1, M_bind. rewrite (deallocate_buffers_frees self Hpool). cbv beta iota.
  set (s1 := set_pool [] [] (next_mem (hcam self)) None self).
  unfold mbind at 1, M_bind.
  destruct (get_data_dimensions_returns s1) as [[rows cols] ->]. cbv beta iota.
  unfold mbind at 1, M_bind.
  rewrite (get_pixel_mode_settings_of COLORMODE s1 name None Hname Hprops).
  cbv beta iota. reflexivity.
Qed.

End BufferMore.

Lemma allocate_buffers_success_witness :
  let self := three_buffer_camera in
  let dev := mkDevice (limits (hcam self)) (aoi (hcam self)) 0 0
               (color_mode (hcam self)) (λ _, Applied)
               [(1, 1); (2, 2); (3, 3)] [(1, 1); (2, 2); (3, 3)] 10
               (λ _ _, None) (λ _, (64, 48)) false 0 in
  let cam := mkCamera dev (Some [(1, 1); (2, 2); (3, 3)]) false bin 0 in
  pool_consistent cam ∧
  (_allocate_buffers mode_bit mode_bit color_code 2 cam).1 = Ok 2 ∧
  let self' := (_allocate_buffers mode_bit mode_bit color_code 2 cam).2 in
  ∃ bs, _buffers self' = Some bs ∧
        length bs = Z.to_nat 2 ∧
        image_mem (hcam self') = bs ∧
        sequence (hcam self') = bs.
Proof.
  intros self dev cam.
  assert (Hpool : pool_consistent cam) by (split; reflexivity).
  assert (Hok : (_allocate_buffers mode_bit mode_bit color_code 2 cam).1 = Ok 2)
    by (vm_compute; reflexivity).
  split; [exact Hpool|]. split; [exact Hok|].
  exact (allocate_buffers_success mode_bit mode_bit color_code cam 2 2 Hpool Hok).
Defined.

Lemma allocate_buffers_unsupported_format_witness :
  let self := fresh_camera
                (mkDevice (sample_limits (16, 16) (4, 4) (2, 2) 0 0) (mkRect 0 0 64 48)
                          0 0 (color_code "IS_CM_JPEG") (λ _, Applied)
                          [] [] 1 (λ _ _, None) (λ _, (64, 48)) false 0) bin in
  pool_consistent self ∧
  name_of_code (_color_modes color_code) (color_mode (hcam self)) = Ok "jpeg" ∧
  getitem _mode_properties "jpeg" = Ok None ∧
  _allocate_buffers mode_bit mode_bit color_code 4 self
  = (Raise TypeError, set_pool [] [] (next_mem (hcam self)) None self).
Proof.
  intros self.
  assert (Hpool : pool_consistent self) by (split; reflexivity).
  assert (Hname : name_of_code (_color_modes color_code) (color_mode (hcam self)) = Ok "jpeg")
    by (vm_compute; reflexivity).
  assert (Hprops : getitem _mode_properties "jpeg" = Ok None) by (vm_compute; reflexivity).
  split; [exact Hpool|]. split; [exact Hname|]. split; [exact Hprops|].
  exact (allocate_buffers_unsupported_format mode_bit mode_bit color_code self 4 "jpeg"
           Hpool Hname Hprops).
Defined.

(** ** Reading frames from the ring *)

Lemma for_collect_reads {A B : Type} (body : A → M B) (self : UC480Camera) (l : list A) :
  (∀ x, x ∈ l → ∃ y, body x self = (Ok y, self)) →
  ∃ ys, for_collect l body self = (Ok ys, self) ∧
        length ys = length l ∧
        ∀ i x, l !! i = Some x → ∃ y, ys !! i = Some y ∧ body x self = (Ok y, self).
Proof.
  induction l as [|x l IH]; intros Hall.
  - exists []. split_and!; [done|done|]. intros i x Hx. by rewrite lookup_nil in Hx.
  - destruct (Hall x) as [y Hy]; [left|].
    destruct IH as (ys & Hrun & Hlen & Hnth); [intros x' Hx'; apply Hall; by right|].
    exists (y :: ys). split_and!.
    + cbn [for_collect]. unfold mbind at 1, M_bind. rewrite Hy. cbv beta iota.
      unfold mbind at 1, M_bind. by rewrite Hrun.
    + cbn. by rewrite Hlen.
    + intros [|i] x' Hx'; cbn in Hx' |- *.
      * injection Hx' as <-. by exists y.
      * by apply Hnth.
Qed.

Section DecodeMore.

Variable COLORMODE : string → Z.

(** The ring: buffer [n] and buffer [n + k N] of a pool of [N] buffers are
    the same slot, so reading them gives the same result (the same frame, or
    the same error). *)
Theorem read_buffer_wraps (self : UC480Camera) (bs : list buffer) (n k : Z) :
  _buffers self = Some bs →
  _read_buffer COLORMODE (n + k * Z.of_nat (length bs)) self
  = _read_buffer COLORMODE n self.
Proof.
  intros Hbufs. unfold _read_buffer. run_M. rewrite Hbufs. cbv beta iota.
  replace (modulo (n + k * Z.of_nat (length bs)) (Z.of_nat (length bs)))
    with (modulo n (Z.of_nat (length bs))); [done|].
  unfold modulo. destruct (decide (Z.of_nat (length bs) = 0)); [done|].
  by rewrite Z_mod_plus_full.
Qed.

(** With buffers and a pixel format whose element width is 8, 16 or 32 bits
    every buffer index can be read, and reading changes nothing. *)
Lemma read_buffer_returns (self : UC480Camera) (n : Z) (bs : list buffer)
    (name : string) (bpp nchan : Z) :
  _buffers self = Some bs → bs ≠ [] →
  name_of_code (_color_modes COLORMODE) (color_mode (hcam self)) = Ok name →
  getitem _mode_properties name = Ok (Some (bpp, nchan)) →
  bpp `div` nchan ∈ [8; 16; 32] →
  ∃ res, _read_buffer COLORMODE n self = (Ok res, self).
Proof.
  intros Hbufs Hne Hname Hpm Hwidth.
  assert (Hlen : 0 < Z.of_nat (length bs)) by (destruct bs; [done|cbn; lia]).
  pose proof (Z.mod_pos_bound n _ Hlen) as Hidx.
  destruct (lookup_lt_is_Some_2 bs (Z.to_nat (n `mod` Z.of_nat (length bs))))
    as [b Hb]; [lia|].
  assert (Hnchan : nchan ≠ 0).
  { intros ->. rewrite Z.div_0_r in Hwidth.
    rewrite !elem_of_cons, elem_of_nil in Hwidth. lia. }
  assert (Hdtype : ∃ t, getitem _np_dtypes (bpp `div` nchan) = Ok t).
  { rewrite !elem_of_cons, elem_of_nil in Hwidth.
    destruct Hwidth as [->|[->|[->|[]]]]; eexists; reflexivity. }
  destruct Hdtype as (t & Ht).
  unfold _read_buffer. run_M. rewrite Hbufs. cbv beta iota.
  rewrite modulo_ok by lia. cbv beta iota. rewrite Hb. cbv beta iota.
  rewrite (get_pixel_mode_settings_of COLORMODE self name _ Hname Hpm). cbv beta iota.
  rewrite floordiv_ok by done. cbv beta iota. rewrite Ht. eexists. reflexivity.
Qed.

(** [_read_frames((a, b))] on such a camera returns two lists of
    [max(b - a, 0)] entries each, the frame and the frame information of
    buffer [a + i] at position [i], and leaves the camera as it was. *)
Theorem read_frames_all (self : UC480Camera) (a b : Z) (bs : list buffer)
    (name : string) (bpp nchan : Z) :
  _buffers self = Some bs → bs ≠ [] →
  name_of_code (_color_modes COLORMODE) (color_mode (hcam self)) = Ok name →
  getitem _mode_properties name = Ok (Some (bpp, nchan)) →
  bpp `div` nchan ∈ [8; 16; 32] →
  ∃ frames infos,
    _read_frames COLORMODE (a, b) self = (Ok (frames, infos), self) ∧
    length frames = Z.to_nat (b - a) ∧
    length infos = Z.to_nat (b - a) ∧
    ∀ i, (i < Z.to_nat (b - a))%nat →
         ∃ frame info, frames !! i = Some frame ∧ infos !! i = Some info ∧
                       _read_buffer COLORMODE (a + Z.of_nat i) self
                       = (Ok (frame, info), self).
Proof.
  intros Hbufs Hne Hname Hpm Hwidth.
  destruct (for_collect_reads (_read_buffer COLORMODE) self (seqZ a (b - a)))
    as (data & Hrun & Hlen & Hnth).
  { intros n _. by eapply read_buffer_returns. }
  rewrite length_seqZ in Hlen.
  exists (data.*1), (data.*2). split_and!.
  - unfold _read_frames. cbn [fst snd]. unfold mbind at 1, M_bind. by rewrite Hrun.
  - by rewrite length_fmap.
  - by rewrite length_fmap.
  - intros i Hi.
    destruct (Hnth i (a + Z.of_nat i)) as ([frame info] & Hdata & Hread).
    { apply lookup_seqZ_lt. lia. }
    exists frame, info. rewrite !list_lookup_fmap, Hdata. done.
Qed.

End DecodeMore.

Lemma read_buffer_wraps_witness :
  _buffers three_buffer_camera = Some [(1, 1); (2, 2); (3, 3)] ∧
  _read_buffer color_code (1 + 5 * Z.of_nat (length [(1, 1); (2, 2); (3, 3)]))
               three_buffer_camera
  = _read_buffer color_code 1 three_buffer_camera.
Proof.
  assert (Hbufs : _buffers three_buffer_camera = Some [(1, 1); (2, 2); (3, 3)])
    by reflexivity.
  split; [exact Hbufs|].
  exact (read_buffer_wraps color_code three_buffer_camera _ 1 5 Hbufs).
Defined.

Lemma read_frames_all_witness :
  let self := three_buffer_camera in
  _buffers self = Some [(1, 1); (2, 2); (3, 3)] ∧ [(1, 1); (2, 2); (3, 3)] ≠ @nil buffer ∧
  name_of_code (_color_modes color_code) (color_mode (hcam self)) = Ok "mono8" ∧
  getitem _mode_properties "mono8" = Ok (Some (8, 1)) ∧
  8 `div` 1 ∈ [8; 16; 32] ∧
  ∃ frames infos,
    _read_frames color_code (2, 7) self = (Ok (frames, infos), self) ∧
    length frames = Z.to_nat (7 - 2) ∧
    length infos = Z.to_nat (7 - 2) ∧
    ∀ i, (i < Z.to_nat (7 - 2))%nat →
         ∃ frame info, frames !! i = Some frame ∧ infos !! i = Some info ∧
                       _read_buffer color_code (2 + Z.of_nat i) self
                       = (Ok (frame, info), self).
Proof.
  intros self.
  assert (H1 : _buffers self = Some [(1, 1); (2, 2); (3, 3)]) by reflexivity.
  assert (H2 : [(1, 1); (2, 2); (3, 3)] ≠ @nil buffer) by discriminate.
  assert (H3 : name_of_code (_color_modes color_code) (color_mode (hcam self)) = Ok "mono8")
    by (vm_compute; reflexivity).
  assert (H4 : getitem _mode_properties "mono8" = Ok (Some (8, 1)))
    by (vm_compute; reflexivity).
  assert (H5 : 8 `div` 1 ∈ [8; 16; 32]) by left.
  split; [exact H1|]. split; [exact H2|]. split; [exact H3|]. split; [exact H4|].
  split; [exact H5|].
  exact (read_frames_all color_code self 2 7 _ "mono8" 8 1 H1 H2 H3 H4 H5).
Defined.

(** ** The DLL version of the device information *)

(** The three fields split the version number at bits 16 and 24: they are
    [(major, minor, build)] exactly for the number
    [major * 2^24 + minor * 2^16 + build] with an 8-bit [minor] and a 16-bit
    [build]. *)
Lemma dll_ver_fields_iff (v major minor build : Z) :
  dll_ver_fields v = (major, minor, build) ↔
  v = major * 2 ^ 24 + minor * 2 ^ 16 + build ∧ 0 ≤ minor < 2 ^ 8 ∧ 0 ≤ build < 2 ^ 16.
Proof.
  unfold dll_ver_fields.
  change 0xFF with (Z.ones 8). change 0xFFFF with (Z.ones 16).
  rewrite !Z.land_ones, !Z.shiftr_div_pow2 by lia.
  change (2 ^ 24) with 16777216. change (2 ^ 16) with 65536. change (2 ^ 8) with 256.
  split.
  - intros [= <- <- <-]. Z.to_euclidean_division_equations. lia.
  - intros (-> & Hminor & Hbuild). f_equal; [f_equal|];
      Z.to_euclidean_division_equations; lia.
Qed.

(** A version packed as [major * 2^24 + minor * 2^16 + build], with [minor]
    below 256 and [build] below 65536, is formatted as
    ["major.minor.build"]. *)
Theorem dll_ver_string_packed (major minor build : Z) :
  0 ≤ minor < 2 ^ 8 → 0 ≤ build < 2 ^ 16 →
  dll_ver_string (major * 2 ^ 24 + minor * 2 ^ 16 + build)
  = pretty major +:+ "." +:+ pretty minor +:+ "." +:+ pretty build.
Proof.
  intros Hminor Hbuild. unfold dll_ver_string.
  by rewrite (proj2 (dll_ver_fields_iff _ major minor build)).
Qed.

Lemma dll_ver_string_packed_witness :
  0 ≤ 20 < 2 ^ 8 ∧ 0 ≤ 18 < 2 ^ 16 ∧
  dll_ver_string (4 * 2 ^ 24 + 20 * 2 ^ 16 + 18)
  = pretty 4 +:+ "." +:+ pretty 20 +:+ "." +:+ pretty 18.
Proof.
  assert (H1 : 0 ≤ 20 < 2 ^ 8) by (cbn; lia).
  assert (H2 : 0 ≤ 18 < 2 ^ 16) by (cbn; lia).
  split; [exact H1|]. split; [exact H2|].
  exact (dll_ver_string_packed 4 20 18 H1 H2).
Defined.

(** ** Choosing a monochrome pixel format *)

Section MonoFacts.

Variable COLORMODE : string → Z.
Variable IS_INVALID_COLOR_FORMAT : Z.

Lemma name_of_code_elem (d : list (string * Z)) (n : string) (c : Z) :
  (n, c) ∈ d → ∃ n', name_of_code d c = Ok n'.
Proof.
  induction d as [|[n0 c0] d IH]; intros Hin; [by apply elem_of_nil in Hin|].
  cbn. destruct (decide (c0 = c)); [by eexists|].
  apply elem_of_cons in Hin as [[= -> ->]|Hin]; [done|by apply IH].
Qed.

(** [set_color_mode] of a name of the table, by the answer of the device. *)
Lemma set_color_mode_step (mode : string) (code cm : Z) (self : UC480Camera) :
  (mode, code) ∈ _color_modes COLORMODE →
  getitem (_color_modes COLORMODE) mode = Ok code →
  match answer_color (hcam self) code with
  | Applied => ∃ name, set_color_mode COLORMODE mode (set_color cm self)
                       = (Ok name, set_color code self)
  | Replaced _ => True
  | Refused err => set_color_mode COLORMODE mode (set_color cm self)
                   = (Raise (uc480LibError err), set_color cm self)
  end.
Proof.
  intros Hin Hcode. unfold set_color_mode, is_SetColorMode_check, get_color_mode,
    is_GetColorMode. run_M. rewrite Hcode. cbv beta iota. read_fields.
  destruct (answer_color (hcam self) code) as [| |err]; cbv beta iota; [|done..].
  read_fields. destruct (name_of_code_elem _ _ _ Hin) as [name ->]. by exists name.
Qed.

(** One turn of the loop, by the outcome of [set_color_mode]. *)
Lemma try_color_mode_set (mode name : string) (self self' : UC480Camera) :
  set_color_mode COLORMODE mode self = (Ok name, self') →
  try_except_lib
    (set_color_mode COLORMODE mode ;; mret true)
    (λ code, if decide (code ≠ IS_INVALID_COLOR_FORMAT)
             then raise (uc480LibError code) else mret false) self
  = (Ok true, self').
Proof.
  intros Hset. unfold try_except_lib. unfold mbind at 1, M_bind. by rewrite Hset.
Qed.

Lemma try_color_mode_refused (mode : string) (err : Z) (self self' : UC480Camera) :
  set_color_mode COLORMODE mode self = (Raise (uc480LibError err), self') →
  try_except_lib
    (set_color_mode COLORMODE mode ;; mret true)
    (λ code, if decide (code ≠ IS_INVALID_COLOR_FORMAT)
             then raise (uc480LibError code) else mret false) self
  = if decide (err ≠ IS_INVALID_COLOR_FORMAT)
    then (Raise (uc480LibError err), self') else (Ok false, self').
Proof.
  intros Hset. unfold try_except_lib. unfold mbind at 1, M_bind. rewrite Hset.
  by destruct (decide (err ≠ IS_INVALID_COLOR_FORMAT)).
Qed.

(** On a monochrome sensor [_set_auto_mono_color_mode] prefers [mono16]:
    when the device applies it, the camera ends in [mono16]; when the device
    refuses it with [IS_INVALID_COLOR_FORMAT], [mono8] is tried, and the
    camera ends in [mono8] if that is applied and in its old format, without
    an error, if that is refused the same way; a refusal of [mono16] with
    any other code is raised at once. On any other sensor nothing is
    done. *)
Theorem set_auto_mono_color_mode_order (self : UC480Camera) :
  let m16 := COLORMODE "IS_CM_MONO16" in
  let m8 := COLORMODE "IS_CM_MONO8" in
  let run := _set_auto_mono_color_mode COLORMODE IS_INVALID_COLOR_FORMAT in
  (answer_color (hcam self) m16 = Applied →
   run 1 self = (Ok (), set_color m16 self)) ∧
  (answer_color (hcam self) m16 = Refused IS_INVALID_COLOR_FORMAT →
   answer_color (hcam self) m8 = Applied →
   run 1 self = (Ok (), set_color m8 self)) ∧
  (answer_color (hcam self) m16 = Refused IS_INVALID_COLOR_FORMAT →
   answer_color (hcam self) m8 = Refused IS_INVALID_COLOR_FORMAT →
   run 1 self = (Ok (), self)) ∧
  (∀ err, err ≠ IS_INVALID_COLOR_FORMAT →
          answer_color (hcam self) m16 = Refused err →
          run 1 self = (Raise (uc480LibError err), self)) ∧
  (∀ nColorMode, nColorMode ≠ 1 → run nColorMode self = (Ok (), self)).
Proof.
  intros m16 m8 run.
  assert (Hin16 : ("mono16", m16) ∈ _color_modes COLORMODE).
  { unfold _color_modes. rewrite !elem_of_cons. tauto. }
  assert (Hin8 : ("mono8", m8) ∈ _color_modes COLORMODE).
  { unfold _color_modes. rewrite !elem_of_cons. tauto. }
  assert (Hget16 : getitem (_color_modes COLORMODE) "mono16" = Ok m16) by reflexivity.
  assert (Hget8 : getitem (_color_modes COLORMODE) "mono8" = Ok m8) by reflexivity.
  pose proof (set_color_mode_step "mono16" m16 (color_mode (hcam self)) self Hin16 Hget16)
    as Hstep16.
  pose proof (set_color_mode_step "mono8" m8 (color_mode (hcam self)) self Hin8 Hget8)
    as Hstep8.
  rewrite set_color_current in Hstep16, Hstep8.
  assert (Hrun : run 1 self = try_color_modes COLORMODE IS_INVALID_COLOR_FORMAT
                                ["mono16"; "mono8"] self) by reflexivity.
  split_and!.
  - intros Hans. rewrite Hans in Hstep16. destruct Hstep16 as [name Hset].
    rewrite Hrun. cbn [try_color_modes]. unfold mbind at 1; unfold M_bind at 1.
    by rewrite (try_color_mode_set _ _ _ _ Hset).
  - intros Hans16 Hans8. rewrite Hans16 in Hstep16. rewrite Hans8 in Hstep8.
    destruct Hstep8 as [name Hset8].
    rewrite Hrun. cbn [try_color_modes]. unfold mbind at 1; unfold M_bind at 1.
    rewrite (try_color_mode_refused _ _ _ _ Hstep16).
    rewrite decide_False by (intros Hne; by apply Hne). cbv beta iota.
    unfold mbind at 1; unfold M_bind at 1. by rewrite (try_color_mode_set _ _ _ _ Hset8).
  - intros Hans16 Hans8. rewrite Hans16 in Hstep16. rewrite Hans8 in Hstep8.
    rewrite Hrun. cbn [try_color_modes]. unfold mbind at 1; unfold M_bind at 1.
    rewrite (try_color_mode_refused _ _ _ _ Hstep16).
    rewrite decide_False by (intros Hne; by apply Hne). cbv beta iota.
    unfold mbind at 1; unfold M_bind at 1. rewrite (try_color_mode_refused _ _ _ _ Hstep8).
    by rewrite decide_False by (intros Hne; by apply Hne).
  - intros err Herr Hans. rewrite Hans in Hstep16.
    rewrite Hrun. cbn [try_color_modes]. unfold mbind at 1; unfold M_bind at 1.
    rewrite (try_color_mode_refused _ _ _ _ Hstep16).
    by rewrite decide_True by done.
  - intros c Hc. subst run. unfold _set_auto_mono_color_mode.
    by rewrite decide_False by done.
Qed.

End MonoFacts.

(** The second case at a device that has [mono8] and not [mono16]: the
    camera goes from [raw8] to [mono8]. *)
Lemma set_auto_mono_color_mode_order_witness :
  let self := fresh_camera mono8_only_device bin in
  answer_color (hcam self) (color_code "IS_CM_MONO16") = Refused invalid_color_format ∧
  answer_color (hcam self) (color_code "IS_CM_MONO8") = Applied ∧
  _set_auto_mono_color_mode color_code invalid_color_format 1 self
  = (Ok (), set_color (color_code "IS_CM_MONO8") self).
Proof.
  intros self.
  assert (H16 : answer_color (hcam self) (color_code "IS_CM_MONO16")
                = Refused invalid_color_format) by reflexivity.
  assert (H8 : answer_color (hcam self) (color_code "IS_CM_MONO8") = Applied)
    by reflexivity.
  split; [exact H16|]. split; [exact H8|].
  destruct (set_auto_mono_color_mode_order color_code invalid_color_format self)
    as (_ & Hsecond & _).
  exact (Hsecond H16 H8).
Defined.

(** ** Setting the region of interest *)

Lemma getitem_elem {K V : Type} `{EqDecision K} (d : list (K * V)) (k : K) (v : V) :
  getitem d k = Ok v → (k, v) ∈ d.
Proof.
  induction d as [|[k' v'] d IH]; cbn; [discriminate|].
  destruct (decide (k' = k)) as [->|]; [intros [= ->]; left|intros Hd; right; by apply IH].
Qed.

(** The one-bit-per-factor masks of the examples can be read back. *)
Lemma mode_bit_decodes : mask_table_decodes mode_bit.
Proof.
  intros h v mh mv Hh Hv.
  pose proof (table_factor_known _ _ _ _ (getitem_elem _ _ _ Hh)) as Hhk.
  pose proof (table_factor_known _ _ _ _ (getitem_elem _ _ _ Hv)) as Hvk.
  unfold known_factors in Hhk, Hvk. rewrite !elem_of_cons, elem_of_nil in Hhk, Hvk.
  destruct Hhk as [->|[->|[->|[->|[->|[->|[->|[->|[]]]]]]]]];
    vm_compute in Hh; injection Hh as <-;
    destruct Hvk as [->|[->|[->|[->|[->|[->|[->|[->|[]]]]]]]]];
    vm_compute in Hv; injection Hv as <-; by vm_compute.
Qed.

Section RoiFacts.

Variable SUBSAMPLING : axis → Z → Z.
Variable BINNING : axis → Z → Z.
Variable IS_INVALID_PARAMETER : Z.

(** In subsampling mode [_set_roi_binning] with factors of the supported
    lists writes their two masks into the subsampling register and empties
    the binning register. *)
Lemma set_roi_binning_subsample (self : UC480Camera) (h v : Z) :
  _roi_binning_mode self = subsample →
  h ∈ (get_supported_subsampling_modes SUBSAMPLING self).1 →
  v ∈ (get_supported_subsampling_modes SUBSAMPLING self).2 →
  ∃ mh mv,
    getitem (_subsampling_modes SUBSAMPLING) (H, h) = Ok mh ∧
    getitem (_subsampling_modes SUBSAMPLING) (V, v) = Ok mv ∧
    _set_roi_binning SUBSAMPLING BINNING IS_INVALID_PARAMETER h v self
    = (Ok (), set_modes 0 (Z.lor mh mv) self).
Proof.
  intros Hmode Hh Hv.
  destruct (subsampling_factor_lists SUBSAMPLING self) as [[_ Hgeh] [_ Hgev]].
  assert (Htr : _truncate_subsampling h v (get_supported_subsampling_modes SUBSAMPLING self)
                = Ok (h, v)).
  { destruct (get_supported_subsampling_modes SUBSAMPLING self) as [hmodes vmodes].
    cbn [fst snd] in *. unfold _truncate_subsampling.
    assert (Hfix : ∀ l f, f ∈ l → 1 ≤ f → largest_below l (Z.max f 1) = Ok f).
    { intros l f Hin Hf. apply largest_below_spec. rewrite Z.max_l by lia.
      split_and!; [done|lia|by intros]. }
    by rewrite (Hfix _ _ Hh (Hgeh _ Hh)), (Hfix _ _ Hv (Hgev _ Hv)). }
  apply (supported_subsampling_components SUBSAMPLING self h) in Hh as (mh & Hmh & Hch).
  apply (supported_subsampling_components SUBSAMPLING self v) in Hv as (mv & Hmv & Hcv).
  exists mh, mv.
  pose proof (getitem_table_elem _ _ _ _ Hmh) as Hgh.
  pose proof (getitem_table_elem _ _ _ _ Hmv) as Hgv.
  split; [done|]. split; [done|].
  rewrite set_roi_binning_unfold, Hmode.
  assert (Hset : ∃ res b,
            set_subsampling SUBSAMPLING IS_INVALID_PARAMETER h v self
            = (Ok res, set_modes b (Z.lor mh mv) self)).
  { unfold set_subsampling. run_M. rewrite Htr. cbv beta iota.
    rewrite Hgh, Hgv. cbv beta iota.
    unfold is_SetSubSampling, get_subsampling. run_M.
    rewrite decide_True by (by rewrite Z.land_lor_distr_r, Hch, Hcv).
    cbv beta iota. eexists _, _. reflexivity. }
  destruct Hset as (res & b & Hset).
  unfold mbind at 1; unfold M_bind at 1. rewrite Hset. cbv beta iota.
  unfold mbind at 1; unfold M_bind at 1. by rewrite set_binning_default.
Qed.

(** In subsampling mode [get_roi] scales the area of interest of the device
    by the factors the subsampling register reads as. *)
Lemma get_roi_subsample (self : UC480Camera) :
  _roi_binning_mode self = subsample →
  get_roi SUBSAMPLING BINNING self =
  (Ok (let rect := aoi (hcam self) in
       let hbin := factor_of (_subsampling_modes SUBSAMPLING) H (subsampling (hcam self)) in
       let vbin := factor_of (_subsampling_modes SUBSAMPLING) V (subsampling (hcam self)) in
       mkRoi (s32X rect * hbin) ((s32X rect + s32Width rect) * hbin)
             (s32Y rect * vbin) ((s32Y rect + s32Height rect) * vbin) hbin vbin),
   self).
Proof.
  intros Hmode. unfold get_roi, _get_roi_binning, get_subsampling. run_M.
  by rewrite Hmode.
Qed.

(** In subsampling mode, with positive steps and mode masks that can be read
    back, on a device that takes the rectangle as it is sent: [set_roi]
    returns the region of interest that [_trunc_roi] negotiates for the
    request, and [get_roi] returns the same region afterwards. *)
Theorem set_roi_returns_negotiated (self : UC480Camera) (r : roi_request) :
  positive_steps self →
  _roi_binning_mode self = subsample →
  mask_table_decodes SUBSAMPLING →
  ∃ res self',
    _trunc_roi SUBSAMPLING BINNING self r = Ok res ∧
    set_roi SUBSAMPLING BINNING IS_INVALID_PARAMETER r self = (Ok res, self') ∧
    get_roi SUBSAMPLING BINNING self' = (Ok res, self').
Proof.
  intros Hsteps Hmode Hdec.
  destruct (trunc_roi_returns SUBSAMPLING BINNING self r Hsteps)
    as (h & v & sh & eh & sv & ev & Hh & Hv & Hh1 & Hv1 & _ & _ & Hres).
  apply largest_below_spec in Hh as (Hhin & _).
  apply largest_below_spec in Hv as (Hvin & _).
  unfold roi_binning_modes in Hhin, Hvin. rewrite Hmode in Hhin, Hvin.
  destruct (set_roi_binning_subsample self h v Hmode Hhin Hvin)
    as (mh & mv & Hgh & Hgv & Hbin).
  destruct (Hdec h v mh mv Hgh Hgv) as [Hfh Hfv].
  set (rect := mkRect sh sv (eh - sh) (ev - sv)).
  set (self' := set_aoi rect (set_modes 0 (Z.lor mh mv) self)).
  assert (Hget : get_roi SUBSAMPLING BINNING self'
                 = (Ok (mkRoi (sh * h) (eh * h) (sv * v) (ev * v) h v), self')).
  { rewrite get_roi_subsample by done. cbv zeta. subst self' rect.
    cbn [hcam set_aoi set_modes with_aoi with_modes aoi subsampling
         s32X s32Y s32Width s32Height].
    rewrite Hfh, Hfv. do 2 f_equal. f_equal; lia. }
  eexists _, self'. split; [exact Hres|]. split; [|exact Hget].
  unfold set_roi. unfold mbind at 1; unfold M_bind at 1. unfold get_self. cbv beta iota.
  unfold mbind at 1; unfold M_bind at 1. unfold lift at 1. rewrite Hres. cbv beta iota.
  cbn [hstart hend vstart vend hbin vbin].
  unfold mbind at 1; unfold M_bind at 1. rewrite Hbin. cbv beta iota.
  replace (eh * h - sh * h) with ((eh - sh) * h) by lia.
  replace (ev * v - sv * v) with ((ev - sv) * v) by lia.
  repeat (unfold mbind at 1; unfold M_bind at 1; unfold lift at 1;
          rewrite floordiv_ok by lia; rewrite Z.div_mul by lia; cbv beta iota).
  unfold mbind at 1; unfold M_bind at 1.
  change (is_AOI_set (mkRect sh sv (eh - sh) (ev - sv)) (set_modes 0 (Z.lor mh mv) self))
    with (Ok (), self').
  cbv beta iota. exact Hget.
Qed.

End RoiFacts.

(** The statement at scenario A. *)
Lemma set_roi_returns_negotiated_witness :
  positive_steps scenario_camera ∧
  _roi_binning_mode scenario_camera = subsample ∧
  mask_table_decodes mode_bit ∧
  ∃ res self',
    _trunc_roi mode_bit mode_bit scenario_camera scenario_request = Ok res ∧
    set_roi mode_bit mode_bit invalid_parameter scenario_request scenario_camera
    = (Ok res, self') ∧
    get_roi mode_bit mode_bit self' = (Ok res, self').
Proof.
  assert (Hsteps : positive_steps scenario_camera) by (vm_compute; done).
  assert (Hmode : _roi_binning_mode scenario_camera = subsample) by reflexivity.
  split; [exact Hsteps|]. split; [exact Hmode|]. split; [exact mode_bit_decodes|].
  exact (set_roi_returns_negotiated mode_bit mode_bit invalid_parameter scenario_camera
           scenario_request Hsteps Hmode mode_bit_decodes).
Defined.

(** * The byte-array helpers *)

(** ** Reading little-endian integers *)

Lemma item_drop (x : list Z) (off : Z) (k : nat) :
  0 ≤ off →
  nbtools.item x (off + Z.of_nat k) = drop (Z.to_nat off) x !! k.
Proof.
  intros Hoff. unfold nbtools.item. rewrite decide_True by lia.
  rewrite lookup_drop. f_equal. lia.
Qed.

(** The bytes a read of [n] bytes at [off] touches, when they are inside
    the array. *)
Lemma bytes_at_items (x : list Z) (off : Z) (n : nat) :
  nbtools.byte_array x → 0 ≤ off → (Z.to_nat off + n ≤ length x)%nat →
  ∃ bytes, nbtools.bytes_at x off n = bytes ∧ length bytes = n ∧
           Forall (λ b, 0 ≤ b < 256) bytes ∧
           ∀ k : nat, (k < n)%nat → nbtools.item x (off + Z.of_nat k) = bytes !! k.
Proof.
  intros Hx Hoff Hlen. exists (nbtools.bytes_at x off n). unfold nbtools.bytes_at.
  split_and!; [done| | |].
  - rewrite length_take, length_drop. lia.
  - by apply Forall_take, Forall_drop.
  - intros k Hk. rewrite item_drop by done. by rewrite lookup_take_lt.
Qed.

Ltac read_bytes Hx Hoff Hlen n :=
  destruct (bytes_at_items _ _ n Hx Hoff Hlen) as (bytes & -> & Hn & Hbytes & Hitem);
  repeat (destruct bytes as [|? bytes]; [discriminate Hn|]);
  destruct bytes; [|discriminate Hn];
  repeat match goal with
         | H : Forall _ (_ :: _) |- _ => apply Forall_cons in H as [? H]
         end.

Ltac use_item Hitem k :=
  let H := fresh in
  pose proof (Hitem k ltac:(lia)) as H;
  let z := eval vm_compute in (Z.of_nat k) in change (Z.of_nat k) with z in H;
  cbn [lookup list_lookup] in H; rewrite H; clear H.

Ltac le_arith :=
  unfold nbtools.add64, nbtools.shl64; unfold nbtools.wrap_u, nbtools.wrap_i;
  rewrite ?Z.shiftl_mul_pow2 by lia; cbn [nbtools.le_value];
  repeat match goal with |- context [2 ^ ?k] =>
    let v := eval vm_compute in (2 ^ k) in change (2 ^ k) with v end;
  repeat case_decide; try f_equal;
  Z.to_euclidean_division_equations; lia.

(** On an array of bytes, [au1], [au2], [au4] and [au8] at an offset whose
    1, 2, 4 or 8 bytes are inside the array return the number these bytes
    stand for in little-endian order. *)
Theorem au_little_endian (x : list Z) (off : Z) :
  nbtools.byte_array x → 0 ≤ off →
  ((Z.to_nat off + 1 ≤ length x)%nat →
   nbtools.au1 x off = Some (nbtools.le_value (nbtools.bytes_at x off 1))) ∧
  ((Z.to_nat off + 2 ≤ length x)%nat →
   nbtools.au2 x off = Some (nbtools.le_value (nbtools.bytes_at x off 2))) ∧
  ((Z.to_nat off + 4 ≤ length x)%nat →
   nbtools.au4 x off = Some (nbtools.le_value (nbtools.bytes_at x off 4))) ∧
  ((Z.to_nat off + 8 ≤ length x)%nat →
   nbtools.au8 x off = Some (nbtools.le_value (nbtools.bytes_at x off 8))).
Proof.
  intros Hx Hoff. split_and!; intros Hlen.
  - read_bytes Hx Hoff Hlen 1%nat. unfold nbtools.au1.
    replace off with (off + 0) at 1 by lia. use_item Hitem 0%nat. cbn. f_equal. lia.
  - read_bytes Hx Hoff Hlen 2%nat. unfold nbtools.au2.
    use_item Hitem 1%nat. use_item Hitem 0%nat. cbn [mbind option_bind]. le_arith.
  - read_bytes Hx Hoff Hlen 4%nat. unfold nbtools.au4.
    use_item Hitem 3%nat. use_item Hitem 2%nat. use_item Hitem 1%nat. use_item Hitem 0%nat.
    cbn [mbind option_bind]. le_arith.
  - read_bytes Hx Hoff Hlen 8%nat. unfold nbtools.au8.
    use_item Hitem 7%nat. use_item Hitem 6%nat. use_item Hitem 5%nat. use_item Hitem 4%nat.
    use_item Hitem 3%nat. use_item Hitem 2%nat. use_item Hitem 1%nat. use_item Hitem 0%nat.
    cbn [mbind option_bind]. le_arith.
Qed.

(** The statement for the 2-byte read at offset 1 of a 9-byte array and the
    other reads at the same place. *)
Lemma au_little_endian_witness :
  let x := [0; 52; 18; 255; 1; 2; 3; 4; 5] in
  nbtools.byte_array x ∧ 0 ≤ 1 ∧
  nbtools.au1 x 1 = Some (nbtools.le_value (nbtools.bytes_at x 1 1)) ∧
  nbtools.au2 x 1 = Some (nbtools.le_value (nbtools.bytes_at x 1 2)) ∧
  nbtools.au4 x 1 = Some (nbtools.le_value (nbtools.bytes_at x 1 4)) ∧
  nbtools.au8 x 1 = Some (nbtools.le_value (nbtools.bytes_at x 1 8)).
Proof.
  intros x.
  assert (Hx : nbtools.byte_array x).
  { unfold nbtools.byte_array, x. repeat (apply Forall_cons; split; [lia|]).
    apply Forall_nil_2. }
  assert (Hoff : 0 ≤ 1) by lia.
  split; [exact Hx|]. split; [exact Hoff|].
  destruct (au_little_endian x 1 Hx Hoff) as (H1 & H2 & H4 & H8).
  split; [apply H1; cbn; lia|]. split; [apply H2; cbn; lia|].
  split; [apply H4; cbn; lia|apply H8; cbn; lia].
Defined.

(** The 2-byte read of the bytes 0x34, 0x12 is 0x1234. *)
Example au2_example : nbtools.au2 [0; 52; 18; 255] 1 = Some 0x1234.
Proof. reflexivity. Qed.

(** On an array of bytes, [ai1], [ai2], [ai4] and [ai8] at an offset whose
    1, 2, 4 or 8 bytes are inside the array return the two's-complement
    reading of the little-endian number of these bytes: the number itself
    when its top bit is clear, and the number minus 2^8, 2^16, 2^32 or 2^64
    otherwise. *)
Theorem ai_twos_complement (x : list Z) (off : Z) :
  nbtools.byte_array x → 0 ≤ off →
  ((Z.to_nat off + 1 ≤ length x)%nat →
   nbtools.ai1 x off
   = Some (twos_complement 8 (nbtools.le_value (nbtools.bytes_at x off 1)))) ∧
  ((Z.to_nat off + 2 ≤ length x)%nat →
   nbtools.ai2 x off
   = Some (twos_complement 16 (nbtools.le_value (nbtools.bytes_at x off 2)))) ∧
  ((Z.to_nat off + 4 ≤ length x)%nat →
   nbtools.ai4 x off
   = Some (twos_complement 32 (nbtools.le_value (nbtools.bytes_at x off 4)))) ∧
  ((Z.to_nat off + 8 ≤ length x)%nat →
   nbtools.ai8 x off
   = Some (twos_complement 64 (nbtools.le_value (nbtools.bytes_at x off 8)))).
Proof.
  intros Hx Hoff. split_and!; intros Hlen.
  - read_bytes Hx Hoff Hlen 1%nat. unfold nbtools.ai1, twos_complement.
    replace off with (off + 0) at 1 by lia. use_item Hitem 0%nat.
    cbn [mbind option_bind]. le_arith.
  - read_bytes Hx Hoff Hlen 2%nat. unfold nbtools.ai2, twos_complement.
    use_item Hitem 1%nat. use_item Hitem 0%nat. cbn [mbind option_bind]. le_arith.
  - read_bytes Hx Hoff Hlen 4%nat. unfold nbtools.ai4, twos_complement.
    use_item Hitem 3%nat. use_item Hitem 2%nat. use_item Hitem 1%nat. use_item Hitem 0%nat.
    cbn [mbind option_bind]. le_arith.
  - read_bytes Hx Hoff Hlen 8%nat. unfold nbtools.ai8, twos_complement.
    use_item Hitem 7%nat. use_item Hitem 6%nat. use_item Hitem 5%nat. use_item Hitem 4%nat.
    use_item Hitem 3%nat. use_item Hitem 2%nat. use_item Hitem 1%nat. use_item Hitem 0%nat.
    cbn [mbind option_bind]. le_arith.
Qed.

Lemma ai_twos_complement_witness :
  let x := [0; 52; 18; 255; 1; 2; 3; 4; 255] in
  nbtools.byte_array x ∧ 0 ≤ 1 ∧
  nbtools.ai1 x 1
  = Some (twos_complement 8 (nbtools.le_value (nbtools.bytes_at x 1 1))) ∧
  nbtools.ai2 x 1
  = Some (twos_complement 16 (nbtools.le_value (nbtools.bytes_at x 1 2))) ∧
  nbtools.ai4 x 1
  = Some (twos_complement 32 (nbtools.le_value (nbtools.bytes_at x 1 4))) ∧
  nbtools.ai8 x 1
  = Some (twos_complement 64 (nbtools.le_value (nbtools.bytes_at x 1 8))).
Proof.
  intros x.
  assert (Hx : nbtools.byte_array x).
  { unfold nbtools.byte_array, x. repeat (apply Forall_cons; split; [lia|]).
    apply Forall_nil_2. }
  assert (Hoff : 0 ≤ 1) by lia.
  split; [exact Hx|]. split; [exact Hoff|].
  destruct (ai_twos_complement x 1 Hx Hoff) as (H1 & H2 & H4 & H8).
  split; [apply H1; cbn; lia|]. split; [apply H2; cbn; lia|].
  split; [apply H4; cbn; lia|apply H8; cbn; lia].
Defined.

(** The 2-byte read of the bytes 0xFE, 0xFF is -2. *)
Example ai2_example : nbtools.ai2 [254; 255] 0 = Some (-2).
Proof. reflexivity. Qed.

(** * The copy loops *)

Lemma for_opt_ext {S X : Type} (l : list X) (f g : S → X → option S) (s : S) :
  (∀ s x, f s x = g s x) → nbtools.for_opt l f s = nbtools.for_opt l g s.
Proof.
  intros Hfg. revert s. induction l as [|x l IH]; intros s; [done|].
  cbn [nbtools.for_opt]. rewrite Hfg. destruct (g s x); cbn [mbind option_bind]; [apply IH|done].
Qed.

Lemma assign_defined {A : Type} (src : list A) (i : nat) (dst : list A) (j : nat) (v : A) :
  src !! i = Some v → (j < length dst)%nat →
  nbtools.assign src i dst j = Some (<[j := v]> dst).
Proof.
  intros Hv Hj. unfold nbtools.assign. rewrite Hv. cbn [mbind option_bind].
  by rewrite decide_True.
Qed.

(** One chunk: the inner loop of [copy_strided] for the places [a .. a+k-1]
    of the chunk read at [si] and written at [di]. *)
Lemma copy_row {A : Type} (src : list A) (si di : nat) (k a : nat) (dst : list A) :
  (∀ p, a ≤ p < a + k → si + p < length src)%nat →
  (di + a + k ≤ length dst)%nat →
  ∃ dst', nbtools.for_opt (seq a k)
            (λ dst p, nbtools.assign src (si + p) dst (di + p)) dst = Some dst' ∧
          length dst' = length dst ∧
          (∀ p, (a ≤ p < a + k)%nat → dst' !! (di + p)%nat = src !! (si + p)%nat) ∧
          (∀ j, ¬ (di + a ≤ j < di + a + k)%nat → dst' !! j = dst !! j).
Proof.
  revert a dst. induction k as [|k IH]; intros a dst Hsrc Hdst.
  - exists dst. split_and!; [done|done|intros; lia|done].
  - cbn [seq nbtools.for_opt].
    destruct (lookup_lt_is_Some_2 src (si + a)) as [v Hv]; [apply Hsrc; lia|].
    rewrite (assign_defined src (si + a) dst (di + a) v Hv) by lia.
    cbn [mbind option_bind].
    destruct (IH (S a) (<[(di + a)%nat := v]> dst)) as (dst' & Hrun & Hlen & Hin & Hout).
    { intros p Hp. apply Hsrc. lia. }
    { rewrite length_insert. lia. }
    exists dst'. rewrite length_insert in Hlen. split_and!; [done|done| |].
    + intros p Hp. destruct (decide (p = a)) as [->|Hne].
      * rewrite Hout by lia. rewrite list_lookup_insert_eq by lia. done.
      * apply Hin. lia.
    + intros j Hj. rewrite Hout by lia. apply list_lookup_insert_ne. lia.
Qed.

Lemma copy_rows {A : Type} (src : list A) (size stride off : nat) (m b : nat)
    (dst : list A) :
  (∀ i p, b ≤ i < b + m → p < size → i * stride + off + p < length src)%nat →
  ((b + m) * size ≤ length dst)%nat →
  ∃ dst', nbtools.for_opt (seq b m)
            (λ dst i, nbtools.for_opt (seq 0 size)
               (λ dst p, nbtools.assign src (i * stride + off + p) dst (i * size + p)) dst)
            dst = Some dst' ∧
          length dst' = length dst ∧
          (∀ i p, (b ≤ i < b + m)%nat → (p < size)%nat →
             dst' !! (i * size + p)%nat = src !! (i * stride + off + p)%nat) ∧
          (∀ j, ¬ (b * size ≤ j < (b + m) * size)%nat → dst' !! j = dst !! j).
Proof.
  revert b dst. induction m as [|m IH]; intros b dst Hsrc Hdst.
  - exists dst. split_and!; [done|done|intros; lia|done].
  - cbn [seq nbtools.for_opt].
    destruct (copy_row src (b * stride + off) (b * size) size 0 dst)
      as (dst1 & Hrun1 & Hlen1 & Hin1 & Hout1).
    { intros p Hp. apply Hsrc; lia. }
    { nia. }
    rewrite Hrun1. cbn [mbind option_bind].
    destruct (IH (S b) dst1) as (dst' & Hrun & Hlen & Hin & Hout).
    { intros i p Hi Hp. apply Hsrc; lia. }
    { rewrite Hlen1. nia. }
    exists dst'. split_and!; [done|congruence| |].
    + intros i p Hi Hp. destruct (decide (i = b)) as [->|Hne].
      * rewrite Hout by nia. apply Hin1. lia.
      * apply Hin; lia.
    + intros j Hj. rewrite Hout by nia. apply Hout1. nia.
Qed.

(** [copy_strided(src, dst, n, size, stride, off)], when every place it
    reads is inside [src] and [dst] holds at least [n * size] elements,
    completes and leaves [dst] with its length unchanged, with element [p]
    of chunk [i] equal to [src[i*stride+off+p]] for every [i < n] and
    [p < size], and with every element from [n * size] on as it was. *)
Theorem copy_strided_chunks {A : Type} (src dst : list A) (n size stride off : nat) :
  (∀ i p, i < n → p < size → i * stride + off + p < length src)%nat →
  (n * size ≤ length dst)%nat →
  ∃ dst', nbtools.copy_strided src dst n size stride off = Some dst' ∧
          length dst' = length dst ∧
          (∀ i p, (i < n)%nat → (p < size)%nat →
             dst' !! (i * size + p)%nat = src !! (i * stride + off + p)%nat) ∧
          (∀ j, (n * size ≤ j)%nat → dst' !! j = dst !! j).
Proof.
  intros Hsrc Hdst. unfold nbtools.copy_strided.
  destruct (copy_rows src size stride off n 0 dst) as (dst' & Hrun & Hlen & Hin & Hout).
  { intros i p Hi Hp. apply Hsrc; lia. }
  { done. }
  exists dst'. split_and!; [done|done| |].
  - intros i p Hi Hp. apply Hin; lia.
  - intros j Hj. apply Hout. lia.
Qed.

(** Three chunks of two elements taken from every third place on, from
    offset 1, into an array of eight. *)
Lemma copy_strided_chunks_witness :
  let src := [10; 11; 12; 13; 14; 15; 16; 17; 18; 19] in
  let dst := [0; 0; 0; 0; 0; 0; 7; 8] in
  (∀ i p, i < 3 → p < 2 → i * 3 + 1 + p < length src)%nat ∧
  (3 * 2 ≤ length dst)%nat ∧
  ∃ dst', nbtools.copy_strided src dst 3 2 3 1 = Some dst' ∧
          length dst' = length dst ∧
          (∀ i p, (i < 3)%nat → (p < 2)%nat →
             dst' !! (i * 2 + p)%nat = src !! (i * 3 + 1 + p)%nat) ∧
          (∀ j, (3 * 2 ≤ j)%nat → dst' !! j = dst !! j).
Proof.
  intros src dst.
  assert (Hsrc : (∀ i p, i < 3 → p < 2 → i * 3 + 1 + p < length src)%nat).
  { intros i p Hi Hp. cbn [length src]. lia. }
  assert (Hdst : (3 * 2 ≤ length dst)%nat) by (cbn [length dst]; lia).
  split; [exact Hsrc|]. split; [exact Hdst|].
  exact (copy_strided_chunks src dst 3 2 3 1 Hsrc Hdst).
Defined.

Example copy_strided_example :
  nbtools.copy_strided [10; 11; 12; 13; 14; 15; 16; 17; 18; 19]
    [0; 0; 0; 0; 0; 0; 7; 8] 3 2 3 1
  = Some [11; 12; 14; 15; 17; 18; 7; 8].
Proof. reflexivity. Qed.

(** With the stride equal to the chunk size and the offset zero,
    [copy_strided] is [copy], as the docstring of [copy_array_strided]
    says. *)
Lemma copy_strided_mimics_copy {A : Type} (src dst : list A) (n size : nat) :
  nbtools.copy_strided src dst n size size 0 = nbtools.copy src dst n size.
Proof.
  unfold nbtools.copy_strided, nbtools.copy.
  apply for_opt_ext. intros s i. apply for_opt_ext. intros s' p.
  by replace (i * size + 0 + p)%nat with (i * size + p)%nat by lia.
Qed.

(** [copy(src, dst, n, size)], when both arrays hold at least [n * size]
    elements, completes and leaves [dst] holding the first [n * size]
    elements of [src] followed by its own elements from [n * size] on. *)
Theorem copy_prefix {A : Type} (src dst : list A) (n size : nat) :
  (n * size ≤ length src)%nat → (n * size ≤ length dst)%nat →
  nbtools.copy src dst n size
  = Some (take (n * size) src ++ drop (n * size) dst).
Proof.
  intros Hsrc Hdst. rewrite <- copy_strided_mimics_copy.
  destruct (copy_rows src size size 0 n 0 dst) as (dst' & Hrun & Hlen & Hin & Hout).
  { intros i p Hi Hp. nia. }
  { done. }
  unfold nbtools.copy_strided. rewrite Hrun. f_equal.
  apply list_eq. intros j.
  destruct (decide (j < n * size)%nat) as [Hj|Hj].
  - rewrite lookup_app_l by (rewrite length_take; lia).
    rewrite lookup_take_lt by lia.
    assert (Hsize : (0 < size)%nat) by nia.
    pose proof (Nat.div_mod_eq j size) as Hdm.
    pose proof (Nat.mod_upper_bound j size ltac:(lia)) as Hmod.
    assert (Hdiv : (j `div` size < n)%nat) by (apply Nat.Div0.div_lt_upper_bound; lia).
    specialize (Hin (j `div` size)%nat (j `mod` size)%nat ltac:(lia) Hmod).
    replace (j `div` size * size + j `mod` size)%nat with j in Hin by lia.
    replace (j `div` size * size + 0 + j `mod` size)%nat with j in Hin by lia.
    done.
  - rewrite lookup_app_r by (rewrite length_take; lia).
    rewrite length_take, lookup_drop. rewrite Hout by lia. f_equal. lia.
Qed.

(** Two chunks of three elements into an array of eight. *)
Lemma copy_prefix_witness :
  let src := [1; 2; 3; 4; 5; 6; 7] in
  let dst := [0; 0; 0; 0; 0; 0; 8; 9] in
  (2 * 3 ≤ length src)%nat ∧ (2 * 3 ≤ length dst)%nat ∧
  nbtools.copy src dst 2 3 = Some (take (2 * 3) src ++ drop (2 * 3) dst).
Proof.
  intros src dst.
  assert (Hsrc : (2 * 3 ≤ length src)%nat) by (cbn [length src]; lia).
  assert (Hdst : (2 * 3 ≤ length dst)%nat) by (cbn [length dst]; lia).
  split; [exact Hsrc|]. split; [exact Hdst|].
  exact (copy_prefix src dst 2 3 Hsrc Hdst).
Defined.
